(** * xen-dmbus.c: the dmbus client of the Xen device model

    A shallow embedding of [qemu-1.4.0/xen-dmbus.c] and the properties of
    its framing, dispatch, reconnection and send paths.

    The service structure becomes a record, the receive buffer a list of
    bytes together with the C [int] that counts its valid prefix, and every
    call into the transport (v4v) or into the QEMU scheduler a transition on
    an explicit [world].  Loops take fuel; a blocking read with nothing left
    to read, an out-of-bounds access and an exhausted fuel are three
    different outcomes. *)

From Stdlib Require Import ZArith List Bool Lia.
From Stdlib Require Import Strings.Byte.
Import ListNotations.
Local Open Scope Z_scope.

(* ================================================================== *)
(** ** Machine integers *)

(** [int] and [uint32_t] are 32 bits wide, [size_t] is 64 bits wide. *)
Definition INT_MAX : Z := 2 ^ 31 - 1.

(** Conversion to [uint32_t]. *)
Definition to_uint32 (z : Z) : Z := z mod 2 ^ 32.

(** Conversion to [size_t]. *)
Definition to_size_t (z : Z) : Z := z mod 2 ^ 64.

(** Conversion to [int]: reduction modulo 2^32 into [-2^31, 2^31). *)
Definition to_int (z : Z) : Z := (z + 2 ^ 31) mod 2 ^ 32 - 2 ^ 31.

(** The values of [errno] the code tests (Linux numbering). *)
Definition EINTR : Z := 4.
Definition EAGAIN : Z := 11.
Definition ECONNRESET : Z := 104.

(* ================================================================== *)
(** ** Bytes in memory *)

Definition byte_to_Z (b : byte) : Z := Z.of_N (Byte.to_N b).

Definition byte_of_Z (z : Z) : byte :=
  match Byte.of_N (Z.to_N (z mod 256)) with
  | Some b => b
  | None => x00
  end.

(** A little-endian [uint32_t] read at byte offset [off]. *)
Definition load_u32 (mem : list byte) (off : nat) : Z :=
  byte_to_Z (nth off mem x00)
  + 2 ^ 8 * byte_to_Z (nth (off + 1) mem x00)
  + 2 ^ 16 * byte_to_Z (nth (off + 2) mem x00)
  + 2 ^ 24 * byte_to_Z (nth (off + 3) mem x00).

(** The four bytes of a [uint32_t], least significant first. *)
Definition bytes_of_u32 (v : Z) : list byte :=
  [ byte_of_Z v; byte_of_Z (v / 2 ^ 8);
    byte_of_Z (v / 2 ^ 16); byte_of_Z (v / 2 ^ 24) ].

(** [bs] written over [mem] from offset [off]; [None] when the write does
    not fit in [mem]. *)
Definition store_bytes (mem : list byte) (off : Z) (bs : list byte)
  : option (list byte) :=
  if (0 <=? off) && (off + Z.of_nat (length bs) <=? Z.of_nat (length mem))
  then Some (firstn (Z.to_nat off) mem ++ bs
             ++ skipn (Z.to_nat off + length bs) mem)
  else None.

(** [memmove(mem, mem + src, n)]: [None] when the source range leaves
    [mem]. *)
Definition memmove_to_front (mem : list byte) (src n : Z)
  : option (list byte) :=
  if (0 <=? src) && (0 <=? n) && (src + n <=? Z.of_nat (length mem))
  then Some (firstn (Z.to_nat n) (skipn (Z.to_nat src) mem)
             ++ skipn (Z.to_nat n) mem)
  else None.

(* ================================================================== *)
(** ** What [libdmbus.h] declares *)

(** The protocol library's header is not part of this file: its constants
    are parameters of the development.  The two header fields the code
    reads are 32-bit unsigned integers at the given byte offsets. *)
Record dmbus_config : Type := {
  DMBUS_MAX_MSG_LEN : Z;
  sizeof_hdr : Z;                      (* sizeof(struct dmbus_msg_hdr) *)
  off_msg_type : nat;                  (* offsetof(dmbus_msg_hdr, msg_type) *)
  off_msg_len : nat;                   (* offsetof(dmbus_msg_hdr, msg_len) *)
  DMBUS_MSG_DOM0_INPUT_EVENT : Z;
  DMBUS_MSG_DISPLAY_INFO : Z;
  DMBUS_MSG_DISPLAY_EDID : Z;
  DMBUS_MSG_DEVICE_MODEL_READY : Z;
  DMBUS_MSG_INPUT_CONFIG : Z;
  DMBUS_MSG_INPUT_CONFIG_RESET : Z
}.

(** The message types [handle_message] has a case for. *)
Definition known_tags (cfg : dmbus_config) : list Z :=
  [ DMBUS_MSG_DOM0_INPUT_EVENT cfg; DMBUS_MSG_DISPLAY_INFO cfg;
    DMBUS_MSG_DISPLAY_EDID cfg; DMBUS_MSG_DEVICE_MODEL_READY cfg;
    DMBUS_MSG_INPUT_CONFIG cfg; DMBUS_MSG_INPUT_CONFIG_RESET cfg ].

(** What any C compiler accepting the file guarantees of these constants:
    the two fields lie inside the header without overlapping, a message
    buffer holds at least a header and its size fits an [int], and the
    case labels of the [switch] are distinct. *)
Record config_ok (cfg : dmbus_config) : Prop := {
  ok_type_in_hdr : Z.of_nat (off_msg_type cfg) + 4 <= sizeof_hdr cfg;
  ok_len_in_hdr : Z.of_nat (off_msg_len cfg) + 4 <= sizeof_hdr cfg;
  ok_fields_apart :
    (off_msg_type cfg + 4 <= off_msg_len cfg)%nat
    \/ (off_msg_len cfg + 4 <= off_msg_type cfg)%nat;
  ok_hdr_fits : sizeof_hdr cfg <= DMBUS_MAX_MSG_LEN cfg;
  ok_max_int : DMBUS_MAX_MSG_LEN cfg <= INT_MAX;
  ok_tags : NoDup (known_tags cfg)
}.

(** A configuration to run the definitions on: type then length, eight
    bytes of header, messages of at most 32 bytes. *)
Definition example_cfg : dmbus_config := {|
  DMBUS_MAX_MSG_LEN := 32;
  sizeof_hdr := 8;
  off_msg_type := 0;
  off_msg_len := 4;
  DMBUS_MSG_DOM0_INPUT_EVENT := 1;
  DMBUS_MSG_DISPLAY_INFO := 2;
  DMBUS_MSG_DISPLAY_EDID := 3;
  DMBUS_MSG_DEVICE_MODEL_READY := 4;
  DMBUS_MSG_INPUT_CONFIG := 5;
  DMBUS_MSG_INPUT_CONFIG_RESET := 6
|}.

(* ================================================================== *)
(** ** The service and its environment *)

(** [struct dmbus_ops]: a slot is [true] when the callback is set. *)
Record dmbus_ops : Type := {
  dom0_input_event : bool;
  display_info : bool;
  display_edid : bool;
  input_config : bool;
  input_config_reset : bool;
  reconnect : bool
}.

(** [struct service].  [peer], [opaque] and [prologue] are only used when
    connecting; the state of [reconnect_timer] lives in the scheduler, that
    is in the [world]. *)
Record service : Type := {
  fd : Z;
  ops : option dmbus_ops;              (* [None] is the NULL pointer *)
  buff : list byte;
  len : Z
}.

Definition set_buff_len (s : service) (b : list byte) (l : Z) : service :=
  {| fd := fd s; ops := ops s; buff := b; len := l |}.

Inductive handler : Type :=
| H_dom0_input_event
| H_display_info
| H_display_edid
| H_input_config
| H_input_config_reset.

Inductive func : Type := F_sync_recv | F_dmbus_fd_handler.

(** The lines written to [stderr]. *)
Inductive log_msg : Type :=
| LogUnrecognized (msg_type : Z)
| LogDisconnected
| LogRecvError (f : func) (err : Z)
| LogSendFailed (err : Z).

(** Everything the code does to the outside, in order. *)
Inductive event : Type :=
| EvCall (h : handler) (msg : list byte)
| EvLog (m : log_msg)
| EvSetFdHandler (d : Z) (registered : bool)
| EvClose (d : Z)
| EvModTimer (expire : Z)
| EvFreeTimer
| EvFree
| EvSend (d : Z) (bs : list byte).

(** What the next [v4v_recv] finds on the connection. *)
Inductive recv_result : Type :=
| RecvBytes (bs : list byte)
| RecvClosed
| RecvErr (err : Z).

(** What the next [v4v_send] meets: room for [n] bytes, or an error. *)
Inductive send_result : Type :=
| SendRoom (n : nat)
| SendErr (err : Z).

Record world : Type := {
  recv_in : list recv_result;
  send_in : list send_result;
  errno : Z;
  clock_ms : Z;                        (* qemu_get_clock_ms(rt_clock) *)
  timer_expire : option Z;             (* [Some t]: the timer is pending *)
  fd_handlers : list Z;                (* descriptors with a read handler *)
  trace : list event
}.

Definition set_recv_in (q : list recv_result) (w : world) : world :=
  {| recv_in := q; send_in := send_in w; errno := errno w;
     clock_ms := clock_ms w; timer_expire := timer_expire w;
     fd_handlers := fd_handlers w; trace := trace w |}.

Definition set_send_in (q : list send_result) (w : world) : world :=
  {| recv_in := recv_in w; send_in := q; errno := errno w;
     clock_ms := clock_ms w; timer_expire := timer_expire w;
     fd_handlers := fd_handlers w; trace := trace w |}.

Definition set_errno (e : Z) (w : world) : world :=
  {| recv_in := recv_in w; send_in := send_in w; errno := e;
     clock_ms := clock_ms w; timer_expire := timer_expire w;
     fd_handlers := fd_handlers w; trace := trace w |}.

Definition set_timer (t : option Z) (w : world) : world :=
  {| recv_in := recv_in w; send_in := send_in w; errno := errno w;
     clock_ms := clock_ms w; timer_expire := t;
     fd_handlers := fd_handlers w; trace := trace w |}.

Definition set_fd_handlers (l : list Z) (w : world) : world :=
  {| recv_in := recv_in w; send_in := send_in w; errno := errno w;
     clock_ms := clock_ms w; timer_expire := timer_expire w;
     fd_handlers := l; trace := trace w |}.

Definition emit (e : event) (w : world) : world :=
  {| recv_in := recv_in w; send_in := send_in w; errno := errno w;
     clock_ms := clock_ms w; timer_expire := timer_expire w;
     fd_handlers := fd_handlers w; trace := trace w ++ [e] |}.

(** [fprintf(stderr, ...)]. *)
Definition fprintf_stderr (m : log_msg) (w : world) : world :=
  emit (EvLog m) w.

(* ------------------------------------------------------------------ *)
(** *** The scheduler and the transport *)

(** Modelled from the spec: [isTimerArmed(handle) -> bool] of the
    readiness/timer scheduler ([qemu_timer_pending], qemu-timer.c). *)
Definition qemu_timer_pending (w : world) : bool :=
  match timer_expire w with Some _ => true | None => false end.

(** Modelled from the spec: [armTimer] of the scheduler
    ([qemu_mod_timer], qemu-timer.c): the one timer of the service is set
    to fire at [expire], whether it was pending or not. *)
Definition qemu_mod_timer (expire : Z) (w : world) : world :=
  emit (EvModTimer expire) (set_timer (Some expire) w).

(** Modelled from the spec: [cancelTimer(handle)] of the scheduler
    ([qemu_free_timer], qemu-timer.c): the timer is released and no longer
    pending. *)
Definition qemu_free_timer (w : world) : world :=
  emit EvFreeTimer (set_timer None w).

(** Modelled from the spec: [now()] of the scheduler. *)
Definition qemu_get_clock_ms (w : world) : Z := clock_ms w.

Definition remove_fd (d : Z) (l : list Z) : list Z :=
  filter (fun x => negb (x =? d)) l.

(** Modelled from the spec: [registerReadable] and [unregister] of the
    scheduler ([qemu_set_fd_handler], with a read callback or NULL). *)
Definition qemu_set_fd_handler (d : Z) (on : bool) (w : world) : world :=
  emit (EvSetFdHandler d on)
       (set_fd_handlers (if on then d :: remove_fd d (fd_handlers w)
                         else remove_fd d (fd_handlers w)) w).

(** Modelled from the spec: [close(self)] of the transport adapter. *)
Definition v4v_close (d : Z) (w : world) : world := emit (EvClose d) w.

(** Modelled from the spec: [recv] of the transport adapter, a byte
    stream.  The result is the return code and the bytes written to the
    caller's buffer, at most [size] of them; bytes that did not fit stay
    queued.  With nothing queued a non-blocking read fails with [EAGAIN]
    and a blocking read does not return ([None]). *)
Definition v4v_recv (dontwait : bool) (size : Z) (w : world)
  : option (Z * list byte * world) :=
  match recv_in w with
  | [] => if dontwait then Some (-1, [], set_errno EAGAIN w) else None
  | RecvErr e :: q => Some (-1, [], set_errno e (set_recv_in q w))
  | RecvClosed :: q => Some (0, [], set_recv_in q w)
  | RecvBytes bs :: q =>
      let got := firstn (Z.to_nat size) bs in
      let left := skipn (Z.to_nat size) bs in
      Some (Z.of_nat (length got), got,
            set_recv_in (match left with
                         | [] => q
                         | _ :: _ => RecvBytes left :: q
                         end) w)
  end.

(** Modelled from the spec: [send] of the transport adapter.  The
    transport takes as many of the [size] bytes of [bs] as it has room
    for; once the scripted results are used up it takes everything. *)
Definition v4v_send (d : Z) (bs : list byte) (w : world) : Z * world :=
  match send_in w with
  | [] => (Z.of_nat (length bs), emit (EvSend d bs) w)
  | SendErr e :: q => (-1, set_errno e (set_send_in q w))
  | SendRoom n :: q =>
      let took := firstn n bs in
      (Z.of_nat (length took), emit (EvSend d took) (set_send_in q w))
  end.

(** How a call of one of the functions below ends. *)
Inductive outcome (A : Type) : Type :=
| Ret (a : A) (s : service) (w : world)
| Blocked (s : service) (w : world)    (* inside a blocking [v4v_recv] *)
| Undefined                            (* access outside an object *)
| OutOfFuel.

Arguments Ret {A} a s w.
Arguments Blocked {A} s w.
Arguments Undefined {A}.
Arguments OutOfFuel {A}.

(* ================================================================== *)
(** ** The code *)

Section Dmbus.

Variable cfg : dmbus_config.

(** [m->hdr.msg_type] and [m->hdr.msg_len], [m] pointing at [mem]. *)
Definition hdr_msg_type (mem : list byte) : Z :=
  load_u32 mem (off_msg_type cfg).

Definition hdr_msg_len (mem : list byte) : Z :=
  load_u32 mem (off_msg_len cfg).

(** The message [m] points at, as far as its header declares it.  The
    handlers receive fields of it; their layout belongs to the protocol
    library, so a call is recorded with the whole message. *)
Definition message_at (mem : list byte) : list byte :=
  firstn (Z.to_nat (hdr_msg_len mem)) mem.

Definition call_if (slot : bool) (h : handler) (s : service) (w : world)
  : world :=
  if slot then emit (EvCall h (message_at (buff s))) w else w.

Definition handle_message (s : service) (w : world) : world :=
  match ops s with
  | None => w
  | Some o =>
      let t := hdr_msg_type (buff s) in
      if t =? DMBUS_MSG_DOM0_INPUT_EVENT cfg then
        call_if (dom0_input_event o) H_dom0_input_event s w
      else if t =? DMBUS_MSG_DISPLAY_INFO cfg then
        call_if (display_info o) H_display_info s w
      else if t =? DMBUS_MSG_DISPLAY_EDID cfg then
        call_if (display_edid o) H_display_edid s w
      else if t =? DMBUS_MSG_DEVICE_MODEL_READY cfg then
        w
      else if t =? DMBUS_MSG_INPUT_CONFIG cfg then
        call_if (input_config o) H_input_config s w
      else if t =? DMBUS_MSG_INPUT_CONFIG_RESET cfg then
        call_if (input_config_reset o) H_input_config_reset s w
      else
        fprintf_stderr (LogUnrecognized t) w
  end.

(** [None] is the [memmove] reading outside [s->buff]. *)
Definition pop_message (s : service) : option service :=
  let len_ := to_int (hdr_msg_len (buff s)) in
  if (to_size_t (len s) <? sizeof_hdr cfg) || (len s <? len_) then
    Some s
  else
    match memmove_to_front (buff s) len_ (to_size_t (len s - len_)) with
    | Some b => Some (set_buff_len s b (to_int (len s - len_)))
    | None => None
    end.

Definition handle_disconnect (s : service) (w : world) : world :=
  if qemu_timer_pending w then
    w
  else
    let w := qemu_set_fd_handler (fd s) false w in
    let w := v4v_close (fd s) w in
    let w := fprintf_stderr LogDisconnected w in
    qemu_mod_timer (qemu_get_clock_ms w + 1000) w.

(** The condition of the [while] of [sync_recv], lines 121-122. *)
Definition frame_incomplete (s : service) : bool :=
  (to_size_t (len s) <? sizeof_hdr cfg)
  || (to_uint32 (len s) <? hdr_msg_len (buff s)).

(** The condition of the [while] of [dmbus_fd_handler], lines 175-176. *)
Definition frame_complete (s : service) : bool :=
  (sizeof_hdr cfg <=? to_size_t (len s))
  && (hdr_msg_len (buff s) <=? to_uint32 (len s)).

(** Lines 116-143.  The result is [true] when [m] is returned and [false]
    when NULL is. *)
Fixpoint sync_recv (fuel : nat) (s : service) (w : world) : outcome bool :=
  match fuel with
  | O => OutOfFuel
  | S fuel' =>
      if frame_incomplete s then
        match v4v_recv false (to_size_t (DMBUS_MAX_MSG_LEN cfg - len s)) w with
        | None => Blocked s w
        | Some (rc, bs, w) =>
            if rc =? 0 then
              Ret false s (handle_disconnect s w)
            else if rc =? -1 then
              if errno w =? EINTR then
                sync_recv fuel' s w
              else
                Ret false s
                    (fprintf_stderr (LogRecvError F_sync_recv (errno w)) w)
            else
              match store_bytes (buff s) (len s) bs with
              | Some b =>
                  sync_recv fuel' (set_buff_len s b (to_int (len s + rc))) w
              | None => Undefined
              end
        end
      else
        Ret true s w
  end.

(** Lines 151-169, the [do ... while (rc <= 0)] of [dmbus_fd_handler]:
    [false] when the handler returns from inside the loop. *)
Fixpoint dmbus_fd_handler_read (fuel : nat) (s : service) (w : world)
  : outcome bool :=
  match fuel with
  | O => OutOfFuel
  | S fuel' =>
      match v4v_recv true (to_size_t (DMBUS_MAX_MSG_LEN cfg - len s)) w with
      | None => Blocked s w
      | Some (rc, bs, w) =>
          if rc =? 0 then
            Ret false s (handle_disconnect s w)
          else if rc =? -1 then
            if errno w =? EINTR then
              dmbus_fd_handler_read fuel' s w
            else
              Ret false s
                  (fprintf_stderr (LogRecvError F_dmbus_fd_handler (errno w)) w)
          else
            match store_bytes (buff s) (len s) bs with
            | Some b =>
                let s := set_buff_len s b (to_int (len s + rc)) in
                if rc <=? 0 then dmbus_fd_handler_read fuel' s w
                else Ret true s w
            | None => Undefined
            end
      end
  end.

(** Lines 175-180, the dispatch-and-pop loop of [dmbus_fd_handler]. *)
Fixpoint dmbus_fd_handler_dispatch (fuel : nat) (s : service) (w : world)
  : outcome unit :=
  match fuel with
  | O => OutOfFuel
  | S fuel' =>
      if frame_complete s then
        let w := handle_message s w in
        match pop_message s with
        | Some s => dmbus_fd_handler_dispatch fuel' s w
        | None => Undefined
        end
      else
        Ret tt s w
  end.

Definition dmbus_fd_handler (fuel : nat) (s : service) (w : world)
  : outcome unit :=
  match dmbus_fd_handler_read fuel s w with
  | Ret true s w =>
      match sync_recv fuel s w with
      | Ret true s w => dmbus_fd_handler_dispatch fuel s w
      | Ret false s w => Ret tt s w
      | Blocked s w => Blocked s w
      | Undefined => Undefined
      | OutOfFuel => OutOfFuel
      end
  | Ret false s w => Ret tt s w
  | Blocked s w => Blocked s w
  | Undefined => Undefined
  | OutOfFuel => OutOfFuel
  end.

(** Lines 194-201, the loop of [dmbus_sync_recv], entered with the message
    [sync_recv] has just returned: [true] when a message of type [type]
    is at the front of the buffer, [false] when [sync_recv] returned
    NULL. *)
Fixpoint dmbus_sync_recv_loop (fuel : nat) (type : Z) (s : service)
  (w : world) : outcome bool :=
  match fuel with
  | O => OutOfFuel
  | S fuel' =>
      if negb (hdr_msg_type (buff s) =? to_uint32 type) then
        let w := handle_message s w in
        match pop_message s with
        | Some s =>
            match sync_recv fuel' s w with
            | Ret true s w => dmbus_sync_recv_loop fuel' type s w
            | r => r
            end
        | None => Undefined
        end
      else
        Ret true s w
  end.

(** The result is the returned [int] and the bytes copied to [data]. *)
Definition dmbus_sync_recv (fuel : nat) (s : service) (type : Z) (size : Z)
  (w : world) : outcome (Z * list byte) :=
  match sync_recv fuel s w with
  | Ret true s w =>
      match dmbus_sync_recv_loop fuel type s w with
      | Ret true s w =>
          let size :=
            if hdr_msg_len (buff s) <? size then hdr_msg_len (buff s)
            else size in
          if size <=? Z.of_nat (length (buff s)) then
            let data := firstn (Z.to_nat size) (buff s) in
            match pop_message s with
            | Some s => Ret (to_int size, data) s w
            | None => Undefined
            end
          else Undefined
      | Ret false s w => Ret (-1, []) s w
      | Blocked s w => Blocked s w
      | Undefined => Undefined
      | OutOfFuel => OutOfFuel
      end
  | Ret false s w => Ret (-1, []) s w
  | Blocked s w => Blocked s w
  | Undefined => Undefined
  | OutOfFuel => OutOfFuel
  end.

(** The service is gone afterwards: only the world is returned. *)
Definition dmbus_service_disconnect (s : service) (w : world) : world :=
  let w := qemu_set_fd_handler (fd s) false w in
  let w := qemu_free_timer w in
  let w := v4v_close (fd s) w in
  emit EvFree w.

(** [hdr->msg_type = msgtype; hdr->msg_len = len;] on the caller's
    buffer. *)
Definition stamp_header (msgtype len_ : Z) (data : list byte)
  : option (list byte) :=
  match store_bytes data (Z.of_nat (off_msg_type cfg))
                    (bytes_of_u32 (to_uint32 msgtype)) with
  | Some d =>
      store_bytes d (Z.of_nat (off_msg_len cfg))
                  (bytes_of_u32 (to_uint32 len_))
  | None => None
  end.

(** Lines 338-353, the write loop of [dmbus_send]. *)
Fixpoint dmbus_send_loop (fuel : nat) (s : service) (data : list byte)
  (len_ b : Z) (w : world) : outcome Z :=
  match fuel with
  | O => OutOfFuel
  | S fuel' =>
      if b <? len_ then
        if len_ <=? Z.of_nat (length data) then
          let chunk := firstn (Z.to_nat (len_ - b)) (skipn (Z.to_nat b) data) in
          let (rc, w) := v4v_send (fd s) chunk w in
          if rc =? -1 then
            if errno w =? ECONNRESET then
              Ret (-1) s (handle_disconnect s w)
            else
              Ret (-1) s (fprintf_stderr (LogSendFailed (errno w)) w)
          else
            dmbus_send_loop fuel' s data len_ (to_size_t (b + rc)) w
        else Undefined
      else
        Ret (to_int b) s w
  end.

(** The result is the returned [int] and the caller's buffer as the call
    leaves it. *)
Definition dmbus_send (fuel : nat) (s : service) (msgtype : Z)
  (data : list byte) (len_ : Z) (w : world) : outcome (Z * list byte) :=
  match stamp_header msgtype len_ data with
  | Some data =>
      match dmbus_send_loop fuel s data len_ 0 w with
      | Ret r s w => Ret (r, data) s w
      | Blocked s w => Blocked s w
      | Undefined => Undefined
      | OutOfFuel => OutOfFuel
      end
  | None => Undefined
  end.

End Dmbus.

(* ================================================================== *)
(** ** Concrete inputs *)

(** A message in the layout of [example_cfg]. *)
Definition frame (type : Z) (payload : list byte) : list byte :=
  bytes_of_u32 type
  ++ bytes_of_u32 (8 + Z.of_nat (length payload)) ++ payload.

(** A buffer of 32 bytes whose valid prefix is [valid]. *)
Definition buffer_of (valid : list byte) : list byte :=
  valid ++ repeat x00 (32 - length valid).

Definition all_ops : dmbus_ops :=
  {| dom0_input_event := true; display_info := true; display_edid := true;
     input_config := true; input_config_reset := true; reconnect := true |}.

Definition service_of (valid : list byte) : service :=
  {| fd := 3; ops := Some all_ops; buff := buffer_of valid;
     len := Z.of_nat (length valid) |}.

(** A connected service: handler registered, timer idle. *)
Definition world_of (rq : list recv_result) (sq : list send_result)
  : world :=
  {| recv_in := rq; send_in := sq; errno := 0; clock_ms := 5000;
     timer_expire := None; fd_handlers := [3]; trace := [] |}.

(** A world in which the reconnection timer is armed. *)
Definition armed_world : world :=
  {| recv_in := [RecvClosed]; send_in := [SendErr ECONNRESET]; errno := 0;
     clock_ms := 5000; timer_expire := Some 5400; fd_handlers := [];
     trace := [] |}.

(* ================================================================== *)
(** ** Predicates of the specification *)

(** The invariant of the receive buffer: [buff] has its declared size and
    [len] counts a prefix of it. *)
Definition buffer_ok (cfg : dmbus_config) (s : service) : Prop :=
  length (buff s) = Z.to_nat (DMBUS_MAX_MSG_LEN cfg)
  /\ 0 <= len s <= DMBUS_MAX_MSG_LEN cfg.

(** The unconsumed bytes: the valid prefix of the buffer. *)
Definition valid_bytes (s : service) : list byte :=
  firstn (Z.to_nat (len s)) (buff s).

(** [n] disconnect signals, one after the other. *)
Definition disconnects (n : nat) (s : service) (w : world) : world :=
  Nat.iter n (handle_disconnect s) w.

(** The bytes an execution has handed to the transport. *)
Definition sent_bytes (tr : list event) : list byte :=
  flat_map (fun e => match e with EvSend _ bs => bs | _ => [] end) tr.

(** The scheduler and the log are as they were: nothing was torn down,
    armed, registered or written between [w] and [w']. *)
Definition untouched (w w' : world) : Prop :=
  trace w' = trace w /\ timer_expire w' = timer_expire w
  /\ fd_handlers w' = fd_handlers w.

(** The bytes still queued on the connection, in order. *)
Fixpoint pending (q : list recv_result) : list byte :=
  match q with
  | [] => []
  | RecvBytes bs :: q => bs ++ pending q
  | RecvClosed :: q => pending q
  | RecvErr _ :: q => pending q
  end.

(** The byte stream as the service will see it: what it holds unconsumed,
    then what the connection will deliver. *)
Definition stream (s : service) (w : world) : list byte :=
  valid_bytes s ++ pending (recv_in w).

(** A bound on the number of reads that can still make progress. *)
Definition reads_left (w : world) : nat :=
  length (pending (recv_in w)) + length (recv_in w).

(** A bound on the work left for a blocking receive. *)
Definition work_left (s : service) (w : world) : nat :=
  Z.to_nat (len s) + reads_left w.

(** A postcondition on the service, wherever a call stops; an
    out-of-bounds access does not satisfy it, an exhausted fuel does. *)
Definition keeps {A : Type} (P : service -> Prop) (o : outcome A) : Prop :=
  match o with
  | Ret _ s _ => P s
  | Blocked s _ => P s
  | Undefined => False
  | OutOfFuel => True
  end.




(** The byte stream [b] after [n] messages were taken off its front, each
    as long as its header declares. *)
Fixpoint drop_messages (cfg : dmbus_config) (n : nat) (b : list byte)
  : list byte :=
  match n with
  | O => b
  | S n => drop_messages cfg n (skipn (Z.to_nat (hdr_msg_len cfg b)) b)
  end.


(** A message as the peer sends it: a header that declares the length of
    the whole, which fits the receive buffer. *)
Definition message_ok (cfg : dmbus_config) (f : list byte) : Prop :=
  sizeof_hdr cfg <= Z.of_nat (length f) <= DMBUS_MAX_MSG_LEN cfg
  /\ hdr_msg_len cfg f = Z.of_nat (length f).

(** A connection that stays up: every read brings some bytes, or is
    interrupted. *)
Definition delivers (r : recv_result) : Prop :=
  match r with
  | RecvBytes bs => bs <> []
  | RecvClosed => False
  | RecvErr e => e = EINTR
  end.

(** What [handle_message] does with the message [f] under the capability
    table [o]: the events it adds to the trace. *)
Definition dispatch_of (cfg : dmbus_config) (o : option dmbus_ops)
  (f : list byte) : list event :=
  trace (handle_message cfg
           {| fd := 0; ops := o; buff := f; len := 0 |}
           {| recv_in := []; send_in := []; errno := 0; clock_ms := 0;
              timer_expire := None; fd_handlers := []; trace := [] |}).

(** What a read loop may have done between [s], [w] and [s'], [w']: it
    moved bytes from the connection to the buffer, and when it reports a
    message ([r = true]) it did nothing else. *)
Definition read_post (cfg : dmbus_config) (s : service) (w : world)
  (r : bool) (s' : service) (w' : world) : Prop :=
  buffer_ok cfg s' /\ fd s' = fd s /\ ops s' = ops s
  /\ stream s' w' = stream s w
  /\ (work_left s' w' <= work_left s w)%nat
  /\ send_in w' = send_in w
  /\ (r = true -> untouched w w').

(** The world [w] with [evs] added to its trace. *)
Definition add_trace (evs : list event) (w : world) : world :=
  {| recv_in := recv_in w; send_in := send_in w; errno := errno w;
     clock_ms := clock_ms w; timer_expire := timer_expire w;
     fd_handlers := fd_handlers w; trace := trace w ++ evs |}.

(* ================================================================== *)
(** ** The code: connecting and reconnecting *)

(** The fields of [struct service] that only connecting uses, beside the
    ones of [service]. *)
Record v4v_addr_t : Type := {
  port : Z;
  domain : Z
}.

Record dmbus_conn_prologue : Type := {
  prologue_domain : Z;
  prologue_type : Z;
  hash : list byte
}.

Record connection : Type := {
  svc : service;
  peer : v4v_addr_t;
  prologue : dmbus_conn_prologue
}.

Definition set_fd (c : connection) (d : Z) : connection :=
  {| svc := {| fd := d; ops := ops (svc c); buff := buff (svc c);
               len := len (svc c) |};
     peer := peer c; prologue := prologue c |}.

Definition set_ops (c : connection) (o : option dmbus_ops) : connection :=
  {| svc := {| fd := fd (svc c); ops := o; buff := buff (svc c);
               len := len (svc c) |};
     peer := peer c; prologue := prologue c |}.

Definition set_peer (c : connection) (a : v4v_addr_t) : connection :=
  {| svc := svc c; peer := a; prologue := prologue c |}.

Definition set_prologue (c : connection) (p : dmbus_conn_prologue)
  : connection :=
  {| svc := svc c; peer := peer c; prologue := p |}.

(** Modelled from the spec: the handshake payload, a fixed-size record
    of the local identity (integer), the declared device type (integer)
    and the 20-byte fingerprint ([struct dmbus_conn_prologue],
    libdmbus.h), as the bytes [v4v_send] is given. *)
Definition prologue_bytes (p : dmbus_conn_prologue) : list byte :=
  bytes_of_u32 (to_uint32 (prologue_domain p))
  ++ bytes_of_u32 (to_uint32 (prologue_type p)) ++ hash p.

(** Modelled from the spec: [sizeof(s->prologue)] for that record, two
    32-bit integers and the 20-byte fingerprint. *)
Definition sizeof_prologue : Z := 28.

(** What [v4v_socket] or [v4v_connect] answers: a value, or -1 with
    [errno] set. *)
Inductive sys_result : Type :=
| SysOk (v : Z)
| SysErr (err : Z).

(** Modelled from the spec: [create(kind)] of the transport adapter; the
    answer is given by the caller of the model. *)
Definition v4v_socket (r : sys_result) (w : world) : Z * world :=
  match r with
  | SysOk d => (d, w)
  | SysErr e => (-1, set_errno e w)
  end.

(** Modelled from the spec: [connect(self, peer)] of the transport
    adapter; the answer is given by the caller of the model. *)
Definition v4v_connect (r : sys_result) (d : Z) (a : v4v_addr_t)
  (w : world) : Z * world :=
  match r with
  | SysOk rc => (rc, w)
  | SysErr e => (-1, set_errno e w)
  end.

(** Modelled from the spec: a timer created by the scheduler
    ([qemu_new_timer_ms]) is not armed. *)
Definition qemu_new_timer_ms (w : world) : world := set_timer None w.

(** How [try_reconnect] ends.  The [reconnect] callback of the consumer
    has no event of its own: [notified] tells whether it was called,
    which happens between the handshake and the registration of the read
    handler.  [ReconnectUndefined] is the read of [s->ops->reconnect]
    through a NULL [s->ops]. *)
Inductive reconnect_outcome : Type :=
| Reconnected (notified : bool) (c : connection) (w : world)
| Rearmed (c : connection) (w : world)
| ReconnectUndefined.

(** The label [rearm] of [try_reconnect]. *)
Definition rearm (c : connection) (w : world) : reconnect_outcome :=
  Rearmed c (qemu_mod_timer (qemu_get_clock_ms w + 1000) w).

(** Lines 213-242.  [sock] and [conn] are the answers of [v4v_socket] and
    [v4v_connect]. *)
Definition try_reconnect (sock conn : sys_result) (c : connection)
  (w : world) : reconnect_outcome :=
  let (d, w) := v4v_socket sock w in
  let c := set_fd c d in
  if d =? -1 then
    rearm c w
  else
    let (rc, w) := v4v_connect conn d (peer c) w in
    if rc =? -1 then
      rearm c (v4v_close d w)
    else
      let (rc, w) := v4v_send d (prologue_bytes (prologue c)) w in
      if negb (rc =? sizeof_prologue) then
        rearm c (v4v_close d w)
      else
        match ops (svc c) with
        | None => ReconnectUndefined
        | Some o =>
            Reconnected (reconnect o) c (qemu_set_fd_handler d true w)
        end.

(** Modelled from the spec: the scheduler fires a single-shot deadline:
    when the timer is pending and due at time [now], it is taken off the
    pending timers and its callback, [try_reconnect], runs. *)
Definition set_clock (t : Z) (w : world) : world :=
  {| recv_in := recv_in w; send_in := send_in w; errno := errno w;
     clock_ms := t; timer_expire := timer_expire w;
     fd_handlers := fd_handlers w; trace := trace w |}.

Definition run_timer (now : Z) (sock conn : sys_result) (c : connection)
  (w : world) : option reconnect_outcome :=
  match timer_expire w with
  | Some t =>
      if t <=? now then
        Some (try_reconnect sock conn c (set_timer None (set_clock now w)))
      else None
  | None => None
  end.

(** The value of a hexadecimal digit. *)
Definition hex_value (c : byte) : option Z :=
  let n := byte_to_Z c in
  if (48 <=? n) && (n <=? 57) then Some (n - 48)
  else if (97 <=? n) && (n <=? 102) then Some (n - 87)
  else if (65 <=? n) && (n <=? 70) then Some (n - 55)
  else None.

(** [sscanf(str, "%02x", &c)] where [str] starts with two hexadecimal
    digits: the value stored in [c].  On any other input the conversion
    takes fewer or other characters, or fails and leaves [c] unset; the
    model has no answer ([None]). *)
Definition sscanf_02x (str : list byte) : option Z :=
  match str with
  | a :: b :: _ =>
      match hex_value a, hex_value b with
      | Some x, Some y => Some (16 * x + y)
      | _, _ => None
      end
  | _ => None
  end.

(** Lines 249-254, the loop of [fill_hash] from index [i], [n] turns. *)
Fixpoint fill_hash_from (n i : nat) (hash_str : list byte) (h : list byte)
  : option (list byte) :=
  match n with
  | O => Some h
  | S n =>
      match sscanf_02x (skipn (2 * i) hash_str) with
      | Some c =>
          match store_bytes h (Z.of_nat i) [byte_of_Z c] with
          | Some h => fill_hash_from n (S i) hash_str h
          | None => None
          end
      | None => None
      end
  end.

(** Lines 244-255.  [hash_str] is [DMBUS_SHA1_STRING], [h] the array
    written to. *)
Definition fill_hash (hash_str : list byte) (h : list byte)
  : option (list byte) :=
  fill_hash_from 20 0 hash_str h.

(** The line [dmbus_service_connect] writes to [stderr] when it fails. *)
Inductive connect_log : Type :=
| LogSocketFailed (err : Z)
| LogConnectFailed (err : Z)
| LogInitFailed (err : Z).

(** How [dmbus_service_connect] ends: with the service, or with NULL and
    the line it wrote to [stderr] before cleaning up ([None] when [calloc]
    failed, which is not logged), or undefined when [fill_hash] is. *)
Inductive connect_outcome : Type :=
| Connected (c : connection) (w : world)
| ConnectFailed (log : option connect_log) (w : world)
| ConnectUndefined.

Section Connecting.

Variable cfg : dmbus_config.
Variable DMBUS_BASE_PORT : Z.          (* libdmbus.h *)
Variable DMBUS_SHA1_STRING : list byte. (* libdmbus.h *)
Variable xen_domid : Z.                (* hw/xen.h *)

(** [calloc] of one zeroed [struct service]. *)
Definition calloc_service : connection :=
  {| svc := {| fd := 0; ops := None;
               buff := repeat x00 (Z.to_nat (DMBUS_MAX_MSG_LEN cfg));
               len := 0 |};
     peer := {| port := 0; domain := 0 |};
     prologue := {| prologue_domain := 0; prologue_type := 0;
                    hash := repeat x00 20 |} |}.

(** [free(s)]. *)
Definition free_service (w : world) : world := emit EvFree w.

(** Lines 257-311.  [calloc_ok] tells whether [calloc] succeeds; [sock]
    and [conn] are the answers of [v4v_socket] and [v4v_connect]. *)
Definition dmbus_service_connect (calloc_ok : bool) (sock conn : sys_result)
  (service devtype : Z) (ops_ : option dmbus_ops) (w : world)
  : connect_outcome :=
  if negb calloc_ok then
    ConnectFailed None w
  else
    let c := calloc_service in
    let (d, w) := v4v_socket sock w in
    let c := set_fd c d in
    if d =? -1 then
      ConnectFailed (Some (LogSocketFailed (errno w))) (free_service w)
    else
      let c := set_peer c {| port := DMBUS_BASE_PORT + service;
                             domain := 0 |} in
      let (rc, w) := v4v_connect conn d (peer c) w in
      if rc =? -1 then
        ConnectFailed (Some (LogConnectFailed (errno w)))
                      (free_service (v4v_close d w))
      else
        match fill_hash DMBUS_SHA1_STRING (hash (prologue c)) with
        | None => ConnectUndefined
        | Some h =>
            let c := set_prologue c {| prologue_domain := xen_domid;
                                       prologue_type := devtype;
                                       hash := h |} in
            let (rc, w) := v4v_send d (prologue_bytes (prologue c)) w in
            if negb (rc =? sizeof_prologue) then
              ConnectFailed (Some (LogInitFailed (errno w)))
                            (free_service (v4v_close d w))
            else
              let c := set_ops c ops_ in
              let w := qemu_new_timer_ms w in
              let w := qemu_set_fd_handler d true w in
              Connected c w
        end.

End Connecting.

(** Modelled from the spec: the readiness scheduler invokes the
    registered callback when the descriptor is readable: here, while the
    read handler of the descriptor is registered and the connection has
    something for a read, at most [n] times. *)
Fixpoint fd_handler_runs (cfg : dmbus_config) (fuel n : nat) (s : service)
  (w : world) : outcome unit :=
  match n with
  | O => Ret tt s w
  | S n =>
      match recv_in w with
      | [] => Ret tt s w
      | _ :: _ =>
          if existsb (Z.eqb (fd s)) (fd_handlers w) then
            match dmbus_fd_handler cfg fuel s w with
            | Ret _ s w => fd_handler_runs cfg fuel n s w
            | o => o
            end
          else Ret tt s w
      end
  end.

(** ** More predicates and inputs *)

(** The two hexadecimal digits of a byte, in lower or upper case. *)
Definition hex_digit (upper : bool) (v : Z) : byte :=
  if v <? 10 then byte_of_Z (48 + v)
  else if upper then byte_of_Z (55 + v) else byte_of_Z (87 + v).

Definition hex_of_byte (upper : bool) (b : byte) : list byte :=
  [ hex_digit upper (byte_to_Z b / 16); hex_digit upper (byte_to_Z b mod 16) ].

(** The string of hexadecimal digits of [bs]. *)
Definition to_hex (upper : bool) (bs : list byte) : list byte :=
  flat_map (hex_of_byte upper) bs.

(** Between [w] and [w'] no handler of the consumer was called. *)
Definition no_dispatch (w w' : world) : Prop :=
  exists evs,
    trace w' = trace w ++ evs /\ forall h m, ~ In (EvCall h m) evs.

(** Wherever the call stopped, it left the buffer and the other fields of
    [s] as they were, took no byte off the connection and called no
    handler; it did not leave its objects. *)
Definition leaves {A : Type} (s : service) (w : world) (o : outcome A)
  : Prop :=
  match o with
  | Ret _ s' w' | Blocked s' w' =>
      s' = s /\ pending (recv_in w') = pending (recv_in w)
      /\ no_dispatch w w'
  | Undefined => False
  | OutOfFuel => True
  end.

(** [v4v_socket] or [v4v_connect] failed: it answered -1. *)
Definition sys_failed (r : sys_result) : bool :=
  match r with
  | SysErr _ => true
  | SysOk v => v =? -1
  end.

(** The next write on the transport does not take the 28 bytes of the
    handshake: it fails, or it takes fewer. *)
Definition handshake_refused (w : world) : bool :=
  match send_in w with
  | [] => false
  | SendErr _ :: _ => true
  | SendRoom n :: _ => (n <? 28)%nat
  end.

(** What a refused handshake may have written to the descriptor [d]:
    nothing, or once, fewer than 28 bytes. *)
Definition short_write (d : Z) (sent : list event) : Prop :=
  sent = []
  \/ exists bs, sent = [EvSend d bs] /\ (length bs < 28)%nat.

(** The connection delivers bytes whenever it has anything for a read:
    its last read, if any, brings bytes. *)
Definition data_last (q : list recv_result) : Prop :=
  q = [] \/ exists q' bs, q = q' ++ [RecvBytes bs] /\ bs <> [].

(* ================================================================== *)
(** ** Integers and bytes *)

Lemma to_size_t_small (z : Z) : 0 <= z < 2 ^ 64 -> to_size_t z = z.
Proof. intros H. unfold to_size_t. apply Z.mod_small. exact H. Qed.

Lemma to_uint32_small (z : Z) : 0 <= z < 2 ^ 32 -> to_uint32 z = z.
Proof. intros H. unfold to_uint32. apply Z.mod_small. exact H. Qed.

Lemma to_int_small (z : Z) : - 2 ^ 31 <= z < 2 ^ 31 -> to_int z = z.
Proof. intros H. unfold to_int. rewrite Z.mod_small; lia. Qed.

Lemma to_int_range (z : Z) : - 2 ^ 31 <= to_int z < 2 ^ 31.
Proof.
  unfold to_int.
  pose proof (Z.mod_pos_bound (z + 2 ^ 31) (2 ^ 32) ltac:(lia)). lia.
Qed.

Lemma byte_to_Z_range (b : byte) : 0 <= byte_to_Z b < 256.
Proof.
  unfold byte_to_Z. pose proof (Byte.to_N_bounded b) as H. lia.
Qed.

Lemma byte_to_of_Z (z : Z) : byte_to_Z (byte_of_Z z) = z mod 256.
Proof.
  unfold byte_to_Z, byte_of_Z.
  pose proof (Z.mod_pos_bound z 256 ltac:(lia)) as Hr.
  destruct (Byte.of_N (Z.to_N (z mod 256))) as [b|] eqn:E.
  - apply Byte.to_of_N in E. rewrite E. apply Z2N.id. lia.
  - apply Byte.of_N_None_iff in E. lia.
Qed.

Lemma load_u32_range (mem : list byte) (off : nat) :
  0 <= load_u32 mem off < 2 ^ 32.
Proof.
  unfold load_u32.
  pose proof (byte_to_Z_range (nth off mem x00)).
  pose proof (byte_to_Z_range (nth (off + 1) mem x00)).
  pose proof (byte_to_Z_range (nth (off + 2) mem x00)).
  pose proof (byte_to_Z_range (nth (off + 3) mem x00)).
  lia.
Qed.

Lemma u32_digits (v : Z) :
  0 <= v < 2 ^ 32 ->
  v mod 256 + 2 ^ 8 * ((v / 2 ^ 8) mod 256)
  + 2 ^ 16 * ((v / 2 ^ 16) mod 256) + 2 ^ 24 * ((v / 2 ^ 24) mod 256) = v.
Proof.
  intros H.
  change (2 ^ 8) with 256. change (2 ^ 16) with (256 * 256).
  change (2 ^ 24) with (256 * 256 * 256).
  rewrite <- !Z.div_div by lia.
  pose proof (Z.div_mod v 256 ltac:(lia)).
  pose proof (Z.div_mod (v / 256) 256 ltac:(lia)).
  pose proof (Z.div_mod (v / 256 / 256) 256 ltac:(lia)).
  assert (v / 256 / 256 / 256 < 256).
  { rewrite !Z.div_div by lia. apply Z.div_lt_upper_bound; lia. }
  assert (0 <= v / 256 / 256 / 256).
  { rewrite !Z.div_div by lia. apply Z.div_pos; lia. }
  rewrite (Z.mod_small (v / 256 / 256 / 256)) by lia.
  lia.
Qed.

(** Reading back the four bytes of a value gives the value. *)
Lemma load_bytes_of_u32 (v : Z) (pre post : list byte) :
  0 <= v < 2 ^ 32 ->
  load_u32 (pre ++ bytes_of_u32 v ++ post) (length pre) = v.
Proof.
  intros H. unfold load_u32.
  rewrite !app_nth2_plus.
  rewrite <- (Nat.add_0_r (length pre)) at 1. rewrite app_nth2_plus.
  cbn [bytes_of_u32 app nth]. rewrite !byte_to_of_Z.
  apply u32_digits. exact H.
Qed.

(** A read only depends on the four bytes it covers. *)
Lemma load_u32_ext (m1 m2 : list byte) (off : nat) :
  (forall i, (off <= i < off + 4)%nat -> nth i m1 x00 = nth i m2 x00) ->
  load_u32 m1 off = load_u32 m2 off.
Proof.
  intros H. unfold load_u32.
  rewrite (H off), (H (off + 1)%nat), (H (off + 2)%nat), (H (off + 3)%nat)
    by lia.
  reflexivity.
Qed.

Lemma load_u32_app (m rest : list byte) (off : nat) :
  (off + 4 <= length m)%nat ->
  load_u32 (m ++ rest) off = load_u32 m off.
Proof.
  intros H. apply load_u32_ext. intros i Hi. apply app_nth1. lia.
Qed.

Lemma nth_firstn_lt (A : Type) (l : list A) (n i : nat) (d : A) :
  (i < n)%nat -> nth i (firstn n l) d = nth i l d.
Proof.
  revert n i. induction l as [|x l IH]; intros n i H.
  - rewrite firstn_nil. reflexivity.
  - destruct n as [|n]; [lia|]. destruct i as [|i]; cbn; [reflexivity|].
    apply IH. lia.
Qed.

Lemma load_u32_firstn (m : list byte) (n off : nat) :
  (off + 4 <= n)%nat ->
  load_u32 (firstn n m) off = load_u32 m off.
Proof.
  intros H. apply load_u32_ext. intros i Hi. apply nth_firstn_lt. lia.
Qed.

(* ================================================================== *)
(** ** The scheduler and the transport leave the rest alone *)

Lemma v4v_recv_effects (dontwait : bool) (size rc : Z) (bs : list byte)
  (w w1 : world) :
  v4v_recv dontwait size w = Some (rc, bs, w1) ->
  trace w1 = trace w /\ timer_expire w1 = timer_expire w
  /\ fd_handlers w1 = fd_handlers w /\ send_in w1 = send_in w
  /\ clock_ms w1 = clock_ms w.
Proof.
  unfold v4v_recv. intros H.
  destruct (recv_in w) as [|[bs'| |e] q]; [destruct dontwait|..];
    inversion H; subst; cbn; auto.
Qed.

Lemma v4v_recv_rc (dontwait : bool) (size rc : Z) (bs : list byte)
  (w w1 : world) :
  0 <= size ->
  v4v_recv dontwait size w = Some (rc, bs, w1) ->
  (rc = -1 /\ bs = []) \/ (0 <= rc <= size /\ rc = Z.of_nat (length bs)).
Proof.
  unfold v4v_recv. intros Hs H.
  destruct (recv_in w) as [|[bs'| |e] q]; [destruct dontwait|..];
    inversion H; subst;
    try (left; split; reflexivity);
    right; cbn [length]; rewrite ?length_firstn; lia.
Qed.

Lemma handle_disconnect_pending (s : service) (w : world) :
  qemu_timer_pending w = true -> handle_disconnect s w = w.
Proof. unfold handle_disconnect. intros ->. reflexivity. Qed.

Lemma store_bytes_length (mem : list byte) (off : Z) (bs m' : list byte) :
  store_bytes mem off bs = Some m' -> length m' = length mem.
Proof.
  unfold store_bytes. intros H.
  destruct (0 <=? off) eqn:E1; [|discriminate].
  destruct (off + Z.of_nat (length bs) <=? Z.of_nat (length mem)) eqn:E2;
    [|discriminate].
  cbn in H. inversion H; subst. apply Z.leb_le in E1, E2.
  rewrite !length_app, length_firstn, length_skipn. lia.
Qed.

(* ================================================================== *)
(** ** One turn of the two read loops *)

Section ReadSteps.

Variable cfg : dmbus_config.

Lemma sync_recv_complete (fuel : nat) (s : service) (w : world) :
  frame_incomplete cfg s = false ->
  sync_recv cfg (S fuel) s w = Ret true s w.
Proof. intros H. cbn [sync_recv]. rewrite H. reflexivity. Qed.

Lemma sync_recv_zero (fuel : nat) (s : service) (w w1 : world)
  (bs : list byte) :
  frame_incomplete cfg s = true ->
  v4v_recv false (to_size_t (DMBUS_MAX_MSG_LEN cfg - len s)) w
  = Some (0, bs, w1) ->
  sync_recv cfg (S fuel) s w = Ret false s (handle_disconnect s w1).
Proof. intros H R. cbn [sync_recv]. rewrite H, R. reflexivity. Qed.

Lemma sync_recv_eintr (fuel : nat) (s : service) (w w1 : world)
  (bs : list byte) :
  frame_incomplete cfg s = true ->
  v4v_recv false (to_size_t (DMBUS_MAX_MSG_LEN cfg - len s)) w
  = Some (-1, bs, w1) ->
  errno w1 = EINTR ->
  sync_recv cfg (S fuel) s w = sync_recv cfg fuel s w1.
Proof.
  intros H R E. cbn [sync_recv]. rewrite H, R. cbn. rewrite E. reflexivity.
Qed.


Lemma fd_read_zero (fuel : nat) (s : service) (w w1 : world)
  (bs : list byte) :
  v4v_recv true (to_size_t (DMBUS_MAX_MSG_LEN cfg - len s)) w
  = Some (0, bs, w1) ->
  dmbus_fd_handler_read cfg (S fuel) s w
  = Ret false s (handle_disconnect s w1).
Proof. intros R. cbn [dmbus_fd_handler_read]. rewrite R. reflexivity. Qed.

Lemma fd_read_eintr (fuel : nat) (s : service) (w w1 : world)
  (bs : list byte) :
  v4v_recv true (to_size_t (DMBUS_MAX_MSG_LEN cfg - len s)) w
  = Some (-1, bs, w1) ->
  errno w1 = EINTR ->
  dmbus_fd_handler_read cfg (S fuel) s w
  = dmbus_fd_handler_read cfg fuel s w1.
Proof.
  intros R E. cbn [dmbus_fd_handler_read]. rewrite R. cbn. rewrite E.
  reflexivity.
Qed.


(** A failed [v4v_send] ends [dmbus_send]. *)
Lemma send_loop_error (fuel : nat) (s : service) (data : list byte)
  (len_ b e : Z) (q : list send_result) (w : world) :
  b < len_ <= Z.of_nat (length data) ->
  send_in w = SendErr e :: q ->
  dmbus_send_loop (S fuel) s data len_ b w
  = Ret (-1) s
        (let w1 := set_errno e (set_send_in q w) in
         if e =? ECONNRESET then handle_disconnect s w1
         else fprintf_stderr (LogSendFailed e) w1).
Proof.
  intros [Hb Hl] Hq. cbn [dmbus_send_loop].
  apply Z.ltb_lt in Hb. apply Z.leb_le in Hl. rewrite Hb, Hl.
  unfold v4v_send. rewrite Hq. cbn. destruct (e =? ECONNRESET); reflexivity.
Qed.

End ReadSteps.

(* ================================================================== *)
(** ** Reconnection: disconnect handling and destruction *)

Lemma example_cfg_ok : config_ok example_cfg.
Proof.
  constructor; cbn; try (unfold INT_MAX; lia).
  repeat constructor; cbn; intuition discriminate.
Qed.

Lemma disconnects_pending (n : nat) (s : service) (w : world) :
  qemu_timer_pending w = true -> disconnects n s w = w.
Proof.
  intros H. unfold disconnects. induction n as [|n IH].
  - reflexivity.
  - rewrite Nat.iter_succ, IH.
    apply handle_disconnect_pending. exact H.
Qed.

(** C1.  While the reconnection timer is armed a disconnect signal does
    nothing: any number of calls of [handle_disconnect] leaves the world as
    it is, and each of the three places that raise the signal (a
    zero-length read in [sync_recv], one in [dmbus_fd_handler], a
    connection reset in [dmbus_send]) returns with the trace, the timer and
    the registered handlers untouched.  The service has one timer, so at
    most one is ever outstanding. *)
Theorem disconnect_while_armed_is_noop (cfg : dmbus_config) (s : service)
  (w : world) :
  qemu_timer_pending w = true ->
  (forall n, disconnects n s w = w)
  /\ (forall fuel bs w1,
        frame_incomplete cfg s = true ->
        v4v_recv false (to_size_t (DMBUS_MAX_MSG_LEN cfg - len s)) w
        = Some (0, bs, w1) ->
        sync_recv cfg (S fuel) s w = Ret false s w1 /\ untouched w w1)
  /\ (forall fuel bs w1,
        v4v_recv true (to_size_t (DMBUS_MAX_MSG_LEN cfg - len s)) w
        = Some (0, bs, w1) ->
        dmbus_fd_handler cfg (S fuel) s w = Ret tt s w1 /\ untouched w w1)
  /\ (forall fuel msgtype data d len_ q,
        stamp_header cfg msgtype len_ data = Some d ->
        0 < len_ <= Z.of_nat (length data) ->
        send_in w = SendErr ECONNRESET :: q ->
        exists w1,
          dmbus_send cfg (S fuel) s msgtype data len_ w = Ret (-1, d) s w1
          /\ untouched w w1).
Proof.
  intros Hp.
  assert (Hkeep : forall dw sz rc bs w1,
             v4v_recv dw sz w = Some (rc, bs, w1) ->
             untouched w w1 /\ handle_disconnect s w1 = w1).
  { intros dw sz rc bs w1 R.
    destruct (v4v_recv_effects _ _ _ _ _ _ R) as (Ht & Hx & Hf & _).
    split; [repeat split; assumption|].
    apply handle_disconnect_pending. unfold qemu_timer_pending in *.
    rewrite Hx. exact Hp. }
  split; [|split; [|split]].
  - intros n. apply disconnects_pending. exact Hp.
  - intros fuel bs w1 Hi R. destruct (Hkeep _ _ _ _ _ R) as [Hu Hd].
    rewrite (sync_recv_zero cfg fuel s w w1 bs Hi R), Hd. auto.
  - intros fuel bs w1 R. destruct (Hkeep _ _ _ _ _ R) as [Hu Hd].
    unfold dmbus_fd_handler.
    rewrite (fd_read_zero cfg fuel s w w1 bs R), Hd. auto.
  - intros fuel msgtype data d len_ q Hst Hl Hq.
    exists (set_errno ECONNRESET (set_send_in q w)).
    unfold dmbus_send. rewrite Hst.
    assert (Hlen : length d = length data).
    { unfold stamp_header in Hst.
      destruct (store_bytes data _ _) as [d0|] eqn:E0; [|discriminate].
      apply store_bytes_length in Hst, E0. congruence. }
    rewrite (send_loop_error fuel s d len_ 0 ECONNRESET q w)
      by (assumption || lia).
    cbn. rewrite handle_disconnect_pending by exact Hp.
    split; [reflexivity|]. repeat split; reflexivity.
Qed.

Lemma disconnect_while_armed_is_noop_witness :
  disconnects 3 (service_of []) armed_world = armed_world.
Proof.
  apply (proj1 (disconnect_while_armed_is_noop example_cfg (service_of [])
                  armed_world eq_refl)).
Defined.

(** C7.  [dmbus_service_disconnect], from any state of the service and of
    its environment, unregisters the read handler of the descriptor,
    releases the timer, which is no longer pending, closes the descriptor
    and frees the service, in this order. *)
Theorem service_disconnect_releases (s : service) (w : world) :
  let w' := dmbus_service_disconnect s w in
  qemu_timer_pending w' = false
  /\ ~ In (fd s) (fd_handlers w')
  /\ trace w' = trace w ++ [ EvSetFdHandler (fd s) false; EvFreeTimer;
                             EvClose (fd s); EvFree ].
Proof.
  cbn. split; [reflexivity|]. split.
  - unfold remove_fd. intros H. apply filter_In in H. destruct H as [_ H].
    rewrite Z.eqb_refl in H. discriminate.
  - rewrite <- !app_assoc. reflexivity.
Qed.

(* ================================================================== *)
(** ** Dispatch *)

(** C9, as the code has it.  Without a capability table every message is
    dropped in silence, an unrecognized one included.  With a table: a
    recognized type whose slot is unset changes nothing; the
    device-model-ready type changes nothing; an unrecognized type writes
    one line to the log and changes nothing else.  [handle_message] never
    touches the service. *)
Theorem handle_message_ignores (cfg : dmbus_config) (s : service)
  (w : world) :
  NoDup (known_tags cfg) ->
  let t := hdr_msg_type cfg (buff s) in
  (ops s = None -> handle_message cfg s w = w)
  /\ (forall o, ops s = Some o ->
      (t = DMBUS_MSG_DOM0_INPUT_EVENT cfg -> dom0_input_event o = false ->
       handle_message cfg s w = w)
      /\ (t = DMBUS_MSG_DISPLAY_INFO cfg -> display_info o = false ->
          handle_message cfg s w = w)
      /\ (t = DMBUS_MSG_DISPLAY_EDID cfg -> display_edid o = false ->
          handle_message cfg s w = w)
      /\ (t = DMBUS_MSG_INPUT_CONFIG cfg -> input_config o = false ->
          handle_message cfg s w = w)
      /\ (t = DMBUS_MSG_INPUT_CONFIG_RESET cfg ->
          input_config_reset o = false ->
          handle_message cfg s w = w)
      /\ (t = DMBUS_MSG_DEVICE_MODEL_READY cfg ->
          handle_message cfg s w = w)
      /\ (~ In t (known_tags cfg) ->
          handle_message cfg s w = fprintf_stderr (LogUnrecognized t) w)).
Proof.
  intros Hnd t. unfold known_tags in *.
  repeat match goal with
         | H : NoDup (_ :: _) |- _ => inversion H; clear H; subst
         end.
  cbn [In] in *.
  split.
  - intros Ho. unfold handle_message. rewrite Ho. reflexivity.
  - intros o Ho. unfold handle_message. rewrite Ho. fold t.
    repeat split; intros;
      repeat match goal with
             | |- context [?a =? ?b] =>
                 destruct (Z.eqb_spec a b); try (exfalso; intuition congruence)
             end;
      unfold call_if;
      repeat match goal with
             | H : _ = false |- _ => rewrite H
             end;
      try reflexivity; exfalso; intuition congruence.
Qed.

Lemma handle_message_ignores_witness :
  handle_message example_cfg
    {| fd := 3; ops := Some all_ops; buff := buffer_of (frame 4 []);
       len := 8 |} (world_of [] [])
  = world_of [] [].
Proof.
  apply (proj2 (handle_message_ignores example_cfg
                  {| fd := 3; ops := Some all_ops;
                     buff := buffer_of (frame 4 []); len := 8 |}
                  (world_of [] []) (ok_tags _ example_cfg_ok))
           all_ops eq_refl).
  reflexivity.
Defined.

(** C9 as stated fails: a service connected without a capability table
    receives a message of a type the switch does not know, and nothing is
    logged. *)
Lemma unrecognized_not_logged_counterexample :
  let s := {| fd := 3; ops := None; buff := buffer_of (frame 9 []);
              len := 8 |} in
  ~ In (hdr_msg_type example_cfg (buff s)) (known_tags example_cfg)
  /\ trace (handle_message example_cfg s (world_of [] [])) = [].
Proof.
  cbn. split; [|reflexivity]. vm_compute. intuition discriminate.
Qed.

(* ================================================================== *)
(** ** Popping a message *)

Section Pop.

Variable cfg : dmbus_config.
Hypothesis max_int : DMBUS_MAX_MSG_LEN cfg <= INT_MAX.

(** With a whole message at the front, [pop_message] moves the bytes
    behind it to the front and takes its length off [len]. *)
Lemma pop_message_whole (s : service) :
  buffer_ok cfg s ->
  sizeof_hdr cfg <= len s ->
  hdr_msg_len cfg (buff s) <= len s ->
  let L := hdr_msg_len cfg (buff s) in
  pop_message cfg s
  = Some (set_buff_len s
            (firstn (Z.to_nat (len s - L)) (skipn (Z.to_nat L) (buff s))
             ++ skipn (Z.to_nat (len s - L)) (buff s))
            (len s - L)).
Proof.
  intros [Hb Hl] Hh HL L. unfold pop_message. fold L.
  pose proof (load_u32_range (buff s) (off_msg_len cfg)) as HR.
  fold (hdr_msg_len cfg (buff s)) in HR. fold L in HR.
  unfold INT_MAX in max_int.
  rewrite (to_int_small L) by lia.
  rewrite (to_size_t_small (len s)) by lia.
  rewrite (to_size_t_small (len s - L)) by lia.
  rewrite (to_int_small (len s - L)) by lia.
  destruct (Z.ltb_spec (len s) (sizeof_hdr cfg)); [lia|].
  destruct (Z.ltb_spec (len s) L); [lia|].
  cbn [orb]. unfold memmove_to_front.
  destruct (Z.leb_spec 0 L); [|lia].
  destruct (Z.leb_spec 0 (len s - L)); [|lia].
  destruct (Z.leb_spec (L + (len s - L)) (Z.of_nat (length (buff s))));
    [|lia].
  reflexivity.
Qed.

End Pop.

(** C2.  A buffer holds [len s] valid bytes, at least a header, and the
    message at its front declares a length [L] of at most [len s].  Then
    [pop_message] leaves [len s - L] valid bytes, and they are the bytes
    that stood at positions [L .. len s) before. *)
Theorem pop_message_shifts (cfg : dmbus_config) (s : service) :
  DMBUS_MAX_MSG_LEN cfg <= INT_MAX ->
  buffer_ok cfg s ->
  sizeof_hdr cfg <= len s ->
  hdr_msg_len cfg (buff s) <= len s ->
  let L := hdr_msg_len cfg (buff s) in
  exists s',
    pop_message cfg s = Some s'
    /\ len s' = len s - L
    /\ valid_bytes s' = skipn (Z.to_nat L) (valid_bytes s)
    /\ length (valid_bytes s') = Z.to_nat (len s - L)
    /\ length (buff s') = length (buff s).
Proof.
  intros Hmax Hok Hh HL L.
  pose proof (load_u32_range (buff s) (off_msg_len cfg)) as HR.
  fold (hdr_msg_len cfg (buff s)) in HR. fold L in HR.
  destruct Hok as [Hb Hl].
  eexists. split; [apply pop_message_whole; try split; assumption|].
  fold L. unfold valid_bytes. cbn [len buff set_buff_len].
  assert (Hn : length (firstn (Z.to_nat (len s - L))
                         (skipn (Z.to_nat L) (buff s)))
               = Z.to_nat (len s - L)).
  { rewrite length_firstn, length_skipn. lia. }
  split; [reflexivity|]. split; [|split].
  - rewrite firstn_app, Hn, Nat.sub_diag, firstn_O, app_nil_r.
    rewrite firstn_firstn, Nat.min_id.
    rewrite skipn_firstn_comm. f_equal. lia.
  - rewrite firstn_app, Hn, Nat.sub_diag, firstn_O, app_nil_r.
    rewrite length_firstn, Hn. lia.
  - rewrite length_app, Hn, length_skipn. lia.
Qed.

Lemma pop_message_shifts_witness :
  exists s',
    pop_message example_cfg
      (service_of (frame 1 [x61; x62] ++ frame 4 [x63])) = Some s'
    /\ len s' = 9
    /\ valid_bytes s' = frame 4 [x63].
Proof.
  destruct (pop_message_shifts example_cfg
              (service_of (frame 1 [x61; x62] ++ frame 4 [x63])))
    as (s' & Hp & Hl & Hv & _).
  - unfold INT_MAX. cbn. lia.
  - split; cbn; [reflexivity|lia].
  - cbn. lia.
  - vm_compute. discriminate.
  - exists s'. split; [exact Hp|]. split; [exact Hl|exact Hv].
Defined.

(* ================================================================== *)
(** ** Closed connections and read errors *)






(* ================================================================== *)
(** ** Interrupted calls and calls that would block *)




(* ================================================================== *)
(** ** Reading into the buffer *)

Lemma v4v_recv_stream (dontwait : bool) (size rc : Z) (bs : list byte)
  (w w1 : world) :
  v4v_recv dontwait size w = Some (rc, bs, w1) ->
  pending (recv_in w) = bs ++ pending (recv_in w1)
  /\ (length (recv_in w1) <= length (recv_in w))%nat
  /\ (0 < rc \/ (rc = -1 /\ errno w1 = EINTR) ->
      (reads_left w1 < reads_left w)%nat).
Proof.
  unfold v4v_recv, reads_left. intros H.
  destruct (recv_in w) as [|[bs'| |e] q] eqn:Q.
  - destruct dontwait; inversion H; subst. cbn. rewrite Q. cbn.
    repeat split; try lia. intros [?|[_ E]]; [lia|discriminate E].
  - inversion H; subst; clear H. cbn [recv_in set_recv_in pending].
    pose proof (firstn_skipn (Z.to_nat size) bs') as Hfs.
    destruct (skipn (Z.to_nat size) bs') as [|x left] eqn:L.
    + rewrite app_nil_r in Hfs. rewrite Hfs. rewrite length_app.
      cbn [length]. repeat split; try lia.
    + cbn [pending].
      assert (Hn : length bs'
                   = (length (firstn (Z.to_nat size) bs')
                      + S (length left))%nat).
      { rewrite <- Hfs at 1. rewrite length_app. reflexivity. }
      rewrite !length_app. cbn [length].
      split; [rewrite app_assoc, Hfs; reflexivity|].
      split; [lia|]. intros [Hp|[Hm _]]; lia.
  - inversion H; subst. cbn. repeat split; lia.
  - inversion H; subst. cbn. repeat split; lia.
Qed.

Lemma v4v_recv_none (dontwait : bool) (size : Z) (w : world) :
  v4v_recv dontwait size w = None -> recv_in w = [].
Proof.
  unfold v4v_recv. destruct (recv_in w) as [|[bs'| |e] q]; [reflexivity|..];
    discriminate.
Qed.

Lemma handle_disconnect_queues (s : service) (w : world) :
  recv_in (handle_disconnect s w) = recv_in w
  /\ send_in (handle_disconnect s w) = send_in w.
Proof.
  unfold handle_disconnect. destruct (qemu_timer_pending w); auto.
Qed.

Section Reading.

Variable cfg : dmbus_config.
Hypothesis max_int : DMBUS_MAX_MSG_LEN cfg <= INT_MAX.

Lemma read_size (s : service) :
  buffer_ok cfg s ->
  to_size_t (DMBUS_MAX_MSG_LEN cfg - len s) = DMBUS_MAX_MSG_LEN cfg - len s.
Proof.
  intros [_ Hl]. unfold INT_MAX in max_int. apply to_size_t_small. lia.
Qed.

(** The [default] case of both loops: the bytes read fit behind the valid
    prefix and extend it. *)
Lemma read_stores (dontwait : bool) (s : service) (w w1 : world) (rc : Z)
  (bs : list byte) :
  buffer_ok cfg s ->
  v4v_recv dontwait (to_size_t (DMBUS_MAX_MSG_LEN cfg - len s)) w
  = Some (rc, bs, w1) ->
  rc <> 0 -> rc <> -1 ->
  exists b,
    store_bytes (buff s) (len s) bs = Some b
    /\ to_int (len s + rc) = len s + rc
    /\ 0 < rc
    /\ buffer_ok cfg (set_buff_len s b (len s + rc))
    /\ valid_bytes (set_buff_len s b (len s + rc)) = valid_bytes s ++ bs.
Proof.
  intros Hok R H0 H1. pose proof Hok as [Hb Hl].
  rewrite (read_size s Hok) in R.
  assert (Hsz : 0 <= DMBUS_MAX_MSG_LEN cfg - len s) by lia.
  destruct (v4v_recv_rc _ _ _ _ _ _ Hsz R) as [[? _]|[Hrc Hbs]]; [lia|].
  unfold INT_MAX in max_int.
  unfold store_bytes.
  destruct (Z.leb_spec 0 (len s)); [|lia].
  destruct (Z.leb_spec (len s + Z.of_nat (length bs))
              (Z.of_nat (length (buff s)))); [|lia].
  cbn [andb]. eexists. split; [reflexivity|].
  split; [apply to_int_small; lia|]. split; [lia|].
  assert (Hf : length (firstn (Z.to_nat (len s)) (buff s))
               = Z.to_nat (len s)).
  { rewrite length_firstn. lia. }
  split.
  - split; cbn [buff len set_buff_len]; [|lia].
    rewrite !length_app, Hf, length_skipn. lia.
  - unfold valid_bytes. cbn [buff len set_buff_len].
    rewrite app_assoc.
    rewrite firstn_app.
    replace (Z.to_nat (len s + rc)
             - length (firstn (Z.to_nat (len s)) (buff s) ++ bs))%nat
      with 0%nat by (rewrite length_app, Hf; lia).
    rewrite firstn_O, app_nil_r. apply firstn_all2.
    rewrite length_app, Hf. lia.
Qed.

Lemma read_post_refl (s : service) (w : world) (r : bool) :
  buffer_ok cfg s -> read_post cfg s w r s w.
Proof.
  intros H. unfold read_post, untouched. repeat split; auto; apply H.
Qed.

(** A read that brought nothing and after which the world [w2] differs
    from [w1] only in what it logged or scheduled. *)
Lemma read_post_end (s : service) (w w1 w2 : world) (rc : Z)
  (bs : list byte) (dontwait : bool) (size : Z) :
  buffer_ok cfg s ->
  v4v_recv dontwait size w = Some (rc, bs, w1) ->
  bs = [] ->
  recv_in w2 = recv_in w1 -> send_in w2 = send_in w1 ->
  read_post cfg s w false s w2.
Proof.
  intros Hok R Hbs Hr Hs.
  destruct (v4v_recv_stream _ _ _ _ _ _ R) as (Hp & Hle & _).
  destruct (v4v_recv_effects _ _ _ _ _ _ R) as (_ & _ & _ & Hsend & _).
  subst bs. cbn [app] in Hp.
  unfold read_post, stream, work_left, reads_left in *.
  rewrite Hr, Hs, Hp.
  repeat (split; [first [apply Hok | congruence | lia]|]).
  discriminate.
Qed.

Lemma read_post_step (s s1 : service) (w w1 : world) (b bs : list byte)
  (rc : Z) (dontwait : bool) (size : Z) (r : bool) (s' : service)
  (w' : world) :
  buffer_ok cfg s ->
  v4v_recv dontwait size w = Some (rc, bs, w1) ->
  0 <= rc -> rc = Z.of_nat (length bs) ->
  s1 = set_buff_len s b (len s + rc) ->
  valid_bytes s1 = valid_bytes s ++ bs ->
  read_post cfg s1 w1 r s' w' ->
  read_post cfg s w r s' w'.
Proof.
  intros Hok R Hrc Hlen -> Hv (P1 & P2 & P3 & P4 & P5 & P6 & P7).
  destruct (v4v_recv_stream _ _ _ _ _ _ R) as (Hp & Hle & _).
  destruct (v4v_recv_effects _ _ _ _ _ _ R) as (Ht & Hx & Hf & Hsend & _).
  destruct Hok as [_ Hl].
  unfold read_post, stream, work_left, reads_left, untouched in *.
  cbn [fd ops len set_buff_len] in *.
  rewrite Hv in P4. rewrite Hp, app_assoc, !length_app.
  repeat (split; [first [assumption | congruence | lia]|]).
  intros Hr. destruct (P7 Hr) as (? & ? & ?). repeat split; congruence.
Qed.

Lemma read_post_retry (s : service) (w w1 : world) (bs : list byte)
  (rc : Z) (dontwait : bool) (size : Z) (r : bool) (s' : service)
  (w' : world) :
  v4v_recv dontwait size w = Some (rc, bs, w1) ->
  bs = [] ->
  read_post cfg s w1 r s' w' ->
  read_post cfg s w r s' w'.
Proof.
  intros R -> (P1 & P2 & P3 & P4 & P5 & P6 & P7).
  destruct (v4v_recv_stream _ _ _ _ _ _ R) as (Hp & Hle & _).
  destruct (v4v_recv_effects _ _ _ _ _ _ R) as (Ht & Hx & Hf & Hsend & _).
  cbn [app] in Hp.
  unfold read_post, stream, work_left, reads_left, untouched in *.
  rewrite Hp.
  repeat (split; [first [assumption | congruence | lia]|]).
  intros Hr. destruct (P7 Hr) as (? & ? & ?). repeat split; congruence.
Qed.

End Reading.

Section ReadLoops.

Variable cfg : dmbus_config.
Hypothesis max_int : DMBUS_MAX_MSG_LEN cfg <= INT_MAX.

(** What [sync_recv] guarantees, by induction on the fuel: it keeps the
    invariant of the buffer and the byte stream, it returns a message only
    when a whole one is at the front, and it runs out of fuel only when
    given less than the reads that can still make progress. *)
Lemma sync_recv_post (fuel : nat) :
  forall (s : service) (w : world),
    buffer_ok cfg s ->
    match sync_recv cfg fuel s w with
    | Ret r s' w' =>
        read_post cfg s w r s' w'
        /\ (r = true -> frame_incomplete cfg s' = false)
    | Blocked s' w' => buffer_ok cfg s' /\ recv_in w' = []
    | Undefined => False
    | OutOfFuel => (fuel <= reads_left w)%nat
    end.
Proof.
  induction fuel as [|fuel IH]; intros s w Hok; [cbn; lia|].
  cbn [sync_recv].
  destruct (frame_incomplete cfg s) eqn:Hi.
  2: { split; [apply read_post_refl; assumption|auto]. }
  destruct (v4v_recv false _ w) as [[[rc bs] w1]|] eqn:R.
  2: { split; [assumption|]. exact (v4v_recv_none _ _ _ R). }
  pose proof (v4v_recv_stream _ _ _ _ _ _ R) as (Hp & Hq & Hlt).
  assert (Hsz : 0 <= to_size_t (DMBUS_MAX_MSG_LEN cfg - len s)).
  { rewrite read_size by assumption. destruct Hok as [_ ?]. lia. }
  pose proof (v4v_recv_rc _ _ _ _ _ _ Hsz R) as Hrc.
  destruct (Z.eqb_spec rc 0) as [E0|E0].
  { split; [|discriminate].
    apply (read_post_end cfg s w w1 _ rc bs false _ Hok R).
    - destruct Hrc as [[? ?]|[_ Hl]]; [assumption|].
      destruct bs; [reflexivity|cbn in Hl; lia].
    - apply handle_disconnect_queues.
    - apply handle_disconnect_queues. }
  destruct (Z.eqb_spec rc (-1)) as [E1|E1].
  { assert (Hbs : bs = []) by (destruct Hrc as [[_ ?]|[? _]]; [assumption|lia]).
    destruct (Z.eqb_spec (errno w1) EINTR) as [Ee|Ee].
    - specialize (IH s w1 Hok).
      destruct (sync_recv cfg fuel s w1) as [r s' w'| | |]; try assumption.
      + destruct IH as [IH1 IH2]. split; [|assumption].
        exact (read_post_retry cfg s w w1 bs rc false _ r s' w' R Hbs IH1).
      + specialize (Hlt (or_intror (conj E1 Ee))). lia.
    - split; [|discriminate].
      apply (read_post_end cfg s w w1 _ rc bs false _ Hok R Hbs);
        reflexivity. }
  destruct (read_stores cfg max_int false s w w1 rc bs Hok R E0 E1)
    as (b & Hst & Hto & Hpos & Hok1 & Hv).
  rewrite Hst, Hto.
  specialize (IH (set_buff_len s b (len s + rc)) w1 Hok1).
  destruct (sync_recv cfg fuel (set_buff_len s b (len s + rc)) w1)
    as [r s' w'| | |]; try assumption.
  - destruct IH as [IH1 IH2]. split; [|assumption].
    apply (read_post_step cfg s (set_buff_len s b (len s + rc)) w w1 b bs
             rc false _ r s' w' Hok R);
      try assumption; try reflexivity; try lia.
  - specialize (Hlt (or_introl Hpos)). lia.
Qed.

(** The same for the first, non-blocking read of [dmbus_fd_handler],
    which never blocks. *)
Lemma fd_read_post (fuel : nat) :
  forall (s : service) (w : world),
    buffer_ok cfg s ->
    match dmbus_fd_handler_read cfg fuel s w with
    | Ret r s' w' => read_post cfg s w r s' w'
    | Blocked s' w' => False
    | Undefined => False
    | OutOfFuel => (fuel <= reads_left w)%nat
    end.
Proof.
  induction fuel as [|fuel IH]; intros s w Hok; [cbn; lia|].
  cbn [dmbus_fd_handler_read].
  destruct (v4v_recv true _ w) as [[[rc bs] w1]|] eqn:R.
  2: { unfold v4v_recv in R.
       destruct (recv_in w) as [|[?| |?] ?]; discriminate. }
  pose proof (v4v_recv_stream _ _ _ _ _ _ R) as (Hp & Hq & Hlt).
  assert (Hsz : 0 <= to_size_t (DMBUS_MAX_MSG_LEN cfg - len s)).
  { rewrite read_size by assumption. destruct Hok as [_ ?]. lia. }
  pose proof (v4v_recv_rc _ _ _ _ _ _ Hsz R) as Hrc.
  destruct (Z.eqb_spec rc 0) as [E0|E0].
  { apply (read_post_end cfg s w w1 _ rc bs true _ Hok R).
    - destruct Hrc as [[? ?]|[_ Hl]]; [assumption|].
      destruct bs; [reflexivity|cbn in Hl; lia].
    - apply handle_disconnect_queues.
    - apply handle_disconnect_queues. }
  destruct (Z.eqb_spec rc (-1)) as [E1|E1].
  { assert (Hbs : bs = []) by (destruct Hrc as [[_ ?]|[? _]]; [assumption|lia]).
    destruct (Z.eqb_spec (errno w1) EINTR) as [Ee|Ee].
    - specialize (IH s w1 Hok).
      destruct (dmbus_fd_handler_read cfg fuel s w1) as [r s' w'| | |];
        try assumption.
      + exact (read_post_retry cfg s w w1 bs rc true _ r s' w' R Hbs IH).
      + specialize (Hlt (or_intror (conj E1 Ee))). lia.
    - apply (read_post_end cfg s w w1 _ rc bs true _ Hok R Hbs);
        reflexivity. }
  destruct (read_stores cfg max_int true s w w1 rc bs Hok R E0 E1)
    as (b & Hst & Hto & Hpos & Hok1 & Hv).
  rewrite Hst, Hto.
  destruct (Z.leb_spec rc 0); [lia|].
  apply (read_post_step cfg s (set_buff_len s b (len s + rc)) w w1 b bs
           rc true _ true _ w1 Hok R);
    try assumption; try reflexivity; try lia.
  apply read_post_refl. assumption.
Qed.

End ReadLoops.

(* ================================================================== *)
(** ** Whole messages at the front of the buffer *)

Lemma add_trace_nil (w : world) : add_trace [] w = w.
Proof. destruct w. unfold add_trace. cbn. rewrite app_nil_r. reflexivity. Qed.

Section Fronts.

Variable cfg : dmbus_config.
Hypothesis cfg_ok : config_ok cfg.

Lemma frame_complete_negb (s : service) :
  frame_complete cfg s = negb (frame_incomplete cfg s).
Proof.
  unfold frame_complete, frame_incomplete.
  rewrite negb_orb, <- !Z.leb_antisym. reflexivity.
Qed.

Lemma sizeof_hdr_pos : 0 < sizeof_hdr cfg.
Proof. pose proof (ok_len_in_hdr cfg cfg_ok). lia. Qed.

Lemma frame_complete_true (s : service) :
  buffer_ok cfg s ->
  frame_complete cfg s = true ->
  sizeof_hdr cfg <= len s /\ 0 <= hdr_msg_len cfg (buff s) <= len s.
Proof.
  intros [Hb Hl] H. unfold frame_complete in H.
  pose proof (ok_max_int cfg cfg_ok) as Hm. unfold INT_MAX in Hm.
  pose proof (load_u32_range (buff s) (off_msg_len cfg)) as HR.
  fold (hdr_msg_len cfg (buff s)) in HR.
  rewrite to_size_t_small, to_uint32_small in H by lia.
  apply andb_prop in H. destruct H as [H1 H2].
  apply Z.leb_le in H1, H2. lia.
Qed.

(** Everything the callers of [pop_message] need to know of it. *)
Lemma pop_message_facts (s : service) :
  buffer_ok cfg s ->
  frame_complete cfg s = true ->
  exists s',
    pop_message cfg s = Some s'
    /\ buffer_ok cfg s'
    /\ fd s' = fd s /\ ops s' = ops s
    /\ len s' = len s - hdr_msg_len cfg (buff s)
    /\ valid_bytes s'
       = skipn (Z.to_nat (hdr_msg_len cfg (buff s))) (valid_bytes s).
Proof.
  intros Hok Hc. destruct (frame_complete_true s Hok Hc) as (Hh & HL0 & HL).
  pose proof Hok as [Hb Hl].
  eexists. split.
  { apply pop_message_whole; try assumption. apply (ok_max_int cfg cfg_ok). }
  cbv zeta. set (L := hdr_msg_len cfg (buff s)) in *.
  unfold valid_bytes, buffer_ok. cbn [len buff fd ops set_buff_len].
  assert (Hn : length (firstn (Z.to_nat (len s - L))
                         (skipn (Z.to_nat L) (buff s)))
               = Z.to_nat (len s - L)).
  { rewrite length_firstn, length_skipn. lia. }
  repeat split; try lia.
  - rewrite length_app, Hn, length_skipn. lia.
  - rewrite firstn_app, Hn, Nat.sub_diag, firstn_O, app_nil_r.
    rewrite firstn_firstn, Nat.min_id.
    rewrite skipn_firstn_comm. f_equal. lia.
Qed.

(** The header of the message at the front of the buffer is the header of
    the byte stream. *)
Lemma hdr_of_stream (s : service) (w : world) :
  buffer_ok cfg s ->
  sizeof_hdr cfg <= len s ->
  hdr_msg_len cfg (stream s w) = hdr_msg_len cfg (buff s)
  /\ hdr_msg_type cfg (stream s w) = hdr_msg_type cfg (buff s).
Proof.
  intros [Hb Hl] Hh. unfold hdr_msg_len, hdr_msg_type, stream, valid_bytes.
  pose proof (ok_len_in_hdr cfg cfg_ok). pose proof (ok_type_in_hdr cfg cfg_ok).
  assert (Hf : length (firstn (Z.to_nat (len s)) (buff s))
               = Z.to_nat (len s)) by (rewrite length_firstn; lia).
  split; (rewrite load_u32_app by (rewrite Hf; lia));
    apply load_u32_firstn; lia.
Qed.

Lemma length_stream (s : service) (w : world) :
  buffer_ok cfg s ->
  length (stream s w)
  = (Z.to_nat (len s) + length (pending (recv_in w)))%nat.
Proof.
  intros [Hb Hl]. unfold stream, valid_bytes.
  rewrite length_app, length_firstn. lia.
Qed.

Lemma handle_message_trace (s : service) (w : world) :
  handle_message cfg s w = add_trace (dispatch_of cfg (ops s) (buff s)) w.
Proof.
  unfold dispatch_of, handle_message. cbn [ops buff].
  destruct (ops s) as [o|]; [|symmetry; apply add_trace_nil].
  unfold call_if, fprintf_stderr, emit. cbn [buff trace app].
  repeat match goal with
         | |- context [if ?c then _ else _] => destruct c
         end;
    first [reflexivity | symmetry; apply add_trace_nil].
Qed.

Lemma dispatch_of_ext (o : option dmbus_ops) (b1 b2 : list byte) :
  hdr_msg_type cfg b1 = hdr_msg_type cfg b2 ->
  message_at cfg b1 = message_at cfg b2 ->
  dispatch_of cfg o b1 = dispatch_of cfg o b2.
Proof.
  intros Ht Hm. unfold dispatch_of, handle_message, call_if. cbn [ops buff].
  rewrite Ht, Hm. reflexivity.
Qed.

End Fronts.

(* ================================================================== *)
(** ** The dispatch-and-pop loops *)

Section Loops.

Variable cfg : dmbus_config.
Hypothesis cfg_ok : config_ok cfg.

Lemma stream_after_pop (s s' : service) (w w' : world) :
  buffer_ok cfg s ->
  frame_complete cfg s = true ->
  valid_bytes s'
  = skipn (Z.to_nat (hdr_msg_len cfg (buff s))) (valid_bytes s) ->
  recv_in w' = recv_in w ->
  stream s' w' = drop_messages cfg 1 (stream s w).
Proof.
  intros Hok Hc Hv Hr.
  destruct (frame_complete_true cfg cfg_ok s Hok Hc) as (Hh & HL0 & HL).
  destruct (hdr_of_stream cfg cfg_ok s w Hok Hh) as [Hlen _].
  cbn [drop_messages]. rewrite Hlen. unfold stream. rewrite Hv, Hr.
  rewrite skipn_app.
  replace (Z.to_nat (hdr_msg_len cfg (buff s)) - length (valid_bytes s))%nat
    with 0%nat; [reflexivity|].
  unfold valid_bytes. rewrite length_firstn. destruct Hok. lia.
Qed.


Lemma handle_message_queues (s : service) (w : world) :
  recv_in (handle_message cfg s w) = recv_in w
  /\ send_in (handle_message cfg s w) = send_in w.
Proof. rewrite handle_message_trace. split; reflexivity. Qed.

(** The loop of [dmbus_fd_handler] keeps the invariant of the buffer and
    never leaves it; it ends with no whole message at the front. *)
Lemma dispatch_post (fuel : nat) :
  forall (s : service) (w : world),
    buffer_ok cfg s ->
    match dmbus_fd_handler_dispatch cfg fuel s w with
    | Ret _ s' w' =>
        buffer_ok cfg s' /\ frame_complete cfg s' = false
        /\ recv_in w' = recv_in w
    | Blocked _ _ => False
    | Undefined => False
    | OutOfFuel => True
    end.
Proof.
  induction fuel as [|fuel IH]; intros s w Hok; [exact I|].
  cbn [dmbus_fd_handler_dispatch].
  destruct (frame_complete cfg s) eqn:Hc; [|auto].
  destruct (pop_message_facts cfg cfg_ok s Hok Hc)
    as (s1 & Hp & Hok1 & _).
  rewrite Hp. specialize (IH s1 (handle_message cfg s w) Hok1).
  destruct (dmbus_fd_handler_dispatch cfg fuel s1 (handle_message cfg s w));
    try assumption.
  destruct IH as (? & ? & Hr). split; [assumption|]. split; [assumption|].
  etransitivity; [exact Hr|]. apply handle_message_queues.
Qed.


(** The loop of [dmbus_sync_recv], entered with a whole message at the
    front: it keeps the invariant of the buffer and never leaves it. *)
Lemma sync_loop_post (fuel : nat) (type : Z) :
  forall (s : service) (w : world),
    buffer_ok cfg s ->
    frame_incomplete cfg s = false ->
    match dmbus_sync_recv_loop cfg fuel type s w with
    | Ret r s' w' =>
        buffer_ok cfg s' /\ (r = true -> frame_incomplete cfg s' = false)
    | Blocked s' _ => buffer_ok cfg s'
    | Undefined => False
    | OutOfFuel => True
    end.
Proof.
  pose proof (ok_max_int cfg cfg_ok) as Hmax.
  induction fuel as [|fuel IH]; intros s w Hok Hi; [exact I|].
  cbn [dmbus_sync_recv_loop].
  destruct (negb (hdr_msg_type cfg (buff s) =? to_uint32 type)); [|auto].
  assert (Hc : frame_complete cfg s = true)
    by (rewrite frame_complete_negb, Hi; reflexivity).
  destruct (pop_message_facts cfg cfg_ok s Hok Hc)
    as (s1 & Hp & Hok1 & _).
  rewrite Hp.
  pose proof (sync_recv_post cfg Hmax fuel s1 (handle_message cfg s w) Hok1)
    as Hs.
  destruct (sync_recv cfg fuel s1 (handle_message cfg s w))
    as [[|] s2 w2| | |]; try tauto.
  - destruct Hs as [(Hok2 & _) Hi2]. apply IH; auto.
  - destruct Hs as [(Hok2 & _) _]. split; [assumption|discriminate].
Qed.


End Loops.

(* ================================================================== *)
(** ** The invariant of the buffer, and termination *)

Section Invariant.

Variable cfg : dmbus_config.
Hypothesis cfg_ok : config_ok cfg.

(** The end of [dmbus_sync_recv], lines 203-210: with a whole message at
    the front the copy stays inside the buffer and the pop succeeds. *)
Lemma sync_recv_copy (s : service) (size : Z) :
  buffer_ok cfg s ->
  frame_incomplete cfg s = false ->
  let n := if hdr_msg_len cfg (buff s) <? size then hdr_msg_len cfg (buff s)
           else size in
  (n <=? Z.of_nat (length (buff s))) = true
  /\ exists s', pop_message cfg s = Some s' /\ buffer_ok cfg s'.
Proof.
  intros Hok Hi n.
  assert (Hc : frame_complete cfg s = true)
    by (rewrite frame_complete_negb, Hi; reflexivity).
  destruct (frame_complete_true cfg cfg_ok s Hok Hc) as (Hh & HL0 & HL).
  destruct (pop_message_facts cfg cfg_ok s Hok Hc) as (s1 & Hp & Hok1 & _).
  split; [|eauto].
  apply Z.leb_le. subst n. destruct Hok as [Hb Hl].
  destruct (Z.ltb_spec (hdr_msg_len cfg (buff s)) size); lia.
Qed.

Lemma sync_recv_keeps (fuel : nat) (s : service) (w : world) :
  buffer_ok cfg s -> keeps (buffer_ok cfg) (sync_recv cfg fuel s w).
Proof.
  intros Hok.
  pose proof (sync_recv_post cfg (ok_max_int cfg cfg_ok) fuel s w Hok) as H.
  destruct (sync_recv cfg fuel s w); cbn; try tauto. apply H.
Qed.

Lemma fd_handler_keeps (fuel : nat) (s : service) (w : world) :
  buffer_ok cfg s -> keeps (buffer_ok cfg) (dmbus_fd_handler cfg fuel s w).
Proof.
  intros Hok. unfold dmbus_fd_handler.
  pose proof (fd_read_post cfg (ok_max_int cfg cfg_ok) fuel s w Hok) as H.
  destruct (dmbus_fd_handler_read cfg fuel s w) as [[|] s1 w1| | |];
    cbn; try tauto; try apply H.
  destruct H as (Hok1 & _).
  pose proof (sync_recv_post cfg (ok_max_int cfg cfg_ok) fuel s1 w1 Hok1)
    as H.
  destruct (sync_recv cfg fuel s1 w1) as [[|] s2 w2| | |];
    cbn; try tauto; try apply H.
  destruct H as ((Hok2 & _) & _).
  pose proof (dispatch_post cfg cfg_ok fuel s2 w2 Hok2) as H.
  destruct (dmbus_fd_handler_dispatch cfg fuel s2 w2); cbn; tauto.
Qed.

Lemma sync_recv_api_keeps (fuel : nat) (s : service) (type size : Z)
  (w : world) :
  buffer_ok cfg s ->
  keeps (buffer_ok cfg) (dmbus_sync_recv cfg fuel s type size w).
Proof.
  intros Hok. unfold dmbus_sync_recv.
  pose proof (sync_recv_post cfg (ok_max_int cfg cfg_ok) fuel s w Hok) as H.
  destruct (sync_recv cfg fuel s w) as [[|] s1 w1| | |];
    cbn; try tauto; try apply H.
  destruct H as ((Hok1 & _) & Hi1). specialize (Hi1 eq_refl).
  pose proof (sync_loop_post cfg cfg_ok fuel type s1 w1 Hok1 Hi1) as H.
  destruct (dmbus_sync_recv_loop cfg fuel type s1 w1) as [[|] s2 w2| | |];
    cbn; try tauto.
  destruct H as (Hok2 & Hi2). specialize (Hi2 eq_refl).
  destruct (sync_recv_copy s2 size Hok2 Hi2) as (Hn & s3 & Hp & Hok3).
  cbv zeta in Hn. rewrite Hn, Hp. exact Hok3.
Qed.

End Invariant.

(** C8.  Starting from a buffer that satisfies [0 <= len <= capacity],
    [sync_recv], [dmbus_fd_handler] and [dmbus_sync_recv] leave one that
    does, wherever they stop and whatever the connection delivers, and so
    does [pop_message] when it pops a whole message.  None of them reads
    or writes outside the buffer on the way. *)
Theorem buffer_invariant_preserved (cfg : dmbus_config) (fuel : nat)
  (s : service) (w : world) :
  config_ok cfg ->
  buffer_ok cfg s ->
  keeps (buffer_ok cfg) (sync_recv cfg fuel s w)
  /\ keeps (buffer_ok cfg) (dmbus_fd_handler cfg fuel s w)
  /\ (forall type size,
         keeps (buffer_ok cfg) (dmbus_sync_recv cfg fuel s type size w))
  /\ (frame_complete cfg s = true ->
      exists s', pop_message cfg s = Some s' /\ buffer_ok cfg s').
Proof.
  intros Hcfg Hok. split; [|split; [|split]].
  - apply sync_recv_keeps; assumption.
  - apply fd_handler_keeps; assumption.
  - intros type size. apply sync_recv_api_keeps; assumption.
  - intros Hc.
    destruct (pop_message_facts cfg Hcfg s Hok Hc) as (s' & Hp & Hok' & _).
    eauto.
Qed.

Lemma service_of_ok (valid : list byte) :
  (length valid <= 32)%nat -> buffer_ok example_cfg (service_of valid).
Proof.
  intros H. unfold buffer_ok, service_of, buffer_of. cbn [buff len].
  rewrite length_app, repeat_length.
  change (DMBUS_MAX_MSG_LEN example_cfg) with 32.
  change (Z.to_nat 32) with 32%nat. lia.
Qed.

Lemma buffer_invariant_preserved_witness :
  keeps (buffer_ok example_cfg)
    (dmbus_fd_handler example_cfg 9 (service_of [x01])
       (world_of [RecvBytes (skipn 1 (frame 1 [x61]) ++ frame 4 [])] [])).
Proof.
  assert (Hok : buffer_ok example_cfg (service_of [x01])).
  { apply service_of_ok. cbn. lia. }
  exact (proj1 (proj2
           (buffer_invariant_preserved example_cfg 9 (service_of [x01])
              (world_of [RecvBytes (skipn 1 (frame 1 [x61]) ++ frame 4 [])]
                 [])
              example_cfg_ok Hok))).
Defined.

Section Termination.

Variable cfg : dmbus_config.
Hypothesis cfg_ok : config_ok cfg.



End Termination.

(* ================================================================== *)
(** ** Sending *)






Section Sending.

Variable cfg : dmbus_config.
Hypothesis cfg_ok : config_ok cfg.


End Sending.









(* ================================================================== *)
(** ** A connection that closes in the end *)




Section Closing.

Variable cfg : dmbus_config.








End Closing.






(* ================================================================== *)
(** ** The blocking receive *)

Lemma pending_app (q1 q2 : list recv_result) :
  pending (q1 ++ q2) = pending q1 ++ pending q2.
Proof.
  induction q1 as [|[bs| |e] q1 IH]; cbn [app pending]; try assumption.
  - reflexivity.
  - rewrite IH. apply app_assoc.
Qed.

(** A blocking read while the connection stays up: it brings some bytes or
    is interrupted, and what follows the reads [good] is not touched. *)
Lemma v4v_recv_delivers (size : Z) (w : world)
  (good tail : list recv_result) :
  recv_in w = good ++ tail ->
  Forall delivers good ->
  good <> [] ->
  0 < size ->
  exists rc bs w1 good1,
    v4v_recv false size w = Some (rc, bs, w1)
    /\ recv_in w1 = good1 ++ tail
    /\ Forall delivers good1
    /\ pending good = bs ++ pending good1
    /\ ((rc = -1 /\ bs = [] /\ errno w1 = EINTR)
        \/ (0 < rc /\ rc = Z.of_nat (length bs))).
Proof.
  intros Hq Hd Hne Hs. unfold v4v_recv. rewrite Hq.
  destruct good as [|[bs| |e] q]; [contradiction|..];
    inversion Hd as [|? ? Hd1 Hd2]; subst; cbn [delivers] in Hd1;
    cbn [app].
  - pose proof (firstn_skipn (Z.to_nat size) bs) as Hfs.
    destruct (skipn (Z.to_nat size) bs) as [|y left] eqn:E.
    + exists (Z.of_nat (length (firstn (Z.to_nat size) bs))),
        (firstn (Z.to_nat size) bs), (set_recv_in (q ++ tail) w), q.
      rewrite app_nil_r in Hfs.
      split; [reflexivity|]. split; [reflexivity|]. split; [assumption|].
      split; [cbn [pending]; rewrite Hfs; reflexivity|].
      right. rewrite Hfs. destruct bs; [contradiction|cbn; lia].
    + exists (Z.of_nat (length (firstn (Z.to_nat size) bs))),
        (firstn (Z.to_nat size) bs),
        (set_recv_in (RecvBytes (y :: left) :: q ++ tail) w),
        (RecvBytes (y :: left) :: q).
      split; [reflexivity|]. split; [reflexivity|].
      split; [constructor; [cbn; discriminate|assumption]|].
      split; [cbn [pending]; rewrite app_assoc, Hfs; reflexivity|].
      right. split; [|reflexivity].
      destruct bs as [|x bs]; [contradiction|].
      destruct (Z.to_nat size) as [|k] eqn:K; [lia|]. cbn. lia.
  - contradiction.
  - exists (-1), [], (set_errno e (set_recv_in (q ++ tail) w)), q.
    split; [reflexivity|]. split; [reflexivity|]. split; [assumption|].
    split; [reflexivity|]. left. auto.
Qed.

Section Receive.

Variable cfg : dmbus_config.
Hypothesis cfg_ok : config_ok cfg.

(** The header of a stream that starts with the message [f] is the header
    of [f]. *)
Lemma hdr_of_front (f rest : list byte) :
  sizeof_hdr cfg <= Z.of_nat (length f) ->
  hdr_msg_len cfg (f ++ rest) = hdr_msg_len cfg f
  /\ hdr_msg_type cfg (f ++ rest) = hdr_msg_type cfg f.
Proof.
  intros H. pose proof (ok_len_in_hdr cfg cfg_ok).
  pose proof (ok_type_in_hdr cfg cfg_ok).
  unfold hdr_msg_len, hdr_msg_type. split; apply load_u32_app; lia.
Qed.

(** While the message at the front of the stream is not whole in the
    buffer, the buffer holds less than the message. *)
Lemma incomplete_is_shorter (s : service) (w : world) (f rest : list byte) :
  buffer_ok cfg s ->
  message_ok cfg f ->
  stream s w = f ++ rest ->
  frame_incomplete cfg s = true ->
  len s < Z.of_nat (length f).
Proof.
  intros Hok [Hf1 Hf2] Hst Hi. pose proof Hok as [Hb Hl].
  pose proof (ok_max_int cfg cfg_ok) as Hm. unfold INT_MAX in Hm.
  unfold frame_incomplete in Hi.
  rewrite to_size_t_small, to_uint32_small in Hi by lia.
  destruct (Z.ltb_spec (len s) (sizeof_hdr cfg)) as [|Hh]; [lia|].
  cbn [orb] in Hi. apply Z.ltb_lt in Hi.
  destruct (hdr_of_stream cfg cfg_ok s w Hok Hh) as [Hlen _].
  rewrite Hst in Hlen.
  destruct (hdr_of_front f rest ltac:(lia)) as [Hlen' _].
  lia.
Qed.

(** While the connection stays up and its reads [good] hold the rest of
    the message [f] at the front of the stream, [sync_recv] returns it,
    having used reads of [good] only. *)
Lemma sync_recv_gets (fuel : nat) (tail : list recv_result) :
  forall (s : service) (w : world) (good : list recv_result)
         (f rest : list byte),
    buffer_ok cfg s ->
    recv_in w = good ++ tail ->
    Forall delivers good ->
    message_ok cfg f ->
    stream s w = f ++ rest ->
    Z.of_nat (length f) <= len s + Z.of_nat (length (pending good)) ->
    (reads_left w < fuel)%nat ->
    exists s' w' good',
      sync_recv cfg fuel s w = Ret true s' w'
      /\ recv_in w' = good' ++ tail
      /\ Forall delivers good'
      /\ len s' + Z.of_nat (length (pending good'))
         = len s + Z.of_nat (length (pending good)).
Proof.
  pose proof (ok_max_int cfg cfg_ok) as Hmax.
  induction fuel as [|fuel IH];
    intros s w good f rest Hok Hq Hd Hf Hst Hneed Hlt; [lia|].
  destruct (frame_incomplete cfg s) eqn:Hi.
  2: { rewrite sync_recv_complete by assumption. exists s, w, good. auto. }
  pose proof (incomplete_is_shorter s w f rest Hok Hf Hst Hi) as Hshort.
  pose proof Hok as [Hb Hl]. pose proof Hf as [[Hf1 Hf2] Hf3].
  assert (Hne : good <> []).
  { intros E. subst good. cbn in Hneed. lia. }
  destruct (v4v_recv_delivers
              (to_size_t (DMBUS_MAX_MSG_LEN cfg - len s)) w good tail
              Hq Hd Hne)
    as (rc & bs & w1 & good1 & R & Hq1 & Hd1 & Hpg & Hrc).
  { rewrite (read_size cfg Hmax s Hok). lia. }
  pose proof (v4v_recv_stream _ _ _ _ _ _ R) as (Hp & _ & Hdec).
  destruct Hrc as [(E1 & Hbs & Ee)|(Hpos & Hrc)].
  - (* interrupted *)
    rewrite (sync_recv_eintr cfg fuel s w w1 bs Hi) by (subst; assumption).
    subst bs. cbn [app] in Hp, Hpg.
    destruct (IH s w1 good1 f rest) as (s' & w' & good' & Hrun & ? & ? & ?);
      try assumption.
    + unfold stream in *. rewrite <- Hp. exact Hst.
    + rewrite <- Hpg. exact Hneed.
    + specialize (Hdec (or_intror (conj E1 Ee))). lia.
    + exists s', w', good'. rewrite Hpg. auto.
  - (* some bytes *)
    destruct (read_stores cfg Hmax false s w w1 rc bs Hok R
                ltac:(lia) ltac:(lia))
      as (b & Hstore & Hto & _ & Hok1 & Hv).
    cbn [sync_recv]. rewrite Hi, R.
    destruct (Z.eqb_spec rc 0) as [?|_]; [lia|].
    destruct (Z.eqb_spec rc (-1)) as [?|_]; [lia|].
    rewrite Hstore, Hto.
    assert (Hsum : len s + rc + Z.of_nat (length (pending good1))
                   = len s + Z.of_nat (length (pending good))).
    { rewrite Hpg, length_app. lia. }
    destruct (IH (set_buff_len s b (len s + rc)) w1 good1 f rest)
      as (s' & w' & good' & Hrun & ? & ? & Hsum'); try assumption.
    + unfold stream in *. rewrite Hv, <- app_assoc, <- Hp. exact Hst.
    + cbn [len set_buff_len]. lia.
    + specialize (Hdec (or_introl Hpos)). lia.
    + exists s', w', good'. cbn [len set_buff_len] in Hsum'.
      repeat split; try assumption. lia.
Qed.

End Receive.

Section ReceiveLoop.

Variable cfg : dmbus_config.
Hypothesis cfg_ok : config_ok cfg.

(** With the whole message [f] at the front of the buffer, the header the
    code reads is the header of [f] and the message it dispatches is
    [f]. *)
Lemma front_is (s : service) (w : world) (f rest : list byte) :
  buffer_ok cfg s ->
  frame_complete cfg s = true ->
  message_ok cfg f ->
  stream s w = f ++ rest ->
  hdr_msg_len cfg (buff s) = Z.of_nat (length f)
  /\ hdr_msg_type cfg (buff s) = hdr_msg_type cfg f
  /\ firstn (length f) (buff s) = f.
Proof.
  intros Hok Hc [[Hf1 Hf2] Hf3] Hst.
  destruct (frame_complete_true cfg cfg_ok s Hok Hc) as (Hh & HL0 & HL).
  destruct (hdr_of_stream cfg cfg_ok s w Hok Hh) as [Hlen Hty].
  rewrite Hst in Hlen, Hty.
  destruct (hdr_of_front cfg cfg_ok f rest ltac:(lia)) as [Hlen' Hty'].
  assert (HLf : hdr_msg_len cfg (buff s) = Z.of_nat (length f))
    by congruence.
  split; [assumption|]. split; [congruence|].
  assert (Hv : firstn (length f) (valid_bytes s) = f).
  { pose proof (f_equal (firstn (length f)) Hst) as E.
    unfold stream in E. rewrite firstn_app in E.
    replace (length f - length (valid_bytes s))%nat with 0%nat in E.
    - rewrite firstn_O, app_nil_r in E. rewrite E.
      rewrite firstn_app, Nat.sub_diag, firstn_O, app_nil_r.
      apply firstn_all.
    - unfold valid_bytes. rewrite length_firstn. destruct Hok. lia. }
  unfold valid_bytes in Hv. rewrite firstn_firstn in Hv.
  rewrite Nat.min_l in Hv by lia. exact Hv.
Qed.

Lemma message_at_self (f : list byte) :
  message_ok cfg f -> message_at cfg f = f.
Proof.
  intros [_ H]. unfold message_at. rewrite H, Nat2Z.id. apply firstn_all.
Qed.

(** The loop of [dmbus_sync_recv] on a stream that starts with the
    messages [ys], none of the expected type, and then [x], which is:
    it dispatches and pops [ys] one after the other and stops with [x] at
    the front of the buffer. *)
Lemma sync_loop_finds (type : Z) (x rest : list byte)
  (tail : list recv_result) (ys : list (list byte)) :
  message_ok cfg x ->
  hdr_msg_type cfg x = to_uint32 type ->
  Forall (message_ok cfg) ys ->
  Forall (fun y => hdr_msg_type cfg y <> to_uint32 type) ys ->
  forall (fuel : nat) (s : service) (w : world) (good : list recv_result),
    buffer_ok cfg s ->
    frame_incomplete cfg s = false ->
    recv_in w = good ++ tail ->
    Forall delivers good ->
    stream s w = concat ys ++ x ++ rest ->
    Z.of_nat (length (concat ys ++ x))
    <= len s + Z.of_nat (length (pending good)) ->
    (work_left s w < fuel)%nat ->
    exists s' w' good',
      dmbus_sync_recv_loop cfg fuel type s w = Ret true s' w'
      /\ buffer_ok cfg s'
      /\ frame_incomplete cfg s' = false
      /\ ops s' = ops s
      /\ stream s' w' = x ++ rest
      /\ recv_in w' = good' ++ tail
      /\ trace w' = trace w ++ flat_map (dispatch_of cfg (ops s)) ys.
Proof.
  intros Hx Hxt Hys Hyt.
  pose proof (ok_max_int cfg cfg_ok) as Hmax.
  pose proof (sizeof_hdr_pos cfg cfg_ok) as Hpos.
  induction ys as [|y ys IH];
    intros fuel s w good Hok Hi Hq Hd Hst Hneed Hlt.
  - destruct fuel as [|fuel]; [lia|].
    assert (Hc : frame_complete cfg s = true)
      by (rewrite frame_complete_negb, Hi; reflexivity).
    cbn [concat app] in Hst.
    destruct (front_is s w x rest Hok Hc Hx Hst) as (_ & Hty & _).
    cbn [dmbus_sync_recv_loop]. rewrite Hty, Hxt, Z.eqb_refl. cbn [negb].
    exists s, w, good. cbn [flat_map]. rewrite app_nil_r.
    repeat split; auto; apply Hok.
  - destruct fuel as [|fuel]; [lia|].
    inversion Hys as [|? ? Hy Hys']; subst.
    inversion Hyt as [|? ? Hyty Hyt']; subst.
    assert (Hc : frame_complete cfg s = true)
      by (rewrite frame_complete_negb, Hi; reflexivity).
    cbn [concat] in Hst, Hneed. rewrite <- app_assoc in Hst, Hneed.
    rewrite length_app in Hneed.
    destruct (front_is s w y _ Hok Hc Hy Hst) as (Hlen & Hty & Hfront).
    cbn [dmbus_sync_recv_loop]. rewrite Hty.
    destruct (Z.eqb_spec (hdr_msg_type cfg y) (to_uint32 type)) as [?|_];
      [contradiction|].
    cbn [negb].
    destruct (pop_message_facts cfg cfg_ok s Hok Hc)
      as (s1 & Hp & Hok1 & _ & Hops1 & Hl1 & Hv1).
    rewrite Hp.
    destruct (handle_message_queues cfg s w) as [Hrq _].
    pose proof (stream_after_pop cfg cfg_ok s s1 w (handle_message cfg s w)
                  Hok Hc Hv1 Hrq) as Hst1.
    cbn [drop_messages] in Hst1. rewrite Hst in Hst1.
    destruct (hdr_of_front cfg cfg_ok y (concat ys ++ x ++ rest))
      as [Hlf _]; [apply Hy|].
    destruct Hy as [[Hy1 Hy2] Hy3].
    rewrite Hlf, Hy3, Nat2Z.id in Hst1.
    rewrite skipn_app, Nat.sub_diag, skipn_all in Hst1.
    cbn [skipn app] in Hst1.
    assert (Hfront1 : exists f r,
               message_ok cfg f
               /\ concat ys ++ x ++ rest = f ++ r
               /\ (length f <= length (concat ys ++ x))%nat).
    { destruct ys as [|y' ys'].
      - exists x, rest. cbn [concat app]. auto.
      - exists y', (concat ys' ++ x ++ rest). split; [|split].
        + inversion Hys'; assumption.
        + cbn [concat]. rewrite <- app_assoc. reflexivity.
        + cbn [concat]. rewrite <- app_assoc, length_app. lia. }
    destruct Hfront1 as (f & r & Hf & Hfr & Hfl).
    destruct (frame_complete_true cfg cfg_ok s Hok Hc) as (Hh & HL0 & HL).
    assert (Hrl : (reads_left (handle_message cfg s w) < fuel)%nat).
    { unfold work_left, reads_left in *. rewrite Hrq. lia. }
    destruct (sync_recv_gets cfg cfg_ok fuel tail s1
                (handle_message cfg s w) good f r
                Hok1 ltac:(rewrite Hrq; assumption) Hd Hf
                ltac:(rewrite Hst1; assumption) ltac:(lia) Hrl)
      as (s2 & w2 & good2 & Hrun & Hq2 & Hd2 & Hsum2).
    pose proof (sync_recv_post cfg Hmax fuel s1 (handle_message cfg s w) Hok1)
      as Hpost.
    rewrite Hrun in Hpost. rewrite Hrun.
    destruct Hpost as [(Hok2 & _ & Hops2 & Hst2 & Hw2 & _ & Hun) Hi2].
    specialize (Hi2 eq_refl). destruct (Hun eq_refl) as (Htr & _).
    destruct (IH Hys' Hyt' fuel s2 w2 good2 Hok2 Hi2 Hq2 Hd2)
      as (s' & w' & good' & Hloop & Hok' & Hi' & Hops' & Hst' & Hq' & Htr').
    { rewrite Hst2. exact Hst1. }
    { lia. }
    { unfold work_left, reads_left in *. rewrite Hrq in Hw2. lia. }
    exists s', w', good'. split; [exact Hloop|]. split; [assumption|].
    split; [assumption|]. split; [congruence|]. split; [assumption|].
    split; [assumption|].
    rewrite Htr', Htr, handle_message_trace. cbn [trace add_trace flat_map].
    rewrite <- app_assoc. f_equal. rewrite Hops2, Hops1. f_equal.
    apply dispatch_of_ext; [assumption|].
    rewrite (message_at_self y) by (repeat split; assumption).
    unfold message_at. rewrite Hlen, Nat2Z.id. exact Hfront.
Qed.

End ReceiveLoop.

(** C5.  The connection stays up for the reads [good], which bring
    bytes in any split or are interrupted; what happens after them
    ([tail]) is free.  The bytes the buffer holds followed by those of
    [good] are the messages [ys], none of type [type], then the message
    [x] of type [type], then [rest].  Then [dmbus_sync_recv] hands every
    message of [ys] to [handle_message], in order, copies [x] to the
    caller's buffer, as much of it as [size] allows, and returns the
    number of bytes copied.  Afterwards the buffer and the reads of [good]
    not yet used hold [rest] and nothing else: no byte of [ys] or [x] is
    left in the buffer. *)
Theorem sync_recv_returns_expected (cfg : dmbus_config) (fuel : nat)
  (s : service) (w : world) (type size : Z) (good tail : list recv_result)
  (ys : list (list byte)) (x rest : list byte) :
  config_ok cfg ->
  buffer_ok cfg s ->
  recv_in w = good ++ tail ->
  Forall delivers good ->
  Forall (message_ok cfg) ys ->
  Forall (fun y => hdr_msg_type cfg y <> to_uint32 type) ys ->
  message_ok cfg x ->
  hdr_msg_type cfg x = to_uint32 type ->
  valid_bytes s ++ pending good = concat ys ++ x ++ rest ->
  0 <= size ->
  (work_left s w < fuel)%nat ->
  let copied := Z.min size (Z.of_nat (length x)) in
  exists s' w' good',
    dmbus_sync_recv cfg fuel s type size w
    = Ret (copied, firstn (Z.to_nat copied) x) s' w'
    /\ trace w' = trace w ++ flat_map (dispatch_of cfg (ops s)) ys
    /\ recv_in w' = good' ++ tail
    /\ valid_bytes s' ++ pending good' = rest
    /\ buffer_ok cfg s'.
Proof.
  intros Hcfg Hok Hq Hd Hys Hyt Hx Hxt Hgood Hsize Hlt copied.
  pose proof (ok_max_int cfg Hcfg) as Hmax.
  assert (Hst : stream s w = concat ys ++ x ++ (rest ++ pending tail)).
  { unfold stream. rewrite Hq, pending_app, app_assoc, Hgood.
    rewrite <- !app_assoc. reflexivity. }
  assert (Hneed : Z.of_nat (length (concat ys ++ x))
                  <= len s + Z.of_nat (length (pending good))).
  { pose proof (f_equal (@length byte) Hgood) as E.
    rewrite (app_assoc (concat ys)) in E. rewrite !length_app in E.
    unfold valid_bytes in E. rewrite length_firstn in E.
    rewrite length_app. destruct Hok. lia. }
  assert (Hfront : exists f r,
             message_ok cfg f
             /\ concat ys ++ x ++ rest ++ pending tail = f ++ r
             /\ (length f <= length (concat ys ++ x))%nat).
  { destruct ys as [|y' ys'].
    - exists x, (rest ++ pending tail). cbn [concat app]. auto.
    - exists y', (concat ys' ++ x ++ rest ++ pending tail).
      split; [|split].
      + inversion Hys; assumption.
      + cbn [concat]. rewrite <- app_assoc. reflexivity.
      + cbn [concat]. rewrite <- app_assoc, length_app. lia. }
  destruct Hfront as (f & r & Hf & Hfr & Hfl).
  destruct (sync_recv_gets cfg Hcfg fuel tail s w good f r Hok Hq Hd Hf
              ltac:(rewrite Hst; assumption) ltac:(lia)
              ltac:(unfold work_left in Hlt; lia))
    as (s1 & w1 & good1 & Hrun & Hq1 & Hd1 & Hsum1).
  pose proof (sync_recv_post cfg Hmax fuel s w Hok) as Hpost.
  rewrite Hrun in Hpost.
  destruct Hpost as [(Hok1 & _ & Hops1 & Hst1 & Hw1 & _ & Hun) Hi1].
  specialize (Hi1 eq_refl). destruct (Hun eq_refl) as (Htr1 & _).
  destruct (sync_loop_finds cfg Hcfg type x (rest ++ pending tail) tail ys
              Hx Hxt Hys Hyt fuel s1 w1 good1 Hok1 Hi1 Hq1 Hd1)
    as (s2 & w2 & good2 & Hloop & Hok2 & Hi2 & Hops2 & Hst2 & Hq2 & Htr2).
  { rewrite Hst1. exact Hst. }
  { lia. }
  { lia. }
  assert (Hc2 : frame_complete cfg s2 = true)
    by (rewrite frame_complete_negb, Hi2; reflexivity).
  destruct (front_is cfg Hcfg s2 w2 x _ Hok2 Hc2 Hx Hst2)
    as (Hlen & _ & Hfx).
  destruct (pop_message_facts cfg Hcfg s2 Hok2 Hc2)
    as (s3 & Hp & Hok3 & _ & _ & _ & Hv3).
  pose proof (stream_after_pop cfg Hcfg s2 s3 w2 w2 Hok2 Hc2 Hv3 eq_refl)
    as Hst3.
  cbn [drop_messages] in Hst3. rewrite Hst2 in Hst3.
  destruct (hdr_of_front cfg Hcfg x (rest ++ pending tail)) as [Hlx _];
    [apply Hx|].
  destruct Hx as [[Hx1 Hx2] Hx3].
  rewrite Hlx, Hx3, Nat2Z.id, skipn_app, Nat.sub_diag, skipn_all in Hst3.
  cbn [skipn app] in Hst3.
  unfold dmbus_sync_recv. rewrite Hrun, Hloop, Hlen.
  assert (Hcopied : (if Z.of_nat (length x) <? size then Z.of_nat (length x)
                     else size) = copied).
  { unfold copied. destruct (Z.ltb_spec (Z.of_nat (length x)) size); lia. }
  rewrite Hcopied.
  assert (Hcr : 0 <= copied <= Z.of_nat (length x)) by (unfold copied; lia).
  destruct Hok2 as [Hb2 Hl2].
  destruct (Z.leb_spec copied (Z.of_nat (length (buff s2)))); [|lia].
  rewrite Hp. unfold INT_MAX in Hmax. rewrite to_int_small by lia.
  exists s3, w2, good2. split.
  - f_equal. f_equal.
    transitivity (firstn (Z.to_nat copied) (firstn (length x) (buff s2))).
    + rewrite firstn_firstn. f_equal. lia.
    + rewrite Hfx. reflexivity.
  - split; [rewrite Htr2, Htr1, Hops1; reflexivity|].
    split; [assumption|]. split; [|assumption].
    unfold stream in Hst3. rewrite Hq2, pending_app, app_assoc in Hst3.
    apply app_inv_tail in Hst3. exact Hst3.
Qed.

Lemma sync_recv_returns_expected_witness :
  exists s' w' good',
    dmbus_sync_recv example_cfg 40 (service_of []) 4 32
      (world_of [ RecvBytes (frame 1 [x61; x62] ++ [x09]);
                  RecvErr EINTR;
                  RecvBytes ([x00; x00; x00] ++ bytes_of_u32 9 ++ [x63]
                             ++ frame 4 [x64; x65; x66] ++ [x01]);
                  RecvClosed ] [])
    = Ret (11, frame 4 [x64; x65; x66]) s' w'
    /\ trace w'
       = [ EvCall H_dom0_input_event (frame 1 [x61; x62]);
           EvLog (LogUnrecognized 9) ]
    /\ recv_in w' = good' ++ [RecvClosed]
    /\ valid_bytes s' ++ pending good' = [x01]
    /\ buffer_ok example_cfg s'.
Proof.
  assert (Hok : buffer_ok example_cfg (service_of [])).
  { apply service_of_ok. cbn. lia. }
  assert (Hm : forall t p, (length p <= 24)%nat -> 0 <= t < 2 ^ 32 ->
                           message_ok example_cfg (frame t p)).
  { intros t p Hp Ht. unfold message_ok. split.
    - unfold frame. rewrite !length_app.
      cbn [length bytes_of_u32 example_cfg sizeof_hdr DMBUS_MAX_MSG_LEN].
      lia.
    - unfold hdr_msg_len, frame.
      change (off_msg_len example_cfg) with (length (bytes_of_u32 t)).
      rewrite load_bytes_of_u32 by lia.
      rewrite !length_app. cbn [length bytes_of_u32]. lia. }
  exact (sync_recv_returns_expected example_cfg 40 (service_of [])
           (world_of [ RecvBytes (frame 1 [x61; x62] ++ [x09]);
                       RecvErr EINTR;
                       RecvBytes ([x00; x00; x00] ++ bytes_of_u32 9 ++ [x63]
                                  ++ frame 4 [x64; x65; x66] ++ [x01]);
                       RecvClosed ] [])
           4 32
           [ RecvBytes (frame 1 [x61; x62] ++ [x09]);
             RecvErr EINTR;
             RecvBytes ([x00; x00; x00] ++ bytes_of_u32 9 ++ [x63]
                        ++ frame 4 [x64; x65; x66] ++ [x01]) ]
           [RecvClosed]
           [frame 1 [x61; x62]; frame 9 [x63]]
           (frame 4 [x64; x65; x66]) [x01]
           example_cfg_ok Hok eq_refl
           ltac:(repeat constructor; cbn; discriminate)
           ltac:(repeat constructor; apply Hm; cbn; lia)
           ltac:(repeat constructor; vm_compute; discriminate)
           ltac:(apply Hm; cbn; lia)
           ltac:(vm_compute; reflexivity)
           ltac:(vm_compute; reflexivity)
           ltac:(lia)
           ltac:(vm_compute; lia)).
Defined.

(* ================================================================== *)
(** ** Further properties of dispatch, pop and disconnect *)

(** X1.  With a capability table, a message of a recognized type whose
    slot is set is handed to the handler of that type, once, and nothing
    else happens; and whatever the message and the table, [handle_message]
    adds at most one event to the trace and changes nothing else in the
    world. *)
Theorem handle_message_calls (cfg : dmbus_config) (s : service)
  (w : world) :
  NoDup (known_tags cfg) ->
  let t := hdr_msg_type cfg (buff s) in
  let m := message_at cfg (buff s) in
  (forall o, ops s = Some o ->
     (t = DMBUS_MSG_DOM0_INPUT_EVENT cfg -> dom0_input_event o = true ->
      handle_message cfg s w = emit (EvCall H_dom0_input_event m) w)
     /\ (t = DMBUS_MSG_DISPLAY_INFO cfg -> display_info o = true ->
         handle_message cfg s w = emit (EvCall H_display_info m) w)
     /\ (t = DMBUS_MSG_DISPLAY_EDID cfg -> display_edid o = true ->
         handle_message cfg s w = emit (EvCall H_display_edid m) w)
     /\ (t = DMBUS_MSG_INPUT_CONFIG cfg -> input_config o = true ->
         handle_message cfg s w = emit (EvCall H_input_config m) w)
     /\ (t = DMBUS_MSG_INPUT_CONFIG_RESET cfg ->
         input_config_reset o = true ->
         handle_message cfg s w = emit (EvCall H_input_config_reset m) w))
  /\ exists evs,
       handle_message cfg s w = add_trace evs w /\ (length evs <= 1)%nat.
Proof.
  intros Hnd t m. split.
  - unfold known_tags in Hnd.
    repeat match goal with
           | H : NoDup (_ :: _) |- _ => inversion H; clear H; subst
           end.
    cbn [In] in *.
    intros o Ho. unfold handle_message. rewrite Ho. fold t.
    repeat split; intros Ht Hs; rewrite Ht in *;
      repeat match goal with
             | |- context [?a =? ?b] =>
                 destruct (Z.eqb_spec a b); try (exfalso; intuition congruence)
             end;
      unfold call_if; rewrite Hs; reflexivity.
  - exists (dispatch_of cfg (ops s) (buff s)).
    split; [apply handle_message_trace|].
    unfold dispatch_of, handle_message, call_if. cbn [ops buff].
    destruct (ops s) as [o|]; [|cbn; lia].
    repeat match goal with
           | |- context [if ?c then _ else _] => destruct c
           end; cbn; lia.
Qed.

Lemma handle_message_calls_witness :
  handle_message example_cfg (service_of (frame 2 [x61])) (world_of [] [])
  = emit (EvCall H_display_info (frame 2 [x61])) (world_of [] []).
Proof.
  exact (proj1 (proj2 (proj1
           (handle_message_calls example_cfg (service_of (frame 2 [x61]))
              (world_of [] []) (ok_tags _ example_cfg_ok))
           all_ops eq_refl)) eq_refl eq_refl).
Defined.

(** X2.  [pop_message] on a buffer without a whole message at its front:
    with less than a header, or with a declared length above [len] that
    fits an [int], it changes nothing; with a header whose declared length
    is 2^31 or more, which as an [int] is negative, the guard does not
    hold it back and the [memmove] reads before the buffer. *)
Theorem pop_message_guard (cfg : dmbus_config) (s : service) :
  DMBUS_MAX_MSG_LEN cfg <= INT_MAX ->
  buffer_ok cfg s ->
  (len s < sizeof_hdr cfg -> pop_message cfg s = Some s)
  /\ (len s < hdr_msg_len cfg (buff s) <= INT_MAX ->
      pop_message cfg s = Some s)
  /\ (sizeof_hdr cfg <= len s -> 2 ^ 31 <= hdr_msg_len cfg (buff s) ->
      pop_message cfg s = None).
Proof.
  intros Hmax [Hb Hl]. unfold INT_MAX in *.
  pose proof (load_u32_range (buff s) (off_msg_len cfg)) as HR.
  fold (hdr_msg_len cfg (buff s)) in HR.
  unfold pop_message. rewrite (to_size_t_small (len s)) by lia.
  split; [|split].
  - intros H. destruct (Z.ltb_spec (len s) (sizeof_hdr cfg)); [|lia].
    reflexivity.
  - intros H. rewrite to_int_small by lia.
    destruct (Z.ltb_spec (len s) (hdr_msg_len cfg (buff s))); [|lia].
    rewrite orb_true_r. reflexivity.
  - intros Hh HL.
    assert (Hneg : to_int (hdr_msg_len cfg (buff s))
                   = hdr_msg_len cfg (buff s) - 2 ^ 32).
    { unfold to_int.
      replace (hdr_msg_len cfg (buff s) + 2 ^ 31)
        with (hdr_msg_len cfg (buff s) - 2 ^ 31 + 1 * 2 ^ 32) by lia.
      rewrite Z.mod_add by lia. rewrite Z.mod_small by lia. lia. }
    rewrite Hneg.
    destruct (Z.ltb_spec (len s) (sizeof_hdr cfg)); [lia|].
    destruct (Z.ltb_spec (len s) (hdr_msg_len cfg (buff s) - 2 ^ 32));
      [lia|].
    cbn [orb]. unfold memmove_to_front.
    destruct (Z.leb_spec 0 (hdr_msg_len cfg (buff s) - 2 ^ 32)); [lia|].
    reflexivity.
Qed.

Lemma pop_message_guard_witness :
  pop_message example_cfg
    (service_of (bytes_of_u32 1 ++ bytes_of_u32 (2 ^ 32 - 1))) = None.
Proof.
  assert (Hmax : DMBUS_MAX_MSG_LEN example_cfg <= INT_MAX)
    by (unfold INT_MAX; cbn; lia).
  assert (Hok : buffer_ok example_cfg
                  (service_of (bytes_of_u32 1 ++ bytes_of_u32 (2 ^ 32 - 1)))).
  { apply service_of_ok. cbn. lia. }
  exact (proj2 (proj2
           (pop_message_guard example_cfg
              (service_of (bytes_of_u32 1 ++ bytes_of_u32 (2 ^ 32 - 1)))
              Hmax Hok))
           ltac:(cbn; lia) ltac:(vm_compute; discriminate)).
Defined.

(** X3.  Any burst of disconnect signals has the effect of its first
    one, and leaves the timer armed.  From a state where the timer is
    idle that effect is one teardown: the read handler of the descriptor
    is unregistered, the descriptor is closed, one line is logged and the
    timer is armed one second ahead, in this order. *)
Theorem disconnect_burst_is_one_teardown (s : service) (w : world)
  (n : nat) :
  disconnects (S n) s w = handle_disconnect s w
  /\ qemu_timer_pending (handle_disconnect s w) = true
  /\ (qemu_timer_pending w = false ->
      timer_expire (handle_disconnect s w) = Some (clock_ms w + 1000)
      /\ ~ In (fd s) (fd_handlers (handle_disconnect s w))
      /\ trace (handle_disconnect s w)
         = trace w ++ [ EvSetFdHandler (fd s) false; EvClose (fd s);
                        EvLog LogDisconnected;
                        EvModTimer (clock_ms w + 1000) ]).
Proof.
  assert (Hp : qemu_timer_pending (handle_disconnect s w) = true).
  { unfold handle_disconnect.
    destruct (qemu_timer_pending w) eqn:E; [exact E|reflexivity]. }
  split; [|split; [exact Hp|]].
  - induction n as [|n IH]; [reflexivity|].
    unfold disconnects in *. rewrite Nat.iter_succ, IH.
    apply handle_disconnect_pending. exact Hp.
  - intros Hidle. unfold handle_disconnect. rewrite Hidle. cbn.
    split; [reflexivity|]. split.
    + unfold remove_fd. intros H. apply filter_In in H. destruct H as [_ H].
      rewrite Z.eqb_refl in H. discriminate.
    + rewrite <- !app_assoc. reflexivity.
Qed.

Lemma disconnect_burst_is_one_teardown_witness :
  timer_expire (handle_disconnect (service_of []) (world_of [] []))
  = Some 6000.
Proof.
  exact (proj1 (proj2 (proj2
           (disconnect_burst_is_one_teardown (service_of [])
              (world_of [] []) 0)) eq_refl)).
Defined.

(* ================================================================== *)
(** ** The read loops only move bytes *)

Section Moves.

Variable cfg : dmbus_config.
Hypothesis max_int : DMBUS_MAX_MSG_LEN cfg <= INT_MAX.

Lemma v4v_recv_nothing (dontwait : bool) (s : service) (w w1 : world)
  (rc : Z) (bs : list byte) :
  buffer_ok cfg s ->
  v4v_recv dontwait (to_size_t (DMBUS_MAX_MSG_LEN cfg - len s)) w
  = Some (rc, bs, w1) ->
  rc = 0 \/ rc = -1 ->
  bs = [] /\ pending (recv_in w) = pending (recv_in w1).
Proof.
  intros Hok R Hrc.
  assert (Hsz : 0 <= to_size_t (DMBUS_MAX_MSG_LEN cfg - len s)).
  { rewrite (read_size cfg max_int s Hok). destruct Hok as [_ ?]. lia. }
  destruct (v4v_recv_stream _ _ _ _ _ _ R) as (Hp & _).
  assert (Hbs : bs = []).
  { destruct (v4v_recv_rc _ _ _ _ _ _ Hsz R) as [[_ ?]|[_ Hl]];
      [assumption|].
    destruct bs; [reflexivity|cbn in Hl; lia]. }
  subst bs. auto.
Qed.

Lemma sync_recv_appends (fuel : nat) :
  forall (s : service) (w : world) (r : bool) (s' : service) (w' : world),
    buffer_ok cfg s ->
    sync_recv cfg fuel s w = Ret r s' w' ->
    exists more,
      valid_bytes s' = valid_bytes s ++ more
      /\ pending (recv_in w) = more ++ pending (recv_in w').
Proof.
  induction fuel as [|fuel IH]; intros s w r s' w' Hok H; [discriminate|].
  cbn [sync_recv] in H.
  destruct (frame_incomplete cfg s).
  2: { inversion H; subst. exists []. rewrite app_nil_r. auto. }
  destruct (v4v_recv false _ w) as [[[rc bs] w1]|] eqn:R; [|discriminate].
  destruct (Z.eqb_spec rc 0) as [E0|E0].
  { destruct (v4v_recv_nothing _ s w w1 rc bs Hok R (or_introl E0))
      as [_ Hp].
    inversion H; subst. exists []. rewrite app_nil_r.
    rewrite (proj1 (handle_disconnect_queues s' w1)). auto. }
  destruct (Z.eqb_spec rc (-1)) as [E1|E1].
  { destruct (v4v_recv_nothing _ s w w1 rc bs Hok R (or_intror E1))
      as [_ Hp].
    destruct (errno w1 =? EINTR).
    - destruct (IH s w1 r s' w' Hok H) as (more & Hv & Hp').
      exists more. split; [assumption|congruence].
    - inversion H; subst. exists []. rewrite app_nil_r. auto. }
  destruct (read_stores cfg max_int false s w w1 rc bs Hok R E0 E1)
    as (b & Hst & Hto & _ & Hok1 & Hv).
  rewrite Hst, Hto in H.
  destruct (v4v_recv_stream _ _ _ _ _ _ R) as (Hp & _).
  destruct (IH _ w1 r s' w' Hok1 H) as (more & Hv' & Hp').
  exists (bs ++ more). rewrite Hv', Hv, Hp, Hp', !app_assoc. auto.
Qed.

Lemma fd_read_appends (fuel : nat) :
  forall (s : service) (w : world) (r : bool) (s' : service) (w' : world),
    buffer_ok cfg s ->
    dmbus_fd_handler_read cfg fuel s w = Ret r s' w' ->
    exists more,
      valid_bytes s' = valid_bytes s ++ more
      /\ pending (recv_in w) = more ++ pending (recv_in w')
      /\ (r = true -> more <> []).
Proof.
  induction fuel as [|fuel IH]; intros s w r s' w' Hok H; [discriminate|].
  cbn [dmbus_fd_handler_read] in H.
  destruct (v4v_recv true _ w) as [[[rc bs] w1]|] eqn:R; [|discriminate].
  destruct (Z.eqb_spec rc 0) as [E0|E0].
  { destruct (v4v_recv_nothing _ s w w1 rc bs Hok R (or_introl E0))
      as [_ Hp].
    inversion H; subst. exists []. rewrite app_nil_r.
    rewrite (proj1 (handle_disconnect_queues s' w1)).
    repeat split; auto. discriminate. }
  destruct (Z.eqb_spec rc (-1)) as [E1|E1].
  { destruct (v4v_recv_nothing _ s w w1 rc bs Hok R (or_intror E1))
      as [_ Hp].
    destruct (errno w1 =? EINTR).
    - destruct (IH s w1 r s' w' Hok H) as (more & Hv & Hp' & Hne).
      exists more. split; [assumption|]. split; [congruence|assumption].
    - inversion H; subst. exists []. rewrite app_nil_r.
      repeat split; auto. discriminate. }
  destruct (read_stores cfg max_int true s w w1 rc bs Hok R E0 E1)
    as (b & Hst & Hto & Hpos & Hok1 & Hv).
  rewrite Hst, Hto in H.
  destruct (v4v_recv_stream _ _ _ _ _ _ R) as (Hp & _).
  destruct (Z.leb_spec rc 0); [lia|].
  inversion H; subst. exists bs. repeat split; auto.
  intros _ E. subst bs.
  assert (Hsz : 0 <= to_size_t (DMBUS_MAX_MSG_LEN cfg - len s)).
  { rewrite (read_size cfg max_int s Hok). destruct Hok as [_ ?]. lia. }
  destruct (v4v_recv_rc _ _ _ _ _ _ Hsz R) as [[? _]|[_ Hl]]; [lia|].
  cbn in Hl. lia.
Qed.

End Moves.

(** X4.  The two read loops only move bytes from the connection to the
    end of the valid part of the buffer: what [sync_recv] or the first
    loop of [dmbus_fd_handler] leaves in the buffer is what was there
    followed by the first bytes that were pending, in order, none lost,
    and the descriptor and the capability table are as before.  When
    [sync_recv] returns a message, a whole one is at the front of the
    buffer and nothing was logged, closed or scheduled on the way. *)
Theorem read_loops_only_append (cfg : dmbus_config) (fuel : nat)
  (s : service) (w : world) (r : bool) (s' : service) (w' : world) :
  DMBUS_MAX_MSG_LEN cfg <= INT_MAX ->
  buffer_ok cfg s ->
  sync_recv cfg fuel s w = Ret r s' w'
  \/ dmbus_fd_handler_read cfg fuel s w = Ret r s' w' ->
  (exists more,
     valid_bytes s' = valid_bytes s ++ more
     /\ pending (recv_in w) = more ++ pending (recv_in w'))
  /\ fd s' = fd s /\ ops s' = ops s
  /\ (r = true -> untouched w w')
  /\ (sync_recv cfg fuel s w = Ret r s' w' -> r = true ->
      frame_complete cfg s' = true).
Proof.
  intros Hmax Hok [H|H].
  - pose proof (sync_recv_post cfg Hmax fuel s w Hok) as P. rewrite H in P.
    destruct P as [(_ & Hfd & Hops & _ & _ & _ & Hun) Hi].
    split; [exact (sync_recv_appends cfg Hmax fuel s w r s' w' Hok H)|].
    repeat split; try assumption; try (apply Hun; assumption).
    intros _ Hr. unfold frame_complete, frame_incomplete in *.
    specialize (Hi Hr). apply orb_false_elim in Hi. destruct Hi as [H1 H2].
    rewrite Z.leb_antisym, H1, Z.leb_antisym, H2. reflexivity.
  - pose proof (fd_read_post cfg Hmax fuel s w Hok) as P. rewrite H in P.
    destruct P as (_ & Hfd & Hops & _ & _ & _ & Hun).
    destruct (fd_read_appends cfg Hmax fuel s w r s' w' Hok H)
      as (more & Hv & Hp & _).
    split; [exists more; auto|].
    repeat split; try assumption; try (apply Hun; assumption).
    intros H' Hr.
    pose proof (sync_recv_post cfg Hmax fuel s w Hok) as P. rewrite H' in P.
    destruct P as [_ Hi].
    unfold frame_complete, frame_incomplete in *.
    specialize (Hi Hr). apply orb_false_elim in Hi. destruct Hi as [H1 H2].
    rewrite Z.leb_antisym, H1, Z.leb_antisym, H2. reflexivity.
Qed.

Lemma read_loops_only_append_witness :
  exists more,
    valid_bytes (service_of ([x04; x00; x00; x00] ++ bytes_of_u32 8 ++ [x07]))
    = valid_bytes (service_of [x04; x00]) ++ more
    /\ pending [RecvBytes [x00; x00]; RecvBytes (bytes_of_u32 8 ++ [x07])]
       = more ++ pending [].
Proof.
  assert (Hmax : DMBUS_MAX_MSG_LEN example_cfg <= INT_MAX)
    by (unfold INT_MAX; cbn; lia).
  assert (Hok : buffer_ok example_cfg (service_of [x04; x00])).
  { apply service_of_ok. cbn. lia. }
  assert (Hrun : sync_recv example_cfg 5 (service_of [x04; x00])
                   (world_of [RecvBytes [x00; x00];
                              RecvBytes (bytes_of_u32 8 ++ [x07])] [])
                 = Ret true
                     (service_of ([x04; x00; x00; x00] ++ bytes_of_u32 8
                                  ++ [x07]))
                     (world_of [] [])) by (vm_compute; reflexivity).
  exact (proj1
           (read_loops_only_append example_cfg 5 (service_of [x04; x00])
              (world_of [RecvBytes [x00; x00];
                         RecvBytes (bytes_of_u32 8 ++ [x07])] [])
              true
              (service_of ([x04; x00; x00; x00] ++ bytes_of_u32 8 ++ [x07]))
              (world_of [] [])
              Hmax Hok (or_introl Hrun))).
Defined.

(* ================================================================== *)
(** ** What the dispatch loop dispatches *)

Lemma add_trace_add_trace (e1 e2 : list event) (w : world) :
  add_trace e2 (add_trace e1 w) = add_trace (e1 ++ e2) w.
Proof. unfold add_trace. cbn. rewrite app_assoc. reflexivity. Qed.

Section Dispatching.

Variable cfg : dmbus_config.
Hypothesis cfg_ok : config_ok cfg.

Lemma hdr_of_valid (s : service) :
  buffer_ok cfg s ->
  sizeof_hdr cfg <= len s ->
  hdr_msg_len cfg (valid_bytes s) = hdr_msg_len cfg (buff s).
Proof.
  intros [Hb Hl] H. pose proof (ok_len_in_hdr cfg cfg_ok).
  unfold hdr_msg_len, valid_bytes. apply load_u32_firstn. lia.
Qed.

Lemma length_valid (s : service) :
  buffer_ok cfg s -> Z.of_nat (length (valid_bytes s)) = len s.
Proof.
  intros [Hb Hl]. unfold valid_bytes. rewrite length_firstn. lia.
Qed.

(** The test of the dispatch loop, read on the valid bytes. *)
Lemma frame_complete_iff (s : service) :
  buffer_ok cfg s ->
  frame_complete cfg s = true
  <-> sizeof_hdr cfg <= Z.of_nat (length (valid_bytes s))
      /\ hdr_msg_len cfg (valid_bytes s)
         <= Z.of_nat (length (valid_bytes s)).
Proof.
  intros Hok. rewrite (length_valid s Hok). split.
  - intros H.
    destruct (frame_complete_true cfg cfg_ok s Hok H) as (Hh & _ & HL).
    rewrite (hdr_of_valid s Hok Hh). lia.
  - intros [Hh HL]. rewrite (hdr_of_valid s Hok Hh) in HL.
    pose proof Hok as [Hb Hl].
    pose proof (ok_max_int cfg cfg_ok) as Hm. unfold INT_MAX in Hm.
    unfold frame_complete.
    rewrite to_size_t_small, to_uint32_small by lia.
    apply andb_true_intro. split; apply Z.leb_le; assumption.
Qed.

Lemma dispatch_whole_messages (fs : list (list byte)) :
  forall (fuel : nat) (s : service) (w : world) (partial : list byte),
    buffer_ok cfg s ->
    Forall (message_ok cfg) fs ->
    valid_bytes s = concat fs ++ partial ->
    ~ (sizeof_hdr cfg <= Z.of_nat (length partial)
       /\ hdr_msg_len cfg partial <= Z.of_nat (length partial)) ->
    (Z.to_nat (len s) < fuel)%nat ->
    exists s',
      dmbus_fd_handler_dispatch cfg fuel s w
      = Ret tt s' (add_trace (flat_map (dispatch_of cfg (ops s)) fs) w)
      /\ valid_bytes s' = partial
      /\ buffer_ok cfg s'
      /\ fd s' = fd s /\ ops s' = ops s.
Proof.
  induction fs as [|f fs IH]; intros fuel s w partial Hok Hfs Hv Hp Hlt.
  - destruct fuel as [|fuel]; [lia|].
    cbn [concat app] in Hv. cbn [dmbus_fd_handler_dispatch].
    destruct (frame_complete cfg s) eqn:Hc.
    + apply (frame_complete_iff s Hok) in Hc. rewrite Hv in Hc.
      contradiction.
    + exists s. cbn [flat_map]. rewrite add_trace_nil. auto.
  - destruct fuel as [|fuel]; [lia|].
    inversion Hfs as [|? ? Hf Hfs']; subst.
    cbn [concat] in Hv. rewrite <- app_assoc in Hv.
    pose proof Hf as [[Hf1 Hf2] Hf3].
    pose proof (length_valid s Hok) as Hlv.
    rewrite Hv, length_app in Hlv.
    assert (Hc : frame_complete cfg s = true).
    { apply (frame_complete_iff s Hok). rewrite Hv.
      destruct (hdr_of_front cfg cfg_ok f (concat fs ++ partial))
        as [Hl _]; [lia|].
      rewrite Hl, Hf3, length_app. lia. }
    assert (Hst : stream s w
                  = f ++ (concat fs ++ partial) ++ pending (recv_in w)).
    { unfold stream. rewrite Hv, <- app_assoc. reflexivity. }
    destruct (front_is cfg cfg_ok s w f _ Hok Hc Hf Hst)
      as (Hlen & Hty & Hfront).
    destruct (pop_message_facts cfg cfg_ok s Hok Hc)
      as (s1 & Hpop & Hok1 & Hfd1 & Hops1 & Hl1 & Hv1).
    cbn [dmbus_fd_handler_dispatch]. rewrite Hc, Hpop.
    rewrite Hlen, Nat2Z.id, Hv, skipn_app, Nat.sub_diag, skipn_all in Hv1.
    cbn [skipn app] in Hv1.
    destruct (IH fuel s1 (handle_message cfg s w) partial Hok1 Hfs' Hv1 Hp)
      as (s' & Hrun & Hv' & Hok' & Hfd' & Hops').
    { pose proof (sizeof_hdr_pos cfg cfg_ok). destruct Hok1 as [_ ?]. lia. }
    exists s'. rewrite Hrun. split.
    + rewrite handle_message_trace, add_trace_add_trace. cbn [flat_map].
      rewrite Hops1. do 3 f_equal.
      apply dispatch_of_ext; [assumption|].
      rewrite (message_at_self cfg f Hf).
      unfold message_at. rewrite Hlen, Nat2Z.id. exact Hfront.
    + split; [assumption|]. split; [assumption|].
      split; [rewrite Hfd'; exact Hfd1|rewrite Hops'; exact Hops1].
Qed.

End Dispatching.

(** X5.  The buffer holds the whole messages [fs] followed by [partial],
    which is not a whole message (less than a header, or less than its
    header declares).  The dispatch-and-pop loop of [dmbus_fd_handler]
    hands [fs] to [handle_message] one by one, in the order of arrival,
    does nothing else to the world, and leaves exactly [partial] in the
    buffer: with two messages in one packet, two dispatches and an empty
    buffer. *)
Theorem dispatch_loop_takes_whole_messages (cfg : dmbus_config)
  (fuel : nat) (s : service) (w : world) (fs : list (list byte))
  (partial : list byte) :
  config_ok cfg ->
  buffer_ok cfg s ->
  Forall (message_ok cfg) fs ->
  valid_bytes s = concat fs ++ partial ->
  ~ (sizeof_hdr cfg <= Z.of_nat (length partial)
     /\ hdr_msg_len cfg partial <= Z.of_nat (length partial)) ->
  (Z.to_nat (len s) < fuel)%nat ->
  exists s',
    dmbus_fd_handler_dispatch cfg fuel s w
    = Ret tt s' (add_trace (flat_map (dispatch_of cfg (ops s)) fs) w)
    /\ valid_bytes s' = partial
    /\ buffer_ok cfg s'.
Proof.
  intros Hcfg Hok Hfs Hv Hp Hlt.
  destruct (dispatch_whole_messages cfg Hcfg fs fuel s w partial
              Hok Hfs Hv Hp Hlt) as (s' & Hrun & Hv' & Hok' & _).
  exists s'. auto.
Qed.

Lemma frame_message_ok (t : Z) (p : list byte) :
  (length p <= 24)%nat -> 0 <= t < 2 ^ 32 ->
  message_ok example_cfg (frame t p).
Proof.
  intros Hp Ht. unfold message_ok. split.
  - unfold frame. rewrite !length_app.
    cbn [length bytes_of_u32 example_cfg sizeof_hdr DMBUS_MAX_MSG_LEN].
    lia.
  - unfold hdr_msg_len, frame.
    change (off_msg_len example_cfg) with (length (bytes_of_u32 t)).
    rewrite load_bytes_of_u32 by lia.
    rewrite !length_app. cbn [length bytes_of_u32]. lia.
Qed.

Lemma dispatch_loop_takes_whole_messages_witness :
  exists s',
    dmbus_fd_handler_dispatch example_cfg 30
      (service_of (frame 1 [x61; x62] ++ frame 5 [x63] ++ [x02; x00]))
      (world_of [] [])
    = Ret tt s'
        (add_trace [ EvCall H_dom0_input_event (frame 1 [x61; x62]);
                     EvCall H_input_config (frame 5 [x63]) ]
           (world_of [] []))
    /\ valid_bytes s' = [x02; x00]
    /\ buffer_ok example_cfg s'.
Proof.
  assert (Hok : buffer_ok example_cfg
                  (service_of (frame 1 [x61; x62] ++ frame 5 [x63]
                               ++ [x02; x00]))).
  { apply service_of_ok. cbn. lia. }
  exact (dispatch_loop_takes_whole_messages example_cfg 30
           (service_of (frame 1 [x61; x62] ++ frame 5 [x63] ++ [x02; x00]))
           (world_of [] [])
           [frame 1 [x61; x62]; frame 5 [x63]] [x02; x00]
           example_cfg_ok Hok
           ltac:(repeat constructor; apply frame_message_ok; cbn; lia)
           ltac:(vm_compute; reflexivity)
           ltac:(cbn; lia)
           ltac:(vm_compute; lia)).
Defined.

(* ================================================================== *)
(** ** A full buffer without a whole message *)

Lemma no_dispatch_refl (w : world) : no_dispatch w w.
Proof. exists []. rewrite app_nil_r. split; [reflexivity|]. intros h m []. Qed.

Lemma no_dispatch_trans (w1 w2 w3 : world) :
  no_dispatch w1 w2 -> no_dispatch w2 w3 -> no_dispatch w1 w3.
Proof.
  intros (e1 & H1 & N1) (e2 & H2 & N2). exists (e1 ++ e2).
  rewrite H2, H1, app_assoc. split; [reflexivity|].
  intros h m H. apply in_app_or in H. destruct H; [eapply N1|eapply N2]; eauto.
Qed.

Lemma no_dispatch_same_trace (w w' : world) :
  trace w' = trace w -> no_dispatch w w'.
Proof.
  intros H. exists []. rewrite app_nil_r. split; [assumption|].
  intros h m [].
Qed.

Lemma handle_disconnect_no_dispatch (s : service) (w : world) :
  no_dispatch w (handle_disconnect s w).
Proof.
  unfold handle_disconnect.
  destruct (qemu_timer_pending w); [apply no_dispatch_refl|].
  exists [EvSetFdHandler (fd s) false; EvClose (fd s); EvLog LogDisconnected;
          EvModTimer (clock_ms w + 1000)].
  split; [cbn; rewrite <- !app_assoc; reflexivity|].
  intros h m H. cbn in H. intuition discriminate.
Qed.

Lemma fprintf_no_dispatch (m : log_msg) (w : world) :
  no_dispatch w (fprintf_stderr m w).
Proof.
  exists [EvLog m]. split; [reflexivity|].
  intros h m' H. cbn in H. intuition discriminate.
Qed.

(** A read of no bytes brings none. *)
Lemma v4v_recv_zero_size (dontwait : bool) (w w1 : world) (rc : Z)
  (bs : list byte) :
  v4v_recv dontwait 0 w = Some (rc, bs, w1) ->
  (rc = 0 \/ rc = -1)
  /\ pending (recv_in w1) = pending (recv_in w)
  /\ trace w1 = trace w.
Proof.
  unfold v4v_recv. intros H.
  destruct (recv_in w) as [|[bs'| |e] q] eqn:Q.
  - destruct dontwait; inversion H; subst. cbn. rewrite Q. auto.
  - cbn [Z.to_nat firstn skipn length] in H. inversion H; subst.
    cbn [recv_in set_recv_in trace]. split; [auto|]. split; [|reflexivity].
    destruct bs'; reflexivity.
  - inversion H; subst. cbn. auto.
  - inversion H; subst. cbn. auto.
Qed.

Section Full.

Variable cfg : dmbus_config.
Variable s : service.
Hypothesis s_full : len s = DMBUS_MAX_MSG_LEN cfg.
Hypothesis s_partial : frame_complete cfg s = false.

Lemma full_read_size : to_size_t (DMBUS_MAX_MSG_LEN cfg - len s) = 0.
Proof. rewrite s_full, Z.sub_diag. reflexivity. Qed.

Lemma leaves_step (A : Type) (w w1 : world) (o : outcome A) :
  pending (recv_in w1) = pending (recv_in w) ->
  no_dispatch w w1 ->
  leaves s w1 o -> leaves s w o.
Proof.
  intros Hp Hn. destruct o as [a s' w'|s' w'| |]; cbn; try tauto;
    intros (Hs & Hp' & Hn'); (split; [assumption|]);
    (split; [congruence|eapply no_dispatch_trans; eassumption]).
Qed.

Lemma sync_recv_full (fuel : nat) :
  forall w,
    leaves s w (sync_recv cfg fuel s w)
    /\ match sync_recv cfg fuel s w with
       | Ret r _ _ => r = false
       | _ => True
       end.
Proof.
  assert (Hi : frame_incomplete cfg s = true).
  { pose proof (frame_complete_negb cfg s) as E.
    rewrite s_partial in E. destruct (frame_incomplete cfg s);
      [reflexivity|discriminate]. }
  induction fuel as [|fuel IH]; intros w; [cbn; auto|].
  cbn [sync_recv]. rewrite Hi, full_read_size.
  destruct (v4v_recv false 0 w) as [[[rc bs] w1]|] eqn:R.
  2: { cbn. split; [|exact I]. split; [reflexivity|].
       split; [reflexivity|apply no_dispatch_refl]. }
  destruct (v4v_recv_zero_size _ _ _ _ _ R) as (Hrc & Hp & Ht).
  pose proof (no_dispatch_same_trace w w1 Ht) as Hn.
  destruct (Z.eqb_spec rc 0) as [E0|E0].
  { split; [|reflexivity]. cbn. split; [reflexivity|]. split.
    - rewrite (proj1 (handle_disconnect_queues s w1)). exact Hp.
    - eapply no_dispatch_trans; [exact Hn|].
      apply handle_disconnect_no_dispatch. }
  destruct (Z.eqb_spec rc (-1)) as [E1|E1]; [|lia].
  destruct (errno w1 =? EINTR).
  - destruct (IH w1) as [IH1 IH2]. split; [|exact IH2].
    exact (leaves_step _ w w1 _ Hp Hn IH1).
  - split; [|reflexivity]. cbn. split; [reflexivity|]. split; [exact Hp|].
    eapply no_dispatch_trans; [exact Hn|]. apply fprintf_no_dispatch.
Qed.

Lemma fd_read_full (fuel : nat) :
  forall w,
    leaves s w (dmbus_fd_handler_read cfg fuel s w)
    /\ match dmbus_fd_handler_read cfg fuel s w with
       | Ret r _ _ => r = false
       | _ => True
       end.
Proof.
  induction fuel as [|fuel IH]; intros w; [cbn; auto|].
  cbn [dmbus_fd_handler_read]. rewrite full_read_size.
  destruct (v4v_recv true 0 w) as [[[rc bs] w1]|] eqn:R.
  2: { cbn. split; [|exact I]. split; [reflexivity|].
       split; [reflexivity|apply no_dispatch_refl]. }
  destruct (v4v_recv_zero_size _ _ _ _ _ R) as (Hrc & Hp & Ht).
  pose proof (no_dispatch_same_trace w w1 Ht) as Hn.
  destruct (Z.eqb_spec rc 0) as [E0|E0].
  { split; [|reflexivity]. cbn. split; [reflexivity|]. split.
    - rewrite (proj1 (handle_disconnect_queues s w1)). exact Hp.
    - eapply no_dispatch_trans; [exact Hn|].
      apply handle_disconnect_no_dispatch. }
  destruct (Z.eqb_spec rc (-1)) as [E1|E1]; [|lia].
  destruct (errno w1 =? EINTR).
  - destruct (IH w1) as [IH1 IH2]. split; [|exact IH2].
    exact (leaves_step _ w w1 _ Hp Hn IH1).
  - split; [|reflexivity]. cbn. split; [reflexivity|]. split; [exact Hp|].
    eapply no_dispatch_trans; [exact Hn|]. apply fprintf_no_dispatch.
Qed.

End Full.

(** X7.  Once the buffer is full ([len] is the capacity) without a whole
    message at its front, as after a header that declares more than the
    capacity, the service receives nothing any more.  Every read asks for
    zero bytes, so whatever the connection holds, [dmbus_fd_handler],
    [sync_recv] and [dmbus_sync_recv] take no byte off it, call no handler
    and leave the buffer as it is; [sync_recv] never returns a message and
    [dmbus_sync_recv] returns -1.  Nothing in the file resets [len]. *)
Theorem full_buffer_receives_nothing (cfg : dmbus_config) (fuel : nat)
  (s : service) (w : world) (type size : Z) :
  len s = DMBUS_MAX_MSG_LEN cfg ->
  frame_complete cfg s = false ->
  leaves s w (dmbus_fd_handler cfg fuel s w)
  /\ leaves s w (sync_recv cfg fuel s w)
  /\ leaves s w (dmbus_sync_recv cfg fuel s type size w)
  /\ (forall r s' w', sync_recv cfg fuel s w = Ret r s' w' -> r = false)
  /\ (forall r s' w',
         dmbus_sync_recv cfg fuel s type size w = Ret r s' w' ->
         r = (-1, [])).
Proof.
  intros Hfull Hpart.
  destruct (sync_recv_full cfg s Hfull Hpart fuel w) as [S1 S2].
  destruct (fd_read_full cfg s Hfull fuel w) as [F1 F2].
  split; [|split; [exact S1|split; [|split]]].
  - unfold dmbus_fd_handler.
    destruct (dmbus_fd_handler_read cfg fuel s w) as [[|] s1 w1| | |];
      try assumption. discriminate.
  - unfold dmbus_sync_recv.
    destruct (sync_recv cfg fuel s w) as [[|] s1 w1| | |];
      try assumption. discriminate.
  - intros r s' w' H. rewrite H in S2. exact S2.
  - intros r s' w' H. unfold dmbus_sync_recv in H.
    destruct (sync_recv cfg fuel s w) as [[|] s1 w1| | |];
      try discriminate. inversion H. reflexivity.
Qed.

Lemma full_buffer_receives_nothing_witness :
  leaves (service_of (bytes_of_u32 1 ++ bytes_of_u32 1000 ++ repeat x07 24))
    (world_of [RecvBytes [x01; x02]] [])
    (dmbus_fd_handler example_cfg 5
       (service_of (bytes_of_u32 1 ++ bytes_of_u32 1000 ++ repeat x07 24))
       (world_of [RecvBytes [x01; x02]] [])).
Proof.
  exact (proj1
           (full_buffer_receives_nothing example_cfg 5
              (service_of (bytes_of_u32 1 ++ bytes_of_u32 1000
                           ++ repeat x07 24))
              (world_of [RecvBytes [x01; x02]] []) 4 32
              eq_refl eq_refl)).
Defined.

(* ================================================================== *)
(** ** What the blocking receive can return *)

Section Sound.

Variable cfg : dmbus_config.

Lemma sync_loop_type (fuel : nat) (type : Z) :
  forall (s : service) (w : world) (s' : service) (w' : world),
    dmbus_sync_recv_loop cfg fuel type s w = Ret true s' w' ->
    hdr_msg_type cfg (buff s') = to_uint32 type.
Proof.
  induction fuel as [|fuel IH]; intros s w s' w' H; [discriminate|].
  cbn [dmbus_sync_recv_loop] in H.
  destruct (Z.eqb_spec (hdr_msg_type cfg (buff s)) (to_uint32 type))
    as [E|E]; cbn [negb] in H.
  - inversion H; subst. exact E.
  - destruct (pop_message cfg s) as [s1|]; [|discriminate].
    destruct (sync_recv cfg fuel s1 (handle_message cfg s w))
      as [[|] s2 w2| | |]; try discriminate.
    exact (IH s2 w2 s' w' H).
Qed.

End Sound.

(** X8.  What [dmbus_sync_recv] returns, whatever the connection does:
    either -1 with nothing copied, or a count between 0 and [size] with
    that many bytes copied; and when the count covers a header, the bytes
    copied start with a header of the expected type that declares at
    least the count and at most the capacity.  It never hands the caller
    a message of another type. *)
Theorem sync_recv_returns_only_expected (cfg : dmbus_config) (fuel : nat)
  (s : service) (w : world) (type size r : Z) (data : list byte)
  (s' : service) (w' : world) :
  config_ok cfg ->
  buffer_ok cfg s ->
  0 <= size ->
  dmbus_sync_recv cfg fuel s type size w = Ret (r, data) s' w' ->
  (r = -1 /\ data = [])
  \/ (0 <= r <= size
      /\ Z.of_nat (length data) = r
      /\ (sizeof_hdr cfg <= r ->
          hdr_msg_type cfg data = to_uint32 type
          /\ r <= hdr_msg_len cfg data <= DMBUS_MAX_MSG_LEN cfg)).
Proof.
  intros Hcfg Hok Hsize H.
  pose proof (ok_max_int cfg Hcfg) as Hmax.
  unfold dmbus_sync_recv in H.
  pose proof (sync_recv_post cfg Hmax fuel s w Hok) as P1.
  destruct (sync_recv cfg fuel s w) as [[|] s1 w1| | |]; try discriminate.
  2: { inversion H. left. auto. }
  destruct P1 as [(Hok1 & _) Hi1]. specialize (Hi1 eq_refl).
  pose proof (sync_loop_post cfg Hcfg fuel type s1 w1 Hok1 Hi1) as P2.
  pose proof (sync_loop_type cfg fuel type s1 w1) as T2.
  destruct (dmbus_sync_recv_loop cfg fuel type s1 w1) as [[|] s2 w2| | |];
    try discriminate.
  2: { inversion H. left. auto. }
  destruct P2 as [Hok2 Hi2]. specialize (Hi2 eq_refl).
  specialize (T2 s2 w2 eq_refl).
  assert (Hc2 : frame_complete cfg s2 = true)
    by (rewrite frame_complete_negb, Hi2; reflexivity).
  destruct (frame_complete_true cfg Hcfg s2 Hok2 Hc2) as (Hh & HL0 & HL).
  destruct (sync_recv_copy cfg Hcfg s2 size Hok2 Hi2) as (Hn & s3 & Hp & _).
  cbv zeta in Hn. rewrite Hn, Hp in H. inversion H; subst; clear H.
  right. destruct Hok2 as [Hb2 Hl2]. unfold INT_MAX in Hmax.
  set (L := hdr_msg_len cfg (buff s2)) in *.
  set (n := if L <? size then L else size) in *.
  assert (Hn' : 0 <= n <= size /\ n <= L).
  { unfold n. destruct (Z.ltb_spec L size); lia. }
  rewrite to_int_small by lia.
  split; [lia|]. split; [rewrite length_firstn; lia|].
  intros Hr.
  pose proof (ok_type_in_hdr cfg Hcfg). pose proof (ok_len_in_hdr cfg Hcfg).
  unfold hdr_msg_type, hdr_msg_len.
  rewrite !load_u32_firstn by lia.
  fold (hdr_msg_type cfg (buff s2)). fold (hdr_msg_len cfg (buff s2)).
  fold L. split; [exact T2|lia].
Qed.

Lemma sync_recv_returns_only_expected_witness :
  (5 = -1 /\ [x04; x00; x00; x00; x0b] = [])
  \/ (0 <= 5 <= 5
      /\ Z.of_nat (length [x04; x00; x00; x00; x0b]) = 5
      /\ (sizeof_hdr example_cfg <= 5 ->
          hdr_msg_type example_cfg [x04; x00; x00; x00; x0b] = to_uint32 4
          /\ 5 <= hdr_msg_len example_cfg [x04; x00; x00; x00; x0b]
             <= DMBUS_MAX_MSG_LEN example_cfg)).
Proof.
  assert (Hok : buffer_ok example_cfg (service_of [])).
  { apply service_of_ok. cbn. lia. }
  assert (Hrun : exists s' w',
             dmbus_sync_recv example_cfg 9 (service_of []) 4 5
               (world_of [RecvBytes (frame 4 [x64; x65; x66])] [])
             = Ret (5, [x04; x00; x00; x00; x0b]) s' w').
  { eexists. eexists. vm_compute. reflexivity. }
  destruct Hrun as (s' & w' & Hrun).
  exact (sync_recv_returns_only_expected example_cfg 9 (service_of [])
           (world_of [RecvBytes (frame 4 [x64; x65; x66])] []) 4 5 5
           [x04; x00; x00; x00; x0b] s' w'
           example_cfg_ok Hok ltac:(lia) Hrun).
Defined.

(* ================================================================== *)
(** ** A message larger than the buffer *)

Section Oversize.

Variable cfg : dmbus_config.

Lemma sync_recv_no_dispatch (fuel : nat) :
  forall (s : service) (w : world) (r : bool) (s' : service) (w' : world),
    sync_recv cfg fuel s w = Ret r s' w' -> no_dispatch w w'.
Proof.
  induction fuel as [|fuel IH]; intros s w r s' w' H; [discriminate|].
  cbn [sync_recv] in H.
  destruct (frame_incomplete cfg s).
  2: { inversion H; subst. apply no_dispatch_refl. }
  destruct (v4v_recv false _ w) as [[[rc bs] w1]|] eqn:R; [|discriminate].
  destruct (v4v_recv_effects _ _ _ _ _ _ R) as (Ht & _).
  pose proof (no_dispatch_same_trace w w1 Ht) as Hn.
  destruct (rc =? 0).
  { inversion H; subst. eapply no_dispatch_trans; [exact Hn|].
    apply handle_disconnect_no_dispatch. }
  destruct (rc =? -1).
  { destruct (errno w1 =? EINTR).
    - eapply no_dispatch_trans; [exact Hn|]. exact (IH _ _ _ _ _ H).
    - inversion H; subst. eapply no_dispatch_trans; [exact Hn|].
      apply fprintf_no_dispatch. }
  destruct (store_bytes (buff s) (len s) bs); [|discriminate].
  eapply no_dispatch_trans; [exact Hn|]. exact (IH _ _ _ _ _ H).
Qed.

Lemma fd_read_no_dispatch (fuel : nat) :
  forall (s : service) (w : world) (r : bool) (s' : service) (w' : world),
    dmbus_fd_handler_read cfg fuel s w = Ret r s' w' -> no_dispatch w w'.
Proof.
  induction fuel as [|fuel IH]; intros s w r s' w' H; [discriminate|].
  cbn [dmbus_fd_handler_read] in H.
  destruct (v4v_recv true _ w) as [[[rc bs] w1]|] eqn:R; [|discriminate].
  destruct (v4v_recv_effects _ _ _ _ _ _ R) as (Ht & _).
  pose proof (no_dispatch_same_trace w w1 Ht) as Hn.
  destruct (rc =? 0).
  { inversion H; subst. eapply no_dispatch_trans; [exact Hn|].
    apply handle_disconnect_no_dispatch. }
  destruct (rc =? -1).
  { destruct (errno w1 =? EINTR).
    - eapply no_dispatch_trans; [exact Hn|]. exact (IH _ _ _ _ _ H).
    - inversion H; subst. eapply no_dispatch_trans; [exact Hn|].
      apply fprintf_no_dispatch. }
  destruct (store_bytes (buff s) (len s) bs); [|discriminate].
  destruct (rc <=? 0).
  - eapply no_dispatch_trans; [exact Hn|]. exact (IH _ _ _ _ _ H).
  - inversion H; subst. exact Hn.
Qed.

Hypothesis cfg_ok : config_ok cfg.

Lemma oversize_not_returned (fuel : nat) (s : service) (w : world)
  (r : bool) (s' : service) (w' : world) :
  buffer_ok cfg s ->
  DMBUS_MAX_MSG_LEN cfg < hdr_msg_len cfg (stream s w) ->
  sync_recv cfg fuel s w = Ret r s' w' ->
  r = false /\ stream s' w' = stream s w /\ buffer_ok cfg s'.
Proof.
  intros Hok Hbig H.
  pose proof (sync_recv_post cfg (ok_max_int cfg cfg_ok) fuel s w Hok) as P.
  rewrite H in P. destruct P as [(Hok' & _ & _ & Hst & _) Hi].
  split; [|auto]. destruct r; [|reflexivity]. specialize (Hi eq_refl).
  assert (Hc : frame_complete cfg s' = true)
    by (rewrite frame_complete_negb, Hi; reflexivity).
  destruct (frame_complete_true cfg cfg_ok s' Hok' Hc) as (Hh & _ & HL).
  destruct (hdr_of_stream cfg cfg_ok s' w' Hok' Hh) as [Hlen _].
  rewrite Hst in Hlen. destruct Hok' as [_ ?]. lia.
Qed.

End Oversize.

(** X9.  A message whose header declares more than the capacity of the
    buffer is never delivered.  While it is the next thing in the byte
    stream, [sync_recv] does not return a message, [dmbus_sync_recv]
    returns -1 if it returns, and [dmbus_fd_handler] calls no handler,
    whatever follows on the connection: the message can never become
    whole in the buffer. *)
Theorem oversize_message_never_delivered (cfg : dmbus_config) (fuel : nat)
  (s : service) (w : world) (type size : Z) :
  config_ok cfg ->
  buffer_ok cfg s ->
  DMBUS_MAX_MSG_LEN cfg < hdr_msg_len cfg (stream s w) ->
  (forall r s' w', sync_recv cfg fuel s w = Ret r s' w' -> r = false)
  /\ (forall r s' w',
         dmbus_sync_recv cfg fuel s type size w = Ret r s' w' ->
         r = (-1, []))
  /\ (forall u s' w',
         dmbus_fd_handler cfg fuel s w = Ret u s' w' -> no_dispatch w w').
Proof.
  intros Hcfg Hok Hbig. split; [|split].
  - intros r s' w' H.
    exact (proj1 (oversize_not_returned cfg Hcfg fuel s w r s' w'
                    Hok Hbig H)).
  - intros r s' w' H. unfold dmbus_sync_recv in H.
    destruct (sync_recv cfg fuel s w) as [[|] s1 w1| | |] eqn:E;
      try discriminate.
    + destruct (oversize_not_returned cfg Hcfg fuel s w true s1 w1
                  Hok Hbig E) as [F _]. discriminate F.
    + inversion H. reflexivity.
  - intros u s' w' H. unfold dmbus_fd_handler in H.
    destruct (dmbus_fd_handler_read cfg fuel s w) as [[|] s1 w1| | |] eqn:E1;
      try discriminate.
    2: { inversion H; subst. exact (fd_read_no_dispatch cfg _ _ _ _ _ _ E1). }
    pose proof (fd_read_post cfg (ok_max_int cfg Hcfg) fuel s w Hok) as P.
    rewrite E1 in P. destruct P as (Hok1 & _ & _ & Hst1 & _).
    destruct (sync_recv cfg fuel s1 w1) as [[|] s2 w2| | |] eqn:E2;
      try discriminate.
    + destruct (oversize_not_returned cfg Hcfg fuel s1 w1 true s2 w2 Hok1
                  ltac:(rewrite Hst1; exact Hbig) E2) as [F _].
      discriminate F.
    + inversion H; subst.
      eapply no_dispatch_trans.
      * exact (fd_read_no_dispatch cfg _ _ _ _ _ _ E1).
      * exact (sync_recv_no_dispatch cfg _ _ _ _ _ _ E2).
Qed.

Lemma oversize_message_never_delivered_witness :
  exists r s' w',
    dmbus_sync_recv example_cfg 9 (service_of [x01; x00]) 1 32
      (world_of [RecvBytes ([x00; x00] ++ bytes_of_u32 33 ++ repeat x07 25)]
         [])
    = Ret r s' w'
    /\ r = (-1, []).
Proof.
  assert (Hok : buffer_ok example_cfg (service_of [x01; x00])).
  { apply service_of_ok. cbn. lia. }
  assert (Hrun : exists r s' w',
             dmbus_sync_recv example_cfg 9 (service_of [x01; x00]) 1 32
               (world_of [RecvBytes ([x00; x00] ++ bytes_of_u32 33
                                     ++ repeat x07 25)] [])
             = Ret r s' w').
  { eexists. eexists. eexists. vm_compute. reflexivity. }
  destruct Hrun as (r & s' & w' & Hrun).
  exists r, s', w'. split; [exact Hrun|].
  exact (proj1 (proj2
           (oversize_message_never_delivered example_cfg 9
              (service_of [x01; x00])
              (world_of [RecvBytes ([x00; x00] ++ bytes_of_u32 33
                                    ++ repeat x07 25)] [])
              1 32 example_cfg_ok Hok ltac:(vm_compute; reflexivity)))
           r s' w' Hrun).
Defined.

(* ================================================================== *)
(** ** Reassembly across the calls of the read handler *)

Lemma data_last_tail (r : recv_result) (q : list recv_result) :
  data_last (r :: q) -> data_last q.
Proof.
  intros [E|(q' & bs & E & Hne)]; [discriminate|].
  destruct q' as [|r' q'].
  - cbn in E. inversion E. left. reflexivity.
  - cbn in E. inversion E. right. exists q', bs. auto.
Qed.

Lemma data_last_push (bs : list byte) (q : list recv_result) :
  bs <> [] -> data_last q -> data_last (RecvBytes bs :: q).
Proof.
  intros Hne [->|(q' & bs' & -> & Hne')].
  - right. exists [], bs. auto.
  - right. exists (RecvBytes bs :: q'), bs'. auto.
Qed.

Lemma data_last_pending (q : list recv_result) :
  data_last q -> q <> [] -> pending q <> [].
Proof.
  intros [->|(q' & bs & -> & Hne)] Hq; [contradiction|].
  rewrite pending_app. cbn [pending]. rewrite app_nil_r.
  intros E. apply app_eq_nil in E. destruct E. contradiction.
Qed.

Lemma v4v_recv_data_last (dontwait : bool) (size rc : Z) (bs : list byte)
  (w w1 : world) :
  v4v_recv dontwait size w = Some (rc, bs, w1) ->
  data_last (recv_in w) -> data_last (recv_in w1).
Proof.
  unfold v4v_recv. intros H Hd.
  destruct (recv_in w) as [|[bs'| |e] q] eqn:Q.
  - destruct dontwait; inversion H; subst. cbn. rewrite Q. left. reflexivity.
  - inversion H; subst. cbn [recv_in set_recv_in].
    apply data_last_tail in Hd.
    destruct (skipn (Z.to_nat size) bs') eqn:E; [assumption|].
    apply data_last_push; [discriminate|assumption].
  - inversion H; subst. cbn. exact (data_last_tail _ _ Hd).
  - inversion H; subst. cbn. exact (data_last_tail _ _ Hd).
Qed.

Section Reassembly.

Variable cfg : dmbus_config.
Hypothesis cfg_ok : config_ok cfg.

Lemma sync_recv_data_last (fuel : nat) :
  forall (s : service) (w : world) (r : bool) (s' : service) (w' : world),
    data_last (recv_in w) ->
    sync_recv cfg fuel s w = Ret r s' w' ->
    data_last (recv_in w').
Proof.
  induction fuel as [|fuel IH]; intros s w r s' w' Hd H; [discriminate|].
  cbn [sync_recv] in H.
  destruct (frame_incomplete cfg s).
  2: { inversion H; subst. assumption. }
  destruct (v4v_recv false _ w) as [[[rc bs] w1]|] eqn:R; [|discriminate].
  pose proof (v4v_recv_data_last _ _ _ _ _ _ R Hd) as Hd1.
  destruct (rc =? 0).
  { inversion H; subst.
    rewrite (proj1 (handle_disconnect_queues s' w1)). assumption. }
  destruct (rc =? -1).
  { destruct (errno w1 =? EINTR); [exact (IH _ _ _ _ _ Hd1 H)|].
    inversion H; subst. assumption. }
  destruct (store_bytes (buff s) (len s) bs); [|discriminate].
  exact (IH _ _ _ _ _ Hd1 H).
Qed.

(** The first read of the handler, on a connection that has bytes to
    deliver and a buffer with room, brings some. *)
Lemma fd_read_gets (fuel : nat) :
  forall (s : service) (w : world),
    buffer_ok cfg s ->
    len s < DMBUS_MAX_MSG_LEN cfg ->
    Forall delivers (recv_in w) ->
    data_last (recv_in w) ->
    recv_in w <> [] ->
    (reads_left w < fuel)%nat ->
    exists s' w',
      dmbus_fd_handler_read cfg fuel s w = Ret true s' w'
      /\ Forall delivers (recv_in w')
      /\ data_last (recv_in w')
      /\ (reads_left w' < reads_left w)%nat.
Proof.
  pose proof (ok_max_int cfg cfg_ok) as Hmax.
  induction fuel as [|fuel IH]; intros s w Hok Hroom Hd Hl Hne Hlt; [lia|].
  destruct (v4v_recv_delivers
              (to_size_t (DMBUS_MAX_MSG_LEN cfg - len s)) w (recv_in w) []
              ltac:(rewrite app_nil_r; reflexivity) Hd Hne)
    as (rc & bs & w1 & good1 & R0 & Hq1 & Hd1 & Hpg & Hrc).
  { rewrite (read_size cfg Hmax s Hok). lia. }
  rewrite app_nil_r in Hq1. subst good1.
  (* the same read, made without waiting *)
  assert (R : v4v_recv true (to_size_t (DMBUS_MAX_MSG_LEN cfg - len s)) w
              = Some (rc, bs, w1)).
  { unfold v4v_recv in *. destruct (recv_in w); [contradiction|exact R0]. }
  pose proof (v4v_recv_data_last _ _ _ _ _ _ R Hl) as Hl1.
  destruct (v4v_recv_stream _ _ _ _ _ _ R) as (_ & _ & Hdec).
  destruct Hrc as [(E1 & Hbs & Ee)|(Hpos & Hrc)].
  - rewrite (fd_read_eintr cfg fuel s w w1 bs) by (subst; assumption).
    specialize (Hdec (or_intror (conj E1 Ee))).
    assert (Hne1 : recv_in w1 <> []).
    { intros E. apply (data_last_pending _ Hl Hne).
      rewrite Hpg, Hbs, E. reflexivity. }
    destruct (IH s w1 Hok Hroom Hd1 Hl1 Hne1 ltac:(lia))
      as (s' & w' & Hrun & ? & ? & ?).
    exists s', w'. repeat split; try assumption. lia.
  - destruct (read_stores cfg Hmax true s w w1 rc bs Hok R
                ltac:(lia) ltac:(lia))
      as (b & Hstore & Hto & _ & Hok1 & Hv).
    cbn [dmbus_fd_handler_read]. rewrite R.
    destruct (Z.eqb_spec rc 0) as [?|_]; [lia|].
    destruct (Z.eqb_spec rc (-1)) as [?|_]; [lia|].
    rewrite Hstore, Hto. destruct (Z.leb_spec rc 0); [lia|].
    eexists _, w1. split; [reflexivity|].
    repeat split; try assumption. apply Hdec. left. assumption.
Qed.

(** With nothing left on the connection and no whole message in the
    buffer, a stream made of whole messages is empty. *)
Lemma stream_done (s : service) (w : world) (fs : list (list byte)) :
  buffer_ok cfg s ->
  frame_complete cfg s = false ->
  Forall (message_ok cfg) fs ->
  stream s w = concat fs ->
  pending (recv_in w) = [] ->
  fs = [] /\ len s = 0.
Proof.
  intros Hok Hc Hfs Hst Hp. unfold stream in Hst.
  rewrite Hp, app_nil_r in Hst.
  destruct fs as [|f fs].
  - split; [reflexivity|]. cbn in Hst.
    rewrite <- (length_valid cfg s Hok), Hst. reflexivity.
  - exfalso. pose proof (Forall_inv Hfs) as Hf.
    pose proof Hf as [[Hf1 Hf2] Hf3]. cbn [concat] in Hst.
    assert (Hc' : frame_complete cfg s = true).
    { apply (frame_complete_iff cfg cfg_ok s Hok). rewrite Hst.
      destruct (hdr_of_front cfg cfg_ok f (concat fs)) as [Hl _]; [lia|].
      rewrite Hl, Hf3, length_app. lia. }
    congruence.
Qed.

(** The dispatch loop on a stream of whole messages: it takes the first
    [k] of them, those that are whole in the buffer. *)
Lemma dispatch_stream (fs : list (list byte)) :
  forall (fuel : nat) (s : service) (w : world),
    buffer_ok cfg s ->
    Forall (message_ok cfg) fs ->
    stream s w = concat fs ->
    (Z.to_nat (len s) < fuel)%nat ->
    exists k s',
      dmbus_fd_handler_dispatch cfg fuel s w
      = Ret tt s'
          (add_trace (flat_map (dispatch_of cfg (ops s)) (firstn k fs)) w)
      /\ stream s' w = concat (skipn k fs)
      /\ frame_complete cfg s' = false
      /\ buffer_ok cfg s'
      /\ fd s' = fd s /\ ops s' = ops s
      /\ len s' <= len s
      /\ (frame_complete cfg s = true -> len s' < len s).
Proof.
  pose proof (sizeof_hdr_pos cfg cfg_ok) as Hpos.
  induction fs as [|f fs IH]; intros fuel s w Hok Hfs Hst Hlt;
    (destruct fuel as [|fuel]; [lia|]);
    cbn [dmbus_fd_handler_dispatch];
    destruct (frame_complete cfg s) eqn:Hc;
    try (exists 0%nat, s; cbn [firstn skipn flat_map];
         rewrite add_trace_nil;
         split; [reflexivity|]; split; [assumption|];
         split; [assumption|]; split; [assumption|];
         split; [reflexivity|]; split; [reflexivity|];
         split; [lia|discriminate]).
  - exfalso.
    destruct (frame_complete_true cfg cfg_ok s Hok Hc) as (Hh & _).
    pose proof (f_equal (@length byte) Hst) as E.
    rewrite (length_stream cfg s w Hok) in E. cbn in E. lia.
  - pose proof (Forall_inv Hfs) as Hf.
    pose proof (Forall_inv_tail Hfs) as Hfs'.
    cbn [concat] in Hst.
    destruct (front_is cfg cfg_ok s w f _ Hok Hc Hf Hst)
      as (Hlen & Hty & Hfront).
    destruct (pop_message_facts cfg cfg_ok s Hok Hc)
      as (s1 & Hpop & Hok1 & Hfd1 & Hops1 & Hl1 & Hv1).
    rewrite Hpop.
    pose proof Hf as [[Hf1 Hf2] Hf3].
    assert (Hst1 : stream s1 (handle_message cfg s w) = concat fs).
    { rewrite (stream_after_pop cfg cfg_ok s s1 w (handle_message cfg s w)
                 Hok Hc Hv1 (proj1 (handle_message_queues cfg s w))).
      cbn [drop_messages]. rewrite Hst.
      destruct (hdr_of_front cfg cfg_ok f (concat fs)) as [Hl _]; [lia|].
      rewrite Hl, Hf3, Nat2Z.id, skipn_app, Nat.sub_diag, skipn_all.
      reflexivity. }
    destruct (IH fuel s1 (handle_message cfg s w) Hok1 Hfs' Hst1)
      as (k & s' & Hrun & Hst' & Hc' & Hok' & Hfd' & Hops' & Hle' & _).
    { destruct Hok1 as [_ ?]. lia. }
    exists (S k), s'. rewrite Hrun. cbn [firstn skipn flat_map].
    split.
    + rewrite handle_message_trace, add_trace_add_trace.
      rewrite Hops1. do 3 f_equal.
      apply dispatch_of_ext; [assumption|].
      rewrite (message_at_self cfg f Hf).
      unfold message_at. rewrite Hlen, Nat2Z.id. exact Hfront.
    + split.
      { unfold stream in *.
        rewrite (proj1 (handle_message_queues cfg s w)) in Hst'.
        exact Hst'. }
      split; [assumption|]. split; [assumption|].
      split; [congruence|]. split; [congruence|]. split; [lia|]. intros _. lia.
Qed.

(** One call of the handler when the descriptor is readable. *)
Lemma handler_once (fuel : nat) (s : service) (w : world)
  (fs : list (list byte)) :
  buffer_ok cfg s ->
  frame_complete cfg s = false ->
  Forall delivers (recv_in w) ->
  data_last (recv_in w) ->
  recv_in w <> [] ->
  Forall (message_ok cfg) fs ->
  stream s w = concat fs ->
  (work_left s w < fuel)%nat ->
  exists k s' w',
    dmbus_fd_handler cfg fuel s w = Ret tt s' w'
    /\ trace w'
       = trace w ++ flat_map (dispatch_of cfg (ops s)) (firstn k fs)
    /\ stream s' w' = concat (skipn k fs)
    /\ frame_complete cfg s' = false
    /\ buffer_ok cfg s'
    /\ fd s' = fd s /\ ops s' = ops s
    /\ Forall delivers (recv_in w')
    /\ data_last (recv_in w')
    /\ (work_left s' w' < work_left s w)%nat
    /\ fd_handlers w' = fd_handlers w
    /\ timer_expire w' = timer_expire w.
Proof.
  intros Hok Hc Hd Hl Hne Hfs Hst Hlt.
  pose proof (ok_max_int cfg cfg_ok) as Hmax.
  assert (Hi : frame_incomplete cfg s = true).
  { pose proof (frame_complete_negb cfg s) as E. rewrite Hc in E.
    destruct (frame_incomplete cfg s); [reflexivity|discriminate]. }
  pose proof (data_last_pending _ Hl Hne) as Hpend.
  destruct fs as [|f fs].
  { exfalso. cbn in Hst. unfold stream in Hst.
    apply app_eq_nil in Hst. destruct Hst. contradiction. }
  pose proof (Forall_inv Hfs) as Hf. pose proof Hf as [[Hf1 Hf2] Hf3].
  cbn [concat] in Hst.
  pose proof (incomplete_is_shorter cfg cfg_ok s w f _ Hok Hf Hst Hi)
    as Hshort.
  unfold work_left in Hlt.
  destruct (fd_read_gets fuel s w Hok ltac:(lia) Hd Hl Hne ltac:(lia))
    as (s1 & w1 & Hrun1 & Hd1 & Hl1 & _).
  pose proof (fd_read_post cfg Hmax fuel s w Hok) as P1.
  rewrite Hrun1 in P1.
  destruct P1 as (Hok1 & Hfd1 & Hops1 & Hst1 & Hw1 & _ & Hun1).
  destruct (Hun1 eq_refl) as (Ht1 & Hx1 & Hh1).
  assert (Hneed : Z.of_nat (length f)
                  <= len s1 + Z.of_nat (length (pending (recv_in w1)))).
  { pose proof (f_equal (@length byte) Hst1) as E.
    rewrite (length_stream cfg s1 w1 Hok1), Hst, length_app in E.
    destruct Hok1 as [_ ?]. lia. }
  unfold work_left in Hw1.
  destruct (sync_recv_gets cfg cfg_ok fuel [] s1 w1 (recv_in w1) f
              (concat fs) Hok1 ltac:(rewrite app_nil_r; reflexivity) Hd1 Hf
              ltac:(rewrite Hst1; exact Hst) Hneed ltac:(lia))
    as (s2 & w2 & good2 & Hrun2 & Hq2 & Hd2 & _).
  rewrite app_nil_r in Hq2. subst good2.
  pose proof (sync_recv_post cfg Hmax fuel s1 w1 Hok1) as P2.
  rewrite Hrun2 in P2.
  destruct P2 as [(Hok2 & Hfd2 & Hops2 & Hst2 & Hw2 & _ & Hun2) Hi2].
  destruct (Hun2 eq_refl) as (Ht2 & Hx2 & Hh2). specialize (Hi2 eq_refl).
  pose proof (sync_recv_data_last fuel s1 w1 true s2 w2 Hl1 Hrun2) as Hl2.
  unfold work_left in Hw2.
  destruct (dispatch_stream (f :: fs) fuel s2 w2 Hok2 Hfs
              ltac:(rewrite Hst2, Hst1; exact Hst) ltac:(lia))
    as (k & s3 & Hrun3 & Hst3 & Hc3 & Hok3 & Hfd3 & Hops3 & Hle3 & Hlt3).
  assert (Hc2 : frame_complete cfg s2 = true)
    by (rewrite frame_complete_negb, Hi2; reflexivity).
  specialize (Hlt3 Hc2).
  exists k, s3, (add_trace (flat_map (dispatch_of cfg (ops s2)) (firstn k (f :: fs))) w2).
  unfold dmbus_fd_handler. rewrite Hrun1, Hrun2, Hrun3.
  split; [reflexivity|]. cbn [trace add_trace recv_in fd_handlers timer_expire].
  split; [rewrite Ht2, Ht1, Hops2, Hops1; reflexivity|].
  split; [exact Hst3|]. split; [assumption|]. split; [assumption|].
  split; [congruence|]. split; [congruence|].
  split; [assumption|]. split; [assumption|].
  split; [|split; congruence].
  unfold work_left, reads_left in *. cbn [recv_in add_trace].
  destruct Hok3 as [_ ?]. destruct Hok2 as [_ ?]. lia.
Qed.

Lemma runs_all (fuel n : nat) :
  forall (s : service) (w : world) (fs : list (list byte)),
    buffer_ok cfg s ->
    frame_complete cfg s = false ->
    In (fd s) (fd_handlers w) ->
    Forall delivers (recv_in w) ->
    data_last (recv_in w) ->
    Forall (message_ok cfg) fs ->
    stream s w = concat fs ->
    (work_left s w <= n)%nat ->
    (work_left s w < fuel)%nat ->
    exists s' w',
      fd_handler_runs cfg fuel n s w = Ret tt s' w'
      /\ trace w' = trace w ++ flat_map (dispatch_of cfg (ops s)) fs
      /\ len s' = 0
      /\ recv_in w' = []
      /\ fd_handlers w' = fd_handlers w
      /\ timer_expire w' = timer_expire w.
Proof.
  induction n as [|n IH]; intros s w fs Hok Hc Hreg Hd Hl Hfs Hst Hn Hlt.
  - assert (Hq : recv_in w = []).
    { unfold work_left, reads_left in Hn.
      destruct (recv_in w); [reflexivity|cbn in Hn; lia]. }
    destruct (stream_done s w fs Hok Hc Hfs Hst) as [-> Hz].
    { rewrite Hq. reflexivity. }
    exists s, w. cbn [fd_handler_runs flat_map]. rewrite app_nil_r.
    split; [reflexivity|]. split; [reflexivity|]. split; [assumption|].
    split; [assumption|]. split; reflexivity.
  - cbn [fd_handler_runs].
    assert (Hcase : recv_in w = [] \/ recv_in w <> [])
      by (destruct (recv_in w); [left; reflexivity|right; discriminate]).
    destruct Hcase as [Hq|Hq].
    { destruct (stream_done s w fs Hok Hc Hfs Hst) as [-> Hz].
      { rewrite Hq. reflexivity. }
      exists s, w. cbn [flat_map]. rewrite app_nil_r.
      split; [rewrite Hq; reflexivity|]. split; [reflexivity|]. split; [assumption|].
      split; [assumption|]. split; reflexivity. }
    assert (Hex : existsb (Z.eqb (fd s)) (fd_handlers w) = true).
    { apply existsb_exists. exists (fd s). split; [assumption|].
      apply Z.eqb_refl. }
    destruct (handler_once fuel s w fs Hok Hc Hd Hl Hq Hfs Hst Hlt)
      as (k & s1 & w1 & Hrun & Ht1 & Hst1 & Hc1 & Hok1 & Hfd1 & Hops1
          & Hd1 & Hl1 & Hw1 & Hh1 & Hx1).
    destruct (recv_in w) as [|r q] eqn:Hq' in |- *;
      [rewrite Hq' in Hq; contradiction|].
    rewrite Hex, Hrun.
    destruct (IH s1 w1 (skipn k fs) Hok1 Hc1) as (s' & w' & Hruns & Ht' & ?);
      try assumption; try lia.
    + rewrite Hfd1, Hh1. assumption.
    + clear - Hfs. revert fs Hfs. induction k as [|k IHk]; intros fs Hfs;
        [assumption|].
      destruct fs as [|f fs]; [constructor|].
      cbn [skipn]. apply IHk. exact (Forall_inv_tail Hfs).
    + exists s', w'. split; [exact Hruns|]. split.
      * rewrite Ht', Ht1, Hops1, <- app_assoc, <- flat_map_app, firstn_skipn.
        reflexivity.
      * destruct H as (? & ? & ? & ?). repeat split; congruence.
Qed.

End Reassembly.

(** X6.  Reassembly across reads and across calls of the read handler.
    The bytes of the whole messages [fs] arrive split in any way between
    the bytes already accumulated in the buffer (not yet a whole message)
    and the reads the connection will deliver, interrupted reads included,
    the last read being data.  The main loop calls [dmbus_fd_handler] while
    the descriptor is readable and the handler registered: however the
    bytes were split, every message of [fs] is handed to [handle_message]
    exactly once and in order of arrival, nothing else is added to the
    trace (no log line, no disconnect), and the runs end with an empty
    buffer and nothing left to read; the handler stays registered and the
    timer is left alone. *)
Theorem frames_reassembled (cfg : dmbus_config) (fuel n : nat)
  (s : service) (w : world) (fs : list (list byte)) :
  config_ok cfg ->
  buffer_ok cfg s ->
  frame_complete cfg s = false ->
  In (fd s) (fd_handlers w) ->
  Forall delivers (recv_in w) ->
  data_last (recv_in w) ->
  Forall (message_ok cfg) fs ->
  stream s w = concat fs ->
  (work_left s w <= n)%nat ->
  (work_left s w < fuel)%nat ->
  exists s' w',
    fd_handler_runs cfg fuel n s w = Ret tt s' w'
    /\ trace w' = trace w ++ flat_map (dispatch_of cfg (ops s)) fs
    /\ len s' = 0
    /\ recv_in w' = []
    /\ fd_handlers w' = fd_handlers w
    /\ timer_expire w' = timer_expire w.
Proof.
  intros Hcfg. apply runs_all. exact Hcfg.
Qed.

Lemma frames_reassembled_witness :
  exists s' w',
    fd_handler_runs example_cfg 40 30
      (service_of [x01; x00; x00])
      (world_of [ RecvBytes [x00; x0a; x00; x00]; RecvErr EINTR;
                  RecvBytes [x00; x61; x62; x05; x00; x00; x00; x09];
                  RecvBytes [x00; x00; x00; x63] ] [])
    = Ret tt s' w'
    /\ trace w'
       = trace (world_of [ RecvBytes [x00; x0a; x00; x00]; RecvErr EINTR;
                  RecvBytes [x00; x61; x62; x05; x00; x00; x00; x09];
                  RecvBytes [x00; x00; x00; x63] ] [])
         ++ flat_map (dispatch_of example_cfg
                        (ops (service_of [x01; x00; x00])))
              [frame 1 [x61; x62]; frame 5 [x63]]
    /\ len s' = 0
    /\ recv_in w' = []
    /\ fd_handlers w'
       = fd_handlers (world_of [ RecvBytes [x00; x0a; x00; x00]; RecvErr EINTR;
                  RecvBytes [x00; x61; x62; x05; x00; x00; x00; x09];
                  RecvBytes [x00; x00; x00; x63] ] [])
    /\ timer_expire w'
       = timer_expire (world_of [ RecvBytes [x00; x0a; x00; x00]; RecvErr EINTR;
                  RecvBytes [x00; x61; x62; x05; x00; x00; x00; x09];
                  RecvBytes [x00; x00; x00; x63] ] []).
Proof.
  assert (Hok : buffer_ok example_cfg (service_of [x01; x00; x00]))
    by (apply service_of_ok; cbn; lia).
  assert (Hc : frame_complete example_cfg (service_of [x01; x00; x00])
               = false) by reflexivity.
  assert (Hreg : In (fd (service_of [x01; x00; x00]))
                   (fd_handlers
                      (world_of [ RecvBytes [x00; x0a; x00; x00];
                                  RecvErr EINTR;
                  RecvBytes [x00; x61; x62; x05; x00; x00; x00; x09];
                  RecvBytes [x00; x00; x00; x63] ] [])))
    by (left; reflexivity).
  assert (Hd : Forall delivers
                 (recv_in
                    (world_of [ RecvBytes [x00; x0a; x00; x00];
                                RecvErr EINTR;
                  RecvBytes [x00; x61; x62; x05; x00; x00; x00; x09];
                  RecvBytes [x00; x00; x00; x63] ] []))).
  { repeat constructor; discriminate. }
  assert (Hl : data_last
                 (recv_in
                    (world_of [ RecvBytes [x00; x0a; x00; x00];
                                RecvErr EINTR;
                  RecvBytes [x00; x61; x62; x05; x00; x00; x00; x09];
                  RecvBytes [x00; x00; x00; x63] ] []))).
  { right.
    exists [ RecvBytes [x00; x0a; x00; x00]; RecvErr EINTR;
             RecvBytes [x00; x61; x62; x05; x00; x00; x00; x09] ],
           [x00; x00; x00; x63].
    split; [reflexivity|discriminate]. }
  assert (Hfs : Forall (message_ok example_cfg)
                  [frame 1 [x61; x62]; frame 5 [x63]]).
  { repeat constructor; apply frame_message_ok; cbn; lia. }
  assert (Hst : stream (service_of [x01; x00; x00])
                  (world_of [ RecvBytes [x00; x0a; x00; x00]; RecvErr EINTR;
                  RecvBytes [x00; x61; x62; x05; x00; x00; x00; x09];
                  RecvBytes [x00; x00; x00; x63] ] [])
                = concat [frame 1 [x61; x62]; frame 5 [x63]])
    by (vm_compute; reflexivity).
  assert (Hn : (work_left (service_of [x01; x00; x00])
                  (world_of [ RecvBytes [x00; x0a; x00; x00]; RecvErr EINTR;
                  RecvBytes [x00; x61; x62; x05; x00; x00; x00; x09];
                  RecvBytes [x00; x00; x00; x63] ] []) <= 30)%nat)
    by (vm_compute; lia).
  assert (Hf : (work_left (service_of [x01; x00; x00])
                  (world_of [ RecvBytes [x00; x0a; x00; x00]; RecvErr EINTR;
                  RecvBytes [x00; x61; x62; x05; x00; x00; x00; x09];
                  RecvBytes [x00; x00; x00; x63] ] []) < 40)%nat)
    by (vm_compute; lia).
  exact (frames_reassembled example_cfg 40 30 _ _ _
           example_cfg_ok Hok Hc Hreg Hd Hl Hfs Hst Hn Hf).
Defined.

(* ================================================================== *)
(** ** The fingerprint of the handshake *)

Lemma byte_of_to_Z (b : byte) : byte_of_Z (byte_to_Z b) = b.
Proof.
  unfold byte_of_Z. pose proof (byte_to_Z_range b) as Hr.
  rewrite Z.mod_small by exact Hr.
  unfold byte_to_Z. rewrite N2Z.id, Byte.of_to_N. reflexivity.
Qed.

Lemma hex_value_digit (upper : bool) (v : Z) :
  0 <= v < 16 -> hex_value (hex_digit upper v) = Some v.
Proof.
  intros Hv. unfold hex_value, hex_digit.
  destruct (Z.ltb_spec v 10).
  - rewrite byte_to_of_Z, Z.mod_small by lia.
    replace (48 <=? 48 + v) with true by (symmetry; apply Z.leb_le; lia).
    replace (48 + v <=? 57) with true by (symmetry; apply Z.leb_le; lia).
    cbn [andb]. f_equal. lia.
  - destruct upper; rewrite byte_to_of_Z, Z.mod_small by lia.
    + replace (55 + v <=? 57) with false by (symmetry; apply Z.leb_gt; lia).
      rewrite andb_false_r.
      replace (97 <=? 55 + v) with false by (symmetry; apply Z.leb_gt; lia).
      cbn [andb].
      replace (65 <=? 55 + v) with true by (symmetry; apply Z.leb_le; lia).
      replace (55 + v <=? 70) with true by (symmetry; apply Z.leb_le; lia).
      cbn [andb]. f_equal. lia.
    + replace (87 + v <=? 57) with false by (symmetry; apply Z.leb_gt; lia).
      rewrite andb_false_r.
      replace (97 <=? 87 + v) with true by (symmetry; apply Z.leb_le; lia).
      replace (87 + v <=? 102) with true by (symmetry; apply Z.leb_le; lia).
      cbn [andb]. f_equal. lia.
Qed.

Lemma sscanf_hex_of_byte (upper : bool) (b : byte) (rest : list byte) :
  sscanf_02x (hex_of_byte upper b ++ rest) = Some (byte_to_Z b).
Proof.
  pose proof (byte_to_Z_range b) as Hr.
  unfold hex_of_byte. cbn [app sscanf_02x].
  rewrite !hex_value_digit.
  - f_equal. symmetry. apply Z.div_mod. lia.
  - apply Z.mod_pos_bound. lia.
  - split; [apply Z.div_pos; lia|apply Z.div_lt_upper_bound; lia].
Qed.

Lemma fill_hash_from_hex (upper : bool) (rest : list byte) :
  forall (bs : list byte) (i : nat) (hash_str h : list byte),
    skipn (2 * i) hash_str = to_hex upper bs ++ rest ->
    (i + length bs <= length h)%nat ->
    fill_hash_from (length bs) i hash_str h
    = Some (firstn i h ++ bs ++ skipn (i + length bs) h).
Proof.
  induction bs as [|b bs IH]; intros i hash_str h Hs Hl.
  - cbn [fill_hash_from length app]. rewrite Nat.add_0_r, firstn_skipn.
    reflexivity.
  - cbn [length] in Hl. cbn [fill_hash_from length].
    cbn [to_hex flat_map] in Hs. rewrite <- app_assoc in Hs.
    rewrite Hs, sscanf_hex_of_byte, byte_of_to_Z.
    unfold store_bytes. cbn [length].
    replace ((0 <=? Z.of_nat i)
             && (Z.of_nat i + Z.of_nat 1 <=? Z.of_nat (length h)))
      with true
      by (symmetry; apply andb_true_iff; split; apply Z.leb_le; lia).
    rewrite Nat2Z.id.
    rewrite (IH (S i) hash_str).
    + f_equal.
      assert (Hi : length (firstn i h) = i) by (apply firstn_length_le; lia).
      replace (firstn (S i) (firstn i h ++ [b] ++ skipn (i + 1) h))
        with (firstn i h ++ [b]).
      2:{ rewrite firstn_app, Hi.
          rewrite (firstn_all2 (firstn i h)) by lia.
          replace (S i - i)%nat with 1%nat by lia. reflexivity. }
      replace (skipn (S i + length bs)
                 (firstn i h ++ [b] ++ skipn (i + 1) h))
        with (skipn (i + S (length bs)) h).
      2:{ rewrite app_assoc, skipn_app.
          rewrite length_app, Hi. cbn [length].
          rewrite (skipn_all2 (firstn i h ++ [b]))
            by (rewrite length_app, Hi; cbn [length]; lia).
          cbn [app]. rewrite skipn_skipn. f_equal. lia. }
      rewrite <- app_assoc. reflexivity.
    + replace (2 * S i)%nat with (2 + 2 * i)%nat by lia.
      rewrite <- skipn_skipn, Hs. reflexivity.
    + rewrite !length_app, length_firstn, length_skipn. cbn [length]. lia.
Qed.

(** X10.  [fill_hash] decodes the fingerprint: when [DMBUS_SHA1_STRING]
    starts with the forty hexadecimal digits of twenty bytes [bs], in
    lower or in upper case, the array [h] holds [bs] afterwards.  Whatever
    follows the forty digits in the string is not read, whatever follows
    the twenty bytes in [h] is not written, and no access leaves [h]. *)
Theorem fill_hash_decodes (upper : bool) (bs rest h : list byte) :
  length bs = 20%nat ->
  (20 <= length h)%nat ->
  fill_hash (to_hex upper bs ++ rest) h = Some (bs ++ skipn 20 h).
Proof.
  intros Hbs Hh. unfold fill_hash. rewrite <- Hbs.
  rewrite (fill_hash_from_hex upper rest bs 0 _ h).
  - reflexivity.
  - reflexivity.
  - cbn [Nat.add]. lia.
Qed.

Lemma fill_hash_decodes_witness :
  fill_hash
    (to_hex true
       [x00; x01; x02; x03; x04; x05; x06; x07; x08; x09;
        xa0; xa1; xb2; xc3; xd4; xe5; xf6; xf7; xf8; xff] ++ [x00])
    (repeat x00 20 ++ [x2a])
  = Some ([x00; x01; x02; x03; x04; x05; x06; x07; x08; x09;
           xa0; xa1; xb2; xc3; xd4; xe5; xf6; xf7; xf8; xff]
          ++ skipn 20 (repeat x00 20 ++ [x2a])).
Proof.
  exact (fill_hash_decodes true
           [x00; x01; x02; x03; x04; x05; x06; x07; x08; x09;
            xa0; xa1; xb2; xc3; xd4; xe5; xf6; xf7; xf8; xff]
           [x00] (repeat x00 20 ++ [x2a]) eq_refl
           ltac:(cbn; lia)).
Defined.

(* ================================================================== *)
(** ** Reconnecting *)

Lemma v4v_send_effects (d : Z) (bs : list byte) (w : world) :
  let rc := fst (v4v_send d bs w) in
  let w' := snd (v4v_send d bs w) in
  timer_expire w' = timer_expire w
  /\ fd_handlers w' = fd_handlers w
  /\ clock_ms w' = clock_ms w
  /\ recv_in w' = recv_in w
  /\ ((rc = -1 /\ trace w' = trace w)
      \/ (0 <= rc <= Z.of_nat (length bs)
          /\ trace w' = trace w ++ [EvSend d (firstn (Z.to_nat rc) bs)])).
Proof.
  unfold v4v_send. destruct (send_in w) as [|[n|e] q];
    cbn [fst snd emit set_send_in set_errno timer_expire fd_handlers
         clock_ms recv_in trace].
  - repeat split. right. rewrite Nat2Z.id, firstn_all.
    split; [lia|reflexivity].
  - repeat split. right. rewrite Nat2Z.id, length_firstn.
    split; [lia|]. do 2 f_equal.
    destruct (Nat.le_ge_cases n (length bs)).
    + rewrite Nat.min_l by assumption. reflexivity.
    + rewrite Nat.min_r by assumption.
      rewrite !firstn_all2 by lia. reflexivity.
  - repeat split. left. split; reflexivity.
Qed.

Lemma length_prologue_bytes (p : dmbus_conn_prologue) :
  length (hash p) = 20%nat ->
  Z.of_nat (length (prologue_bytes p)) = sizeof_prologue.
Proof.
  intros H. unfold prologue_bytes, sizeof_prologue.
  rewrite !length_app, H. reflexivity.
Qed.

(** However [try_reconnect] came to the label [rearm]. *)
Lemma try_reconnect_rearmed (sock conn : sys_result) (c c' : connection)
  (w w' : world) :
  try_reconnect sock conn c w = Rearmed c' w' ->
  let d := fd (svc c') in
  let arm := EvModTimer (clock_ms w + 1000) in
  timer_expire w' = Some (clock_ms w + 1000)
  /\ fd_handlers w' = fd_handlers w
  /\ recv_in w' = recv_in w
  /\ c' = set_fd c d
  /\ ((d = -1 /\ trace w' = trace w ++ [arm])
      \/ (d <> -1 /\ sock = SysOk d
          /\ (trace w' = trace w ++ [EvClose d; arm]
              \/ exists k,
                   Z.of_nat (length (firstn k (prologue_bytes (prologue c))))
                   <> sizeof_prologue
                   /\ trace w'
                      = trace w
                        ++ [EvSend d (firstn k (prologue_bytes (prologue c)));
                            EvClose d; arm]))).
Proof.
  unfold try_reconnect, rearm. intros H.
  destruct sock as [d|e]; cbn [v4v_socket] in H.
  2:{ cbn in H. inversion H; subst; clear H. cbn.
      repeat split. left. split; reflexivity. }
  destruct (Z.eqb_spec d (-1)) as [->|Hd].
  { inversion H; subst; clear H. cbn.
    repeat split. left. split; reflexivity. }
  assert (Hconn : exists rc w1,
             v4v_connect conn d (peer (set_fd c d)) w = (rc, w1)
             /\ timer_expire w1 = timer_expire w
             /\ fd_handlers w1 = fd_handlers w
             /\ clock_ms w1 = clock_ms w /\ recv_in w1 = recv_in w
             /\ trace w1 = trace w /\ send_in w1 = send_in w).
  { destruct conn; cbn; eexists; eexists; repeat split. }
  destruct Hconn as (rc & w1 & E & Ht1 & Hh1 & Hc1 & Hr1 & Htr1 & Hs1).
  rewrite E in H.
  destruct (Z.eqb_spec rc (-1)) as [->|Hrc].
  { inversion H; subst; clear H. cbn.
    rewrite Hc1, Hh1, Hr1, Htr1. repeat split.
    right. split; [exact Hd|]. split; [reflexivity|]. left.
    rewrite <- app_assoc. reflexivity. }
  pose proof (v4v_send_effects d (prologue_bytes (prologue (set_fd c d))) w1)
    as Hsend.
  destruct (v4v_send d (prologue_bytes (prologue (set_fd c d))) w1)
    as [rc2 w2].
  cbn [fst snd] in Hsend.
  destruct Hsend as (Ht2 & Hh2 & Hc2 & Hr2 & Htr2).
  destruct (Z.eqb_spec rc2 sizeof_prologue) as [->|Hrc2]; cbn [negb] in H.
  { destruct (ops (svc (set_fd c d))); discriminate. }
  inversion H; subst; clear H. cbn -[prologue_bytes].
  rewrite Hc2, Hc1, Hh2, Hh1, Hr2, Hr1. repeat split.
  right. split; [exact Hd|]. split; [reflexivity|].
  destruct Htr2 as [[_ Htr2]|[Hrange Htr2]]; rewrite Htr2, Htr1.
  - left. rewrite <- app_assoc. reflexivity.
  - right. exists (Z.to_nat rc2). cbn [set_fd prologue] in *. split.
    + rewrite length_firstn. lia.
    + rewrite <- !app_assoc. reflexivity.
Qed.

Lemma v4v_send_refused (d : Z) (bs : list byte) (w : world) :
  handshake_refused w = true ->
  fst (v4v_send d bs w) <> sizeof_prologue
  /\ exists sent,
       trace (snd (v4v_send d bs w)) = trace w ++ sent
       /\ short_write d sent
       /\ forall e q, send_in w = SendErr e :: q ->
                      errno (snd (v4v_send d bs w)) = e.
Proof.
  unfold handshake_refused, v4v_send, sizeof_prologue, short_write.
  destruct (send_in w) as [|[n|e] q]; [discriminate| |]; intros H;
    cbn [fst snd trace emit set_send_in set_errno errno].
  - apply Nat.ltb_lt in H. split.
    + rewrite length_firstn. lia.
    + exists [EvSend d (firstn n bs)]. split; [reflexivity|].
      split; [|intros e q' F; discriminate].
      right. eexists. split; [reflexivity|]. rewrite length_firstn. lia.
  - split; [lia|]. exists []. rewrite app_nil_r.
    split; [reflexivity|]. split; [left; reflexivity|].
    intros e' q' F. congruence.
Qed.

(** X11.  Every failed step of [try_reconnect] re-arms the timer.  When
    [v4v_socket] fails, the attempt ends at [rearm] and arming the timer
    is all it does.  When [v4v_connect] fails on the descriptor [d], the
    attempt closes [d] and then arms the timer.  When the transport does
    not take the 28 bytes of the handshake, the attempt closes [d] and
    then arms the timer, after at most one write of fewer than 28 bytes.
    And however an attempt came to [rearm]: the timer is set one second
    after the current time, the same delay each time; no read handler is
    registered, nothing is taken off the connection, and no field of the
    service but [fd] changes. *)
Theorem reconnect_failure_rearms (sock conn : sys_result) (c : connection)
  (w : world) :
  let arm := EvModTimer (clock_ms w + 1000) in
  (sys_failed sock = true ->
   exists c' w',
     try_reconnect sock conn c w = Rearmed c' w'
     /\ fd (svc c') = -1
     /\ trace w' = trace w ++ [arm])
  /\ (forall d,
        sock = SysOk d -> d <> -1 -> sys_failed conn = true ->
        exists c' w',
          try_reconnect sock conn c w = Rearmed c' w'
          /\ fd (svc c') = d
          /\ trace w' = trace w ++ [EvClose d; arm])
  /\ (forall d,
        sock = SysOk d -> d <> -1 -> sys_failed conn = false ->
        handshake_refused w = true ->
        exists c' w' sent,
          try_reconnect sock conn c w = Rearmed c' w'
          /\ fd (svc c') = d
          /\ trace w' = trace w ++ sent ++ [EvClose d; arm]
          /\ short_write d sent)
  /\ (forall c' w',
        try_reconnect sock conn c w = Rearmed c' w' ->
        timer_expire w' = Some (clock_ms w + 1000)
        /\ fd_handlers w' = fd_handlers w
        /\ recv_in w' = recv_in w
        /\ c' = set_fd c (fd (svc c'))).
Proof.
  intros arm. split; [|split; [|split]].
  - intros Hs. unfold try_reconnect, rearm.
    destruct sock as [d|e]; cbn [sys_failed] in Hs.
    + apply Z.eqb_eq in Hs. subst d. cbn [v4v_socket].
      rewrite Z.eqb_refl. eexists. eexists.
      split; [reflexivity|]. split; reflexivity.
    + cbn [v4v_socket]. rewrite Z.eqb_refl. eexists. eexists.
      split; [reflexivity|]. split; reflexivity.
  - intros d -> Hd Hc. unfold try_reconnect, rearm. cbn [v4v_socket].
    destruct (Z.eqb_spec d (-1)) as [?|_]; [contradiction|].
    destruct conn as [rc|e]; cbn [sys_failed] in Hc.
    + apply Z.eqb_eq in Hc. subst rc. cbn [v4v_connect].
      rewrite Z.eqb_refl. eexists. eexists.
      split; [reflexivity|]. split; [reflexivity|].
      cbn. rewrite <- app_assoc. reflexivity.
    + cbn [v4v_connect]. rewrite Z.eqb_refl. eexists. eexists.
      split; [reflexivity|]. split; [reflexivity|].
      cbn. rewrite <- app_assoc. reflexivity.
  - intros d -> Hd Hc Hr. unfold try_reconnect, rearm. cbn [v4v_socket].
    destruct (Z.eqb_spec d (-1)) as [?|_]; [contradiction|].
    destruct conn as [rc|e]; cbn [sys_failed] in Hc; [|discriminate].
    cbn [v4v_connect]. rewrite Hc.
    destruct (v4v_send_refused d (prologue_bytes (prologue (set_fd c d))) w
                Hr) as (Hne & sent & Htr & Hshort & _).
    pose proof (v4v_send_effects d (prologue_bytes (prologue (set_fd c d))) w)
      as Heff.
    destruct (v4v_send d (prologue_bytes (prologue (set_fd c d))) w)
      as [rc2 w2].
    cbn [fst snd] in *. destruct Heff as (_ & _ & Hc2 & _).
    destruct (Z.eqb_spec rc2 sizeof_prologue) as [?|_]; [contradiction|].
    cbn [negb]. eexists. eexists. exists sent.
    split; [reflexivity|]. split; [reflexivity|]. split; [|exact Hshort].
    cbn [trace qemu_mod_timer qemu_get_clock_ms v4v_close emit set_timer
         clock_ms].
    unfold arm. rewrite Htr, Hc2, <- !app_assoc. reflexivity.
  - intros c' w' H.
    destruct (try_reconnect_rearmed sock conn c c' w w' H)
      as (H1 & H2 & H3 & H4 & _).
    split; [exact H1|]. split; [exact H2|]. split; [exact H3|exact H4].
Qed.

Lemma reconnect_failure_rearms_witness :
  exists c' w',
    try_reconnect (SysOk 4) (SysErr 111)
      {| svc := service_of [];
         peer := {| port := 0; domain := 0 |};
         prologue := {| prologue_domain := 0; prologue_type := 0;
                        hash := repeat x00 20 |} |}
      (world_of [] []) = Rearmed c' w'
    /\ fd (svc c') = 4
    /\ trace w'
       = trace (world_of [] [])
         ++ [EvClose 4; EvModTimer (clock_ms (world_of [] []) + 1000)].
Proof.
  assert (Hd : 4 <> -1) by lia.
  exact (proj1 (proj2
           (reconnect_failure_rearms (SysOk 4) (SysErr 111)
              {| svc := service_of [];
                 peer := {| port := 0; domain := 0 |};
                 prologue := {| prologue_domain := 0; prologue_type := 0;
                                hash := repeat x00 20 |} |}
              (world_of [] [])))
           4 eq_refl Hd eq_refl).
Defined.

(** X12.  A successful [try_reconnect] (the 20-byte fingerprint being in
    place) created the descriptor [d], wrote the handshake of the service,
    all of its 28 bytes in one write and as the first bytes on [d], and
    then registered the read handler for [d], in that order and doing
    nothing else; the consumer's [reconnect] callback was called exactly
    when its slot is set.  The timer, which fired, is not armed again and
    no field of the service but [fd] changed: the bytes accumulated on
    the old connection are still in the buffer. *)
Theorem reconnect_success_registers (sock conn : sys_result)
  (c c' : connection) (w w' : world) (notified : bool) :
  length (hash (prologue c)) = 20%nat ->
  try_reconnect sock conn c w = Reconnected notified c' w' ->
  let d := fd (svc c') in
  sock = SysOk d /\ d <> -1
  /\ c' = set_fd c d
  /\ ops (svc c) <> None
  /\ (forall o, ops (svc c) = Some o -> notified = reconnect o)
  /\ trace w'
     = trace w ++ [ EvSend d (prologue_bytes (prologue c));
                    EvSetFdHandler d true ]
  /\ In d (fd_handlers w')
  /\ timer_expire w' = timer_expire w
  /\ recv_in w' = recv_in w.
Proof.
  unfold try_reconnect, rearm. intros Hh H.
  destruct sock as [d|e]; cbn [v4v_socket] in H; [|discriminate].
  destruct (Z.eqb_spec d (-1)) as [->|Hd]; [discriminate|].
  assert (Hconn : exists rc w1,
             v4v_connect conn d (peer (set_fd c d)) w = (rc, w1)
             /\ timer_expire w1 = timer_expire w
             /\ recv_in w1 = recv_in w
             /\ trace w1 = trace w).
  { destruct conn; cbn; eexists; eexists; repeat split. }
  destruct Hconn as (rc & w1 & E & Ht1 & Hr1 & Htr1).
  rewrite E in H.
  destruct (Z.eqb_spec rc (-1)) as [->|Hrc]; [discriminate|].
  pose proof (v4v_send_effects d (prologue_bytes (prologue (set_fd c d))) w1)
    as Hsend.
  destruct (v4v_send d (prologue_bytes (prologue (set_fd c d))) w1)
    as [rc2 w2].
  cbn [fst snd] in Hsend.
  destruct Hsend as (Ht2 & _ & _ & Hr2 & Htr2).
  destruct (Z.eqb_spec rc2 sizeof_prologue) as [->|Hrc2]; cbn [negb] in H;
    [|discriminate].
  cbn [set_fd svc ops prologue] in *.
  destruct (ops (svc c)) as [o|] eqn:Ho; [|discriminate].
  inversion H; subst; clear H. cbn -[prologue_bytes].
  split; [reflexivity|]. split; [exact Hd|]. split; [reflexivity|].
  split; [discriminate|]. split; [intros o' Ho'; congruence|].
  split.
  - destruct Htr2 as [[F _]|[_ Htr2]]; [discriminate F|].
    rewrite Htr2, Htr1, <- app_assoc.
    rewrite <- (length_prologue_bytes (prologue c) Hh), Nat2Z.id, firstn_all.
    reflexivity.
  - split; [left; reflexivity|]. split; congruence.
Qed.

Lemma reconnect_success_registers_witness :
  exists c' w',
    try_reconnect (SysOk 4) (SysOk 0)
      {| svc := service_of [x01; x00];
         peer := {| port := 0; domain := 0 |};
         prologue := {| prologue_domain := 7; prologue_type := 2;
                        hash := repeat xab 20 |} |}
      (world_of [] [SendRoom 64]) = Reconnected true c' w'
    /\ fd (svc c') = 4 /\ len (svc c') = 2
    /\ In 4 (fd_handlers w')
    /\ sent_bytes (trace w')
       = [x07; x00; x00; x00; x02; x00; x00; x00] ++ repeat xab 20.
Proof.
  eexists. eexists. split; [reflexivity|]. split; [reflexivity|].
  split; [reflexivity|].
  split.
  - exact (proj1 (proj2 (proj2 (proj2 (proj2 (proj2 (proj2
             (reconnect_success_registers (SysOk 4) (SysOk 0)
                {| svc := service_of [x01; x00];
                   peer := {| port := 0; domain := 0 |};
                   prologue := {| prologue_domain := 7; prologue_type := 2;
                                  hash := repeat xab 20 |} |}
                _ (world_of [] [SendRoom 64]) _ true eq_refl eq_refl)))))))).
  - reflexivity.
Defined.

(** X13.  [try_reconnect] reads [s->ops->reconnect] without the test on
    [s->ops] that [handle_message] starts with: for a service connected
    with no capability table, an attempt whose handshake goes through
    leaves the objects of the program (a read through NULL), and that is
    the only way it does; with a table, every attempt ends re-arming or
    reconnected. *)
Theorem reconnect_needs_table (sock conn : sys_result) (c : connection)
  (w : world) :
  (try_reconnect sock conn c w = ReconnectUndefined -> ops (svc c) = None)
  /\ (forall d rc,
        ops (svc c) = None ->
        sock = SysOk d -> d <> -1 -> conn = SysOk rc -> rc <> -1 ->
        length (hash (prologue c)) = 20%nat ->
        send_in w = [] ->
        try_reconnect sock conn c w = ReconnectUndefined).
Proof.
  split.
  - unfold try_reconnect, rearm.
    destruct (v4v_socket sock w) as [d w0].
    destruct (d =? -1); [discriminate|].
    destruct (v4v_connect conn d (peer (set_fd c d)) w0) as [rc w1].
    destruct (rc =? -1); [discriminate|].
    destruct (v4v_send d (prologue_bytes (prologue (set_fd c d))) w1)
      as [rc2 w2].
    destruct (negb (rc2 =? sizeof_prologue)); [discriminate|].
    cbn [set_fd svc ops].
    destruct (ops (svc c)); [discriminate|reflexivity].
  - intros d rc Ho -> Hd -> Hrc Hh Hs.
    unfold try_reconnect. cbn [v4v_socket v4v_connect].
    destruct (Z.eqb_spec d (-1)) as [?|_]; [contradiction|].
    destruct (Z.eqb_spec rc (-1)) as [?|_]; [contradiction|].
    unfold v4v_send. rewrite Hs. cbn [set_fd prologue svc ops].
    rewrite (length_prologue_bytes _ Hh), Z.eqb_refl, Ho. reflexivity.
Qed.

Lemma reconnect_needs_table_witness :
  try_reconnect (SysOk 4) (SysOk 0)
    {| svc := {| fd := 3; ops := None; buff := buffer_of []; len := 0 |};
       peer := {| port := 0; domain := 0 |};
       prologue := {| prologue_domain := 7; prologue_type := 2;
                      hash := repeat xab 20 |} |}
    (world_of [] [])
  = ReconnectUndefined.
Proof.
  assert (Hd : 4 <> -1) by lia.
  assert (Hrc : 0 <> -1) by lia.
  exact (proj2 (reconnect_needs_table (SysOk 4) (SysOk 0)
                  {| svc := {| fd := 3; ops := None; buff := buffer_of [];
                               len := 0 |};
                     peer := {| port := 0; domain := 0 |};
                     prologue := {| prologue_domain := 7; prologue_type := 2;
                                    hash := repeat xab 20 |} |}
                  (world_of [] []))
           4 0 eq_refl eq_refl Hd eq_refl Hrc eq_refl eq_refl).
Defined.

(** X14.  One turn of the reconnection cycle.  The service is connected
    (timer idle) and the peer closes: the read handler sees the
    zero-length read, and within that one call the handler is
    unregistered, the descriptor closed and the timer armed one second
    ahead.  The timer does not fire before that time.  When it fires and
    the transport is available again, [try_reconnect] creates the
    descriptor [d], sends the handshake of the service on it and registers
    the read handler for [d]; the timer is idle again, what the
    connection still held is untouched, and the buffer of the service is
    as it was when the peer closed. *)
Theorem reconnect_cycle (cfg : dmbus_config) (fuel : nat) (c : connection)
  (w : world) (q : list recv_result) (o : dmbus_ops) (d rc now : Z) :
  recv_in w = RecvClosed :: q ->
  timer_expire w = None ->
  send_in w = [] ->
  ops (svc c) = Some o ->
  length (hash (prologue c)) = 20%nat ->
  d <> -1 -> rc <> -1 ->
  let s := svc c in
  let down := [ EvSetFdHandler (fd s) false; EvClose (fd s);
                EvLog LogDisconnected; EvModTimer (clock_ms w + 1000) ] in
  exists w1,
    dmbus_fd_handler cfg (S fuel) s w = Ret tt s w1
    /\ trace w1 = trace w ++ down
    /\ ~ In (fd s) (fd_handlers w1)
    /\ timer_expire w1 = Some (clock_ms w + 1000)
    /\ (forall sock conn,
          now < clock_ms w + 1000 -> run_timer now sock conn c w1 = None)
    /\ (clock_ms w + 1000 <= now ->
        exists w2,
          run_timer now (SysOk d) (SysOk rc) c w1
          = Some (Reconnected (reconnect o) (set_fd c d) w2)
          /\ trace w2
             = trace w ++ down
               ++ [ EvSend d (prologue_bytes (prologue c));
                    EvSetFdHandler d true ]
          /\ In d (fd_handlers w2)
          /\ timer_expire w2 = None
          /\ recv_in w2 = q).
Proof.
  intros Hq Ht Hs Ho Hh Hd Hrc s down.
  exists (handle_disconnect s (set_recv_in q w)).
  split.
  { unfold dmbus_fd_handler.
    rewrite (fd_read_zero cfg fuel s w (set_recv_in q w) []);
      [reflexivity|].
    unfold v4v_recv. rewrite Hq. reflexivity. }
  unfold handle_disconnect, qemu_timer_pending.
  cbn [set_recv_in timer_expire]. rewrite Ht.
  cbn -[prologue_bytes remove_fd].
  split; [rewrite <- !app_assoc; reflexivity|].
  split.
  { unfold remove_fd. intros H. apply filter_In in H. destruct H as [_ H].
    rewrite Z.eqb_refl in H. discriminate. }
  split; [reflexivity|].
  split.
  { intros sock conn Hnow. unfold run_timer. cbn [timer_expire].
    destruct (Z.leb_spec (clock_ms w + 1000) now); [lia|reflexivity]. }
  intros Hnow. unfold run_timer. cbn [timer_expire].
  destruct (Z.leb_spec (clock_ms w + 1000) now); [|lia].
  unfold try_reconnect. cbn [v4v_socket v4v_connect].
  destruct (Z.eqb_spec d (-1)) as [?|_]; [contradiction|].
  destruct (Z.eqb_spec rc (-1)) as [?|_]; [contradiction|].
  unfold v4v_send. cbn -[prologue_bytes remove_fd]. rewrite Hs.
  rewrite (length_prologue_bytes _ Hh), Z.eqb_refl. cbn [negb]. rewrite Ho.
  eexists. split; [reflexivity|].
  cbn -[prologue_bytes remove_fd].
  split; [rewrite <- !app_assoc; reflexivity|].
  split; [left; reflexivity|]. split; reflexivity.
Qed.

Lemma reconnect_cycle_witness :
  exists w1 w2,
    dmbus_fd_handler example_cfg 1 (service_of [x01; x00])
      (world_of [RecvClosed; RecvBytes [x05]] [])
    = Ret tt (service_of [x01; x00]) w1
    /\ timer_expire w1 = Some 6000
    /\ run_timer 6000 (SysOk 4) (SysOk 0)
         {| svc := service_of [x01; x00];
            peer := {| port := 0; domain := 0 |};
            prologue := {| prologue_domain := 7; prologue_type := 2;
                           hash := repeat xab 20 |} |} w1
       = Some (Reconnected true
                 (set_fd {| svc := service_of [x01; x00];
                            peer := {| port := 0; domain := 0 |};
                            prologue := {| prologue_domain := 7;
                                           prologue_type := 2;
                                           hash := repeat xab 20 |} |} 4)
                 w2)
    /\ In 4 (fd_handlers w2)
    /\ recv_in w2 = [RecvBytes [x05]].
Proof.
  assert (Hd : 4 <> -1) by lia.
  assert (Hrc : 0 <> -1) by lia.
  destruct (reconnect_cycle example_cfg 0
              {| svc := service_of [x01; x00];
                 peer := {| port := 0; domain := 0 |};
                 prologue := {| prologue_domain := 7; prologue_type := 2;
                                hash := repeat xab 20 |} |}
              (world_of [RecvClosed; RecvBytes [x05]] [])
              [RecvBytes [x05]] all_ops 4 0 6000
              eq_refl eq_refl eq_refl eq_refl eq_refl Hd Hrc)
    as (w1 & H1 & _ & _ & H4 & _ & H6).
  destruct (H6 ltac:(cbn; lia)) as (w2 & H7 & _ & H9 & _ & H11).
  exists w1, w2.
  split; [exact H1|]. split; [exact H4|]. split; [exact H7|].
  split; [exact H9|exact H11].
Defined.

(* ================================================================== *)
(** ** Connecting *)

(** However [dmbus_service_connect] came to return NULL. *)
Lemma connect_failed_post (cfg : dmbus_config) (base : Z)
  (sha1 : list byte) (domid : Z) (calloc_ok : bool) (sock conn : sys_result)
  (service devtype : Z) (ops_ : option dmbus_ops) (w w' : world)
  (log : option connect_log) :
  dmbus_service_connect cfg base sha1 domid calloc_ok sock conn service
    devtype ops_ w = ConnectFailed log w' ->
  fd_handlers w' = fd_handlers w
  /\ timer_expire w' = timer_expire w
  /\ recv_in w' = recv_in w
  /\ match log with
     | None => calloc_ok = false /\ w' = w
     | Some (LogSocketFailed e) =>
         e = errno w' /\ trace w' = trace w ++ [EvFree]
     | Some (LogConnectFailed e) =>
         e = errno w'
         /\ exists d, sock = SysOk d /\ d <> -1
                      /\ trace w' = trace w ++ [EvClose d; EvFree]
     | Some (LogInitFailed e) =>
         e = errno w'
         /\ exists d, sock = SysOk d /\ d <> -1
            /\ (trace w' = trace w ++ [EvClose d; EvFree]
                \/ exists bs,
                     Z.of_nat (length bs) <> sizeof_prologue
                     /\ trace w' = trace w ++ [EvSend d bs; EvClose d; EvFree])
     end.
Proof.
  unfold dmbus_service_connect. intros H.
  destruct calloc_ok; cbn [negb] in H.
  2:{ inversion H; subst. repeat split. }
  destruct sock as [d|e]; cbn [v4v_socket] in H.
  2:{ cbn in H. inversion H; subst; clear H. cbn. repeat split. }
  destruct (Z.eqb_spec d (-1)) as [->|Hd].
  { inversion H; subst; clear H. cbn. repeat split. }
  match type of H with
  | context [v4v_connect conn d ?a w] =>
      assert (Hconn : exists rc w1,
                 v4v_connect conn d a w = (rc, w1)
                 /\ timer_expire w1 = timer_expire w
                 /\ fd_handlers w1 = fd_handlers w
                 /\ recv_in w1 = recv_in w
                 /\ trace w1 = trace w)
        by (destruct conn; cbn; eexists; eexists; repeat split)
  end.
  destruct Hconn as (rc & w1 & E & Ht1 & Hh1 & Hr1 & Htr1).
  rewrite E in H.
  destruct (Z.eqb_spec rc (-1)) as [->|Hrc].
  { inversion H; subst; clear H. cbn.
    rewrite Hh1, Ht1, Hr1, Htr1. repeat split.
    exists d. split; [reflexivity|]. split; [exact Hd|].
    rewrite <- app_assoc. reflexivity. }
  match type of H with
  | context [fill_hash ?a ?b] => destruct (fill_hash a b) as [h|]
  end; [|discriminate].
  match type of H with
  | context [v4v_send d ?bs w1] =>
      pose proof (v4v_send_effects d bs w1) as Hsend;
      destruct (v4v_send d bs w1) as [rc2 w2]
  end.
  cbn [fst snd] in Hsend.
  destruct Hsend as (Ht2 & Hh2 & _ & Hr2 & Htr2).
  destruct (Z.eqb_spec rc2 sizeof_prologue) as [->|Hrc2]; cbn [negb] in H;
    [discriminate|].
  inversion H; subst; clear H. cbn -[prologue_bytes].
  rewrite Hh2, Hh1, Ht2, Ht1, Hr2, Hr1. repeat split.
  exists d. split; [reflexivity|]. split; [exact Hd|].
  destruct Htr2 as [[_ Htr2]|[Hrange Htr2]]; rewrite Htr2, Htr1.
  - left. rewrite <- app_assoc. reflexivity.
  - right. eexists. split; [|rewrite <- !app_assoc; reflexivity].
    rewrite length_firstn. lia.
Qed.

(** X15.  Whichever step of [dmbus_service_connect] fails, it returns
    NULL and leaves nothing behind.  A failed [calloc] is not logged and
    nothing at all is done.  When [v4v_socket] fails, the line of that
    step is logged with the [errno] it left and the service is freed; no
    descriptor exists, none is closed.  When [v4v_connect] fails on the
    descriptor [d], the line of that step is logged, [d] is closed and
    then the service is freed.  When the transport does not take the 28
    bytes of the handshake, the line of that step is logged, [d] is closed
    and then the service is freed, after at most one write of fewer than
    28 bytes.  And however the call came to return NULL, no read handler
    is registered, no timer is armed and nothing is read from the
    connection. *)
Theorem connect_failure_releases (cfg : dmbus_config) (base : Z)
  (sha1 : list byte) (domid : Z) (sock conn : sys_result)
  (srv devtype : Z) (ops_ : option dmbus_ops) (w : world) :
  let connect calloc_ok :=
    dmbus_service_connect cfg base sha1 domid calloc_ok sock conn srv
      devtype ops_ w in
  connect false = ConnectFailed None w
  /\ (sys_failed sock = true ->
      exists w',
        connect true = ConnectFailed (Some (LogSocketFailed (errno w'))) w'
        /\ trace w' = trace w ++ [EvFree]
        /\ forall e, sock = SysErr e -> errno w' = e)
  /\ (forall d,
        sock = SysOk d -> d <> -1 -> sys_failed conn = true ->
        exists w',
          connect true
          = ConnectFailed (Some (LogConnectFailed (errno w'))) w'
          /\ trace w' = trace w ++ [EvClose d; EvFree]
          /\ forall e, conn = SysErr e -> errno w' = e)
  /\ (forall d upper bs rest,
        sock = SysOk d -> d <> -1 -> sys_failed conn = false ->
        sha1 = to_hex upper bs ++ rest -> length bs = 20%nat ->
        handshake_refused w = true ->
        exists w' sent,
          connect true = ConnectFailed (Some (LogInitFailed (errno w'))) w'
          /\ trace w' = trace w ++ sent ++ [EvClose d; EvFree]
          /\ short_write d sent
          /\ forall e q, send_in w = SendErr e :: q -> errno w' = e)
  /\ (forall calloc_ok log w',
        connect calloc_ok = ConnectFailed log w' ->
        fd_handlers w' = fd_handlers w
        /\ timer_expire w' = timer_expire w
        /\ recv_in w' = recv_in w).
Proof.
  intros connect. unfold connect. clear connect.
  split; [reflexivity|]. split; [|split; [|split]].
  - intros Hs. unfold dmbus_service_connect. cbn [negb].
    destruct sock as [d|e]; cbn [sys_failed] in Hs.
    + apply Z.eqb_eq in Hs. subst d. cbn [v4v_socket].
      rewrite Z.eqb_refl. exists (free_service w).
      split; [reflexivity|]. split; [reflexivity|]. intros e F. discriminate.
    + cbn [v4v_socket]. rewrite Z.eqb_refl.
      exists (free_service (set_errno e w)).
      split; [reflexivity|]. split; [reflexivity|].
      intros e' F. inversion F. reflexivity.
  - intros d -> Hd Hc. unfold dmbus_service_connect.
    cbn [negb v4v_socket].
    destruct (Z.eqb_spec d (-1)) as [?|_]; [contradiction|].
    destruct conn as [rc|e]; cbn [sys_failed] in Hc.
    + apply Z.eqb_eq in Hc. subst rc. cbn [v4v_connect].
      rewrite Z.eqb_refl. exists (free_service (v4v_close d w)).
      split; [reflexivity|].
      split; [cbn; rewrite <- app_assoc; reflexivity|].
      intros e F. discriminate.
    + cbn [v4v_connect]. rewrite Z.eqb_refl.
      exists (free_service (v4v_close d (set_errno e w))).
      split; [reflexivity|].
      split; [cbn; rewrite <- app_assoc; reflexivity|].
      intros e' F. inversion F. reflexivity.
  - intros d upper bs rest -> Hd Hc -> Hbs Hr.
    unfold dmbus_service_connect. cbn [negb v4v_socket].
    destruct (Z.eqb_spec d (-1)) as [?|_]; [contradiction|].
    destruct conn as [rc|e]; cbn [sys_failed] in Hc; [|discriminate].
    cbn [v4v_connect]. rewrite Hc.
    assert (Hfh : fill_hash (to_hex upper bs ++ rest) (repeat x00 20)
                  = Some bs).
    { unfold fill_hash. rewrite <- Hbs at 1.
      rewrite (fill_hash_from_hex upper rest bs 0 _ (repeat x00 20))
        by (try reflexivity; rewrite repeat_length; cbn [Nat.add]; lia).
      cbn [firstn app Nat.add]. rewrite Hbs.
      replace (skipn 20 (repeat x00 20)) with (@nil byte) by reflexivity.
      rewrite app_nil_r. reflexivity. }
    cbn [calloc_service set_fd set_peer prologue hash].
    rewrite Hfh.
    cbn [set_prologue prologue svc peer].
    match goal with
    | |- context [v4v_send d ?hs w] =>
        destruct (v4v_send_refused d hs w Hr)
          as (Hne & sent & Htr & Hshort & Herr);
        destruct (v4v_send d hs w) as [rc2 w2]
    end.
    cbn [fst snd] in *.
    destruct (Z.eqb_spec rc2 sizeof_prologue) as [?|_]; [contradiction|].
    cbn [negb]. exists (free_service (v4v_close d w2)), sent.
    split; [reflexivity|].
    cbn [trace errno free_service v4v_close emit].
    split; [rewrite Htr, <- !app_assoc; reflexivity|].
    split; [exact Hshort|exact Herr].
  - intros calloc_ok log w' H.
    destruct (connect_failed_post cfg base sha1 domid calloc_ok sock conn
                srv devtype ops_ w w' log H) as (H1 & H2 & H3 & _).
    split; [exact H1|]. split; [exact H2|exact H3].
Qed.

Lemma connect_failure_releases_witness :
  exists w' sent,
    dmbus_service_connect example_cfg 5555
      (to_hex false (repeat xab 20) ++ []) 7 true (SysOk 4) (SysOk 0) 1 2
      (Some all_ops) (world_of [] [SendRoom 10])
    = ConnectFailed (Some (LogInitFailed (errno w'))) w'
    /\ trace w'
       = trace (world_of [] [SendRoom 10]) ++ sent ++ [EvClose 4; EvFree]
    /\ short_write 4 sent
    /\ forall e q,
         send_in (world_of [] [SendRoom 10]) = SendErr e :: q ->
         errno w' = e.
Proof.
  assert (Hd : 4 <> -1) by lia.
  assert (Hr : handshake_refused (world_of [] [SendRoom 10]) = true)
    by reflexivity.
  exact (proj1 (proj2 (proj2 (proj2
           (connect_failure_releases example_cfg 5555
              (to_hex false (repeat xab 20) ++ []) 7 (SysOk 4) (SysOk 0)
              1 2 (Some all_ops) (world_of [] [SendRoom 10])))))
           4 false (repeat xab 20) [] eq_refl Hd eq_refl eq_refl eq_refl Hr).
Defined.

Lemma connect_good (cfg : dmbus_config) (base : Z) (upper : bool)
  (bs rest : list byte) (domid d rc service devtype : Z)
  (ops_ : option dmbus_ops) (w : world) :
  length bs = 20%nat ->
  d <> -1 -> rc <> -1 ->
  send_in w = [] ->
  let p := {| prologue_domain := domid; prologue_type := devtype;
              hash := bs |} in
  dmbus_service_connect cfg base (to_hex upper bs ++ rest) domid true
    (SysOk d) (SysOk rc) service devtype ops_ w
  = Connected
      {| svc := {| fd := d; ops := ops_;
                   buff := repeat x00 (Z.to_nat (DMBUS_MAX_MSG_LEN cfg));
                   len := 0 |};
         peer := {| port := base + service; domain := 0 |};
         prologue := p |}
      (qemu_set_fd_handler d true
         (qemu_new_timer_ms (emit (EvSend d (prologue_bytes p)) w))).
Proof.
  intros Hbs Hd Hrc Hs p. unfold dmbus_service_connect.
  cbn [negb v4v_socket v4v_connect].
  destruct (Z.eqb_spec d (-1)) as [?|_]; [contradiction|].
  destruct (Z.eqb_spec rc (-1)) as [?|_]; [contradiction|].
  unfold fill_hash. rewrite <- Hbs at 1.
  cbn [calloc_service set_fd set_peer prologue hash].
  rewrite (fill_hash_from_hex upper rest bs 0 _ (repeat x00 20))
    by (try reflexivity; rewrite repeat_length; cbn [Nat.add]; lia).
  cbn [firstn app Nat.add]. rewrite Hbs.
  replace (skipn 20 (repeat x00 20)) with (@nil byte) by reflexivity.
  rewrite app_nil_r.
  unfold v4v_send. rewrite Hs.
  cbn [set_prologue prologue svc peer].
  fold p.
  rewrite (length_prologue_bytes p) by exact Hbs.
  rewrite Z.eqb_refl. reflexivity.
Qed.

(** X16.  [dmbus_service_connect] on a transport that accepts the
    connection and the handshake, the fingerprint string being forty
    hexadecimal digits, returns a service that is ready to receive: an
    empty buffer of [DMBUS_MAX_MSG_LEN] bytes, the descriptor and the
    capability table it was given.  On the way it wrote exactly the
    handshake, as the first bytes on the descriptor and in one write:
    [xen_domid], the device type and the twenty bytes the string
    denotes; then it registered the read handler.  The reconnection timer
    exists and is not armed, nothing was logged, and nothing was read
    from the connection. *)
Theorem connect_registers (cfg : dmbus_config) (base : Z) (upper : bool)
  (bs rest : list byte) (domid d rc service devtype : Z)
  (ops_ : option dmbus_ops) (w : world) :
  0 <= DMBUS_MAX_MSG_LEN cfg ->
  length bs = 20%nat ->
  d <> -1 -> rc <> -1 ->
  send_in w = [] ->
  exists c w',
    dmbus_service_connect cfg base (to_hex upper bs ++ rest) domid true
      (SysOk d) (SysOk rc) service devtype ops_ w = Connected c w'
    /\ buffer_ok cfg (svc c) /\ len (svc c) = 0
    /\ fd (svc c) = d /\ ops (svc c) = ops_
    /\ hash (prologue c) = bs
    /\ trace w'
       = trace w
         ++ [ EvSend d (bytes_of_u32 (to_uint32 domid)
                        ++ bytes_of_u32 (to_uint32 devtype) ++ bs);
              EvSetFdHandler d true ]
    /\ In d (fd_handlers w')
    /\ timer_expire w' = None
    /\ recv_in w' = recv_in w.
Proof.
  intros Hmax Hbs Hd Hrc Hs.
  eexists. eexists.
  split; [apply (connect_good cfg base upper bs rest); assumption|].
  cbn [svc len fd ops buff prologue hash trace fd_handlers timer_expire
       recv_in qemu_set_fd_handler qemu_new_timer_ms emit set_timer
       set_fd_handlers prologue_bytes prologue_domain prologue_type].
  split.
  { split; [apply repeat_length|cbn [svc len]; lia]. }
  split; [reflexivity|]. split; [reflexivity|]. split; [reflexivity|].
  split; [reflexivity|]. split; [rewrite <- app_assoc; reflexivity|].
  split; [left; reflexivity|]. split; reflexivity.
Qed.

Lemma connect_registers_witness :
  exists c w',
    dmbus_service_connect example_cfg 5555
      (to_hex false (repeat xab 20) ++ []) 7 true
      (SysOk 4) (SysOk 0) 1 2 (Some all_ops) (world_of [] [])
    = Connected c w'
    /\ buffer_ok example_cfg (svc c) /\ len (svc c) = 0
    /\ fd (svc c) = 4 /\ ops (svc c) = Some all_ops
    /\ hash (prologue c) = repeat xab 20
    /\ trace w'
       = trace (world_of [] [])
         ++ [ EvSend 4 (bytes_of_u32 (to_uint32 7)
                        ++ bytes_of_u32 (to_uint32 2) ++ repeat xab 20);
              EvSetFdHandler 4 true ]
    /\ In 4 (fd_handlers w')
    /\ timer_expire w' = None
    /\ recv_in w' = recv_in (world_of [] []).
Proof.
  assert (Hmax : 0 <= DMBUS_MAX_MSG_LEN example_cfg) by (cbn; lia).
  assert (Hd : 4 <> -1) by lia.
  assert (Hrc : 0 <> -1) by lia.
  exact (connect_registers example_cfg 5555 false (repeat xab 20) [] 7 4 0
           1 2 (Some all_ops) (world_of [] []) Hmax eq_refl Hd Hrc eq_refl).
Defined.

(** X17.  From connecting to dispatching.  The service returned by
    [dmbus_service_connect] is given to the main loop; the peer then
    sends the whole messages [fs], split into reads in any way.  The read
    handler, called while the descriptor is readable, hands every message
    of [fs] to [handle_message] under the capability table that was given
    to [dmbus_service_connect], once each and in order, and ends with an
    empty buffer. *)
Theorem connected_service_dispatches (cfg : dmbus_config) (base : Z)
  (upper : bool) (bs rest : list byte) (domid d rc service devtype : Z)
  (ops_ : option dmbus_ops) (w : world) (fs : list (list byte))
  (fuel n : nat) :
  config_ok cfg ->
  length bs = 20%nat ->
  d <> -1 -> rc <> -1 ->
  send_in w = [] ->
  Forall delivers (recv_in w) ->
  data_last (recv_in w) ->
  Forall (message_ok cfg) fs ->
  pending (recv_in w) = concat fs ->
  (reads_left w <= n)%nat ->
  (reads_left w < fuel)%nat ->
  exists c w1 s' w',
    dmbus_service_connect cfg base (to_hex upper bs ++ rest) domid true
      (SysOk d) (SysOk rc) service devtype ops_ w = Connected c w1
    /\ fd_handler_runs cfg fuel n (svc c) w1 = Ret tt s' w'
    /\ trace w' = trace w1 ++ flat_map (dispatch_of cfg ops_) fs
    /\ len s' = 0
    /\ recv_in w' = [].
Proof.
  intros Hcfg Hbs Hd Hrc Hs Hdel Hl Hfs Hp Hn Hf.
  pose proof (sizeof_hdr_pos cfg Hcfg) as Hpos.
  pose proof (ok_hdr_fits cfg Hcfg) as Hfit.
  pose proof (connect_good cfg base upper bs rest domid d rc service devtype
                ops_ w Hbs Hd Hrc Hs) as Hconn.
  cbv zeta in Hconn.
  match type of Hconn with
  | _ = Connected ?c ?w1 =>
      exists c, w1;
      destruct (runs_all cfg Hcfg fuel n (svc c) w1 fs)
        as (s' & w' & Hrun & Htr & Hlen & Hq & _)
  end.
  - split; [apply repeat_length|]. cbn [svc len]. lia.
  - unfold frame_complete. cbn [svc len].
    rewrite to_size_t_small by lia.
    destruct (Z.leb_spec (sizeof_hdr cfg) 0); [lia|reflexivity].
  - left. reflexivity.
  - exact Hdel.
  - exact Hl.
  - exact Hfs.
  - unfold stream, valid_bytes. cbn [svc len buff Z.to_nat firstn app].
    exact Hp.
  - unfold work_left. cbn [svc len Z.to_nat Nat.add]. exact Hn.
  - unfold work_left. cbn [svc len Z.to_nat Nat.add]. exact Hf.
  - exists s', w'.
    split; [exact Hconn|].
    split; [exact Hrun|]. split; [exact Htr|]. split; assumption.
Qed.

Lemma connected_service_dispatches_witness :
  exists c w1 s' w',
    dmbus_service_connect example_cfg 5555
      (to_hex false (repeat xab 20) ++ []) 7 true
      (SysOk 4) (SysOk 0) 1 2 (Some all_ops)
      (world_of [ RecvBytes [x01; x00; x00; x00; x0a]; RecvErr EINTR;
                  RecvBytes [x00; x00; x00; x61; x62; x05; x00; x00; x00;
                             x09; x00; x00; x00; x63] ] [])
    = Connected c w1
    /\ fd_handler_runs example_cfg 40 30 (svc c) w1 = Ret tt s' w'
    /\ trace w'
       = trace w1
         ++ flat_map (dispatch_of example_cfg (Some all_ops))
              [frame 1 [x61; x62]; frame 5 [x63]]
    /\ len s' = 0
    /\ recv_in w' = [].
Proof.
  assert (Hd : 4 <> -1) by lia.
  assert (Hrc : 0 <> -1) by lia.
  assert (Hdel : Forall delivers
                   (recv_in
                      (world_of [ RecvBytes [x01; x00; x00; x00; x0a];
                                  RecvErr EINTR;
                                  RecvBytes [x00; x00; x00; x61; x62; x05;
                                             x00; x00; x00; x09; x00; x00;
                                             x00; x63] ] []))).
  { repeat constructor; discriminate. }
  assert (Hl : data_last
                 (recv_in
                    (world_of [ RecvBytes [x01; x00; x00; x00; x0a];
                                RecvErr EINTR;
                                RecvBytes [x00; x00; x00; x61; x62; x05;
                                           x00; x00; x00; x09; x00; x00;
                                           x00; x63] ] []))).
  { right.
    exists [RecvBytes [x01; x00; x00; x00; x0a]; RecvErr EINTR],
           [x00; x00; x00; x61; x62; x05; x00; x00; x00; x09; x00; x00;
            x00; x63].
    split; [reflexivity|discriminate]. }
  assert (Hfs : Forall (message_ok example_cfg)
                  [frame 1 [x61; x62]; frame 5 [x63]]).
  { repeat constructor; apply frame_message_ok; cbn; lia. }
  assert (Hp : pending
                 (recv_in
                    (world_of [ RecvBytes [x01; x00; x00; x00; x0a];
                                RecvErr EINTR;
                                RecvBytes [x00; x00; x00; x61; x62; x05;
                                           x00; x00; x00; x09; x00; x00;
                                           x00; x63] ] []))
               = concat [frame 1 [x61; x62]; frame 5 [x63]])
    by (vm_compute; reflexivity).
  assert (Hn : (reads_left
                  (world_of [ RecvBytes [x01; x00; x00; x00; x0a];
                              RecvErr EINTR;
                              RecvBytes [x00; x00; x00; x61; x62; x05;
                                         x00; x00; x00; x09; x00; x00;
                                         x00; x63] ] []) <= 30)%nat)
    by (vm_compute; lia).
  assert (Hf : (reads_left
                  (world_of [ RecvBytes [x01; x00; x00; x00; x0a];
                              RecvErr EINTR;
                              RecvBytes [x00; x00; x00; x61; x62; x05;
                                         x00; x00; x00; x09; x00; x00;
                                         x00; x63] ] []) < 40)%nat)
    by (vm_compute; lia).
  exact (connected_service_dispatches example_cfg 5555 false
           (repeat xab 20) [] 7 4 0 1 2 (Some all_ops)
           (world_of [ RecvBytes [x01; x00; x00; x00; x0a]; RecvErr EINTR;
                       RecvBytes [x00; x00; x00; x61; x62; x05; x00; x00;
                                  x00; x09; x00; x00; x00; x63] ] [])
           [frame 1 [x61; x62]; frame 5 [x63]] 40 30
           example_cfg_ok eq_refl Hd Hrc eq_refl Hdel Hl Hfs Hp Hn Hf).
Defined.

(** X18.  The handshake is computed once and sent again as it is.  A
    service made by [dmbus_service_connect] keeps its [prologue]; whatever
    happened to its buffer and its descriptor since, when [try_reconnect]
    gets through on a new descriptor it writes there, as the first bytes,
    the very bytes [dmbus_service_connect] wrote on the first descriptor,
    and then registers the read handler again. *)
Theorem handshake_resent_verbatim (cfg : dmbus_config) (base : Z)
  (upper : bool) (bs rest : list byte) (domid d rc srv devtype : Z)
  (o : dmbus_ops) (w : world) (s2 : service) (w2 : world) (d2 rc2 : Z) :
  length bs = 20%nat ->
  d <> -1 -> rc <> -1 -> send_in w = [] ->
  d2 <> -1 -> rc2 <> -1 -> send_in w2 = [] ->
  ops s2 = Some o ->
  exists c w1 hs c3 w3,
    dmbus_service_connect cfg base (to_hex upper bs ++ rest) domid true
      (SysOk d) (SysOk rc) srv devtype (Some o) w = Connected c w1
    /\ trace w1 = trace w ++ [EvSend d hs; EvSetFdHandler d true]
    /\ try_reconnect (SysOk d2) (SysOk rc2)
         {| svc := s2; peer := peer c; prologue := prologue c |} w2
       = Reconnected (reconnect o) c3 w3
    /\ trace w3 = trace w2 ++ [EvSend d2 hs; EvSetFdHandler d2 true]
    /\ Z.of_nat (length hs) = sizeof_prologue
    /\ skipn 8 hs = bs.
Proof.
  intros Hbs Hd Hrc Hs Hd2 Hrc2 Hs2 Ho.
  pose proof (connect_good cfg base upper bs rest domid d rc srv devtype
                (Some o) w Hbs Hd Hrc Hs) as Hconn.
  cbv zeta in Hconn.
  match type of Hconn with
  | _ = Connected ?c ?w1 => exists c, w1
  end.
  exists (prologue_bytes {| prologue_domain := domid;
                            prologue_type := devtype; hash := bs |}).
  unfold try_reconnect. cbn [v4v_socket v4v_connect].
  destruct (Z.eqb_spec d2 (-1)) as [?|_]; [contradiction|].
  destruct (Z.eqb_spec rc2 (-1)) as [?|_]; [contradiction|].
  unfold v4v_send. cbn [set_fd prologue svc peer ops]. rewrite Hs2.
  rewrite (length_prologue_bytes
             {| prologue_domain := domid; prologue_type := devtype;
                hash := bs |}) by exact Hbs.
  rewrite Z.eqb_refl. cbn [negb]. rewrite Ho.
  eexists. eexists.
  split; [exact Hconn|].
  cbn [trace qemu_set_fd_handler qemu_new_timer_ms emit set_timer
       set_fd_handlers].
  split; [rewrite <- app_assoc; reflexivity|].
  split; [reflexivity|].
  cbn [trace qemu_set_fd_handler emit set_fd_handlers].
  split; [rewrite <- app_assoc; reflexivity|].
  split; [reflexivity|reflexivity].
Qed.

Lemma handshake_resent_verbatim_witness :
  exists c w1 hs c3 w3,
    dmbus_service_connect example_cfg 5555
      (to_hex true (repeat xab 20) ++ []) 7 true
      (SysOk 4) (SysOk 0) 1 2 (Some all_ops) (world_of [] []) = Connected c w1
    /\ trace w1 = trace (world_of [] [])
                  ++ [EvSend 4 hs; EvSetFdHandler 4 true]
    /\ try_reconnect (SysOk 9) (SysOk 0)
         {| svc := service_of [x01; x00]; peer := peer c;
            prologue := prologue c |} (world_of [RecvBytes [x05]] [])
       = Reconnected (reconnect all_ops) c3 w3
    /\ trace w3 = trace (world_of [RecvBytes [x05]] []) ++ [EvSend 9 hs; EvSetFdHandler 9 true]
    /\ Z.of_nat (length hs) = sizeof_prologue
    /\ skipn 8 hs = repeat xab 20.
Proof.
  assert (Hd : 4 <> -1) by lia.
  assert (Hrc : 0 <> -1) by lia.
  assert (Hd2 : 9 <> -1) by lia.
  exact (handshake_resent_verbatim example_cfg 5555 true (repeat xab 20) []
           7 4 0 1 2 all_ops (world_of [] []) (service_of [x01; x00])
           (world_of [RecvBytes [x05]] []) 9 0 eq_refl Hd Hrc eq_refl Hd2 Hrc eq_refl eq_refl).
Defined.

(* ================================================================== *)
(** ** What a send does to the connection *)

Lemma send_loop_effects (s : service) (data : list byte) (len_ : Z) :
  len_ <= INT_MAX ->
  forall (fuel : nat) (b : Z) (w : world) (r : Z) (s' : service)
         (w' : world),
    0 <= b <= len_ ->
    dmbus_send_loop fuel s data len_ b w = Ret r s' w' ->
    exists chunks w0,
      trace w0 = trace w ++ map (EvSend (fd s)) chunks
      /\ timer_expire w0 = timer_expire w
      /\ fd_handlers w0 = fd_handlers w
      /\ clock_ms w0 = clock_ms w
      /\ recv_in w0 = recv_in w
      /\ ((r = len_ /\ w' = w0)
          \/ (r = -1 /\ errno w0 = ECONNRESET
              /\ w' = handle_disconnect s w0)
          \/ (r = -1 /\ errno w0 <> ECONNRESET
              /\ w' = fprintf_stderr (LogSendFailed (errno w0)) w0)).
Proof.
  intros Hmax. unfold INT_MAX in Hmax.
  induction fuel as [|fuel IH]; intros b w r s' w' Hb H; [discriminate|].
  cbn [dmbus_send_loop] in H.
  destruct (Z.ltb_spec b len_) as [Hlt|Hge].
  2:{ inversion H; subst. exists [], w'. cbn [map]. rewrite app_nil_r.
      repeat split. left. split; [|reflexivity].
      replace b with len_ by lia. apply to_int_small. lia. }
  destruct (len_ <=? Z.of_nat (length data)); [|discriminate].
  set (chunk := firstn (Z.to_nat (len_ - b)) (skipn (Z.to_nat b) data)) in *.
  assert (Hchunk : Z.of_nat (length chunk) <= len_ - b).
  { unfold chunk. rewrite length_firstn. lia. }
  pose proof (v4v_send_effects (fd s) chunk w) as Hsend.
  destruct (v4v_send (fd s) chunk w) as [rc w1]. cbn [fst snd] in Hsend.
  destruct Hsend as (Ht1 & Hh1 & Hc1 & Hr1 & Htr1).
  destruct (Z.eqb_spec rc (-1)) as [->|Hrc].
  - destruct Htr1 as [[_ Htr1]|[F _]]; [|lia].
    exists [], w1. cbn [map]. rewrite app_nil_r.
    split; [exact Htr1|]. split; [exact Ht1|]. split; [exact Hh1|].
    split; [exact Hc1|]. split; [exact Hr1|].
    destruct (Z.eqb_spec (errno w1) ECONNRESET) as [He|He];
      inversion H; subst; clear H.
    + right. left. repeat split. exact He.
    + right. right. repeat split. exact He.
  - destruct Htr1 as [[F _]|[Hrange Htr1]]; [contradiction|].
    rewrite to_size_t_small in H by lia.
    destruct (IH (b + rc) w1 r s' w' ltac:(lia) H)
      as (chunks & w0 & Htr0 & Ht0 & Hh0 & Hc0 & Hr0 & Hcases).
    exists (firstn (Z.to_nat rc) chunk :: chunks), w0.
    split.
    { rewrite Htr0, Htr1. cbn [map]. rewrite <- app_assoc. reflexivity. }
    split; [congruence|]. split; [congruence|]. split; [congruence|].
    split; [congruence|]. exact Hcases.
Qed.

Lemma handle_disconnect_errno (s : service) (w : world) :
  errno (handle_disconnect s w) = errno w.
Proof.
  unfold handle_disconnect. destruct (qemu_timer_pending w); reflexivity.
Qed.

(** X19.  What [dmbus_send] does to the connection, for a length that
    fits an [int].  It reads nothing and calls no handler of the
    consumer.  When it returns anything but -1 it returns [len], and all
    it did was writing to the descriptor of the service: nothing is
    logged, the read handler and the timer are as they were.  When it
    returns -1 on a connection reset, a reconnection is scheduled: the
    timer is armed, and if it was idle the read handler is unregistered
    and the timer fires a second after the current time.  When it returns
    -1 on another error, the failure is logged, last of all, and the
    connection stays up: read handler and timer are as they were. *)
Theorem send_reset_schedules_reconnect (cfg : dmbus_config) (fuel : nat)
  (s : service) (msgtype : Z) (data : list byte) (len_ : Z) (w : world)
  (r : Z) (d : list byte) (s' : service) (w' : world) :
  0 <= len_ <= INT_MAX ->
  dmbus_send cfg fuel s msgtype data len_ w = Ret (r, d) s' w' ->
  recv_in w' = recv_in w
  /\ no_dispatch w w'
  /\ (r <> -1 ->
      r = len_
      /\ timer_expire w' = timer_expire w
      /\ fd_handlers w' = fd_handlers w
      /\ exists chunks, trace w' = trace w ++ map (EvSend (fd s)) chunks)
  /\ (r = -1 -> errno w' = ECONNRESET ->
      qemu_timer_pending w' = true
      /\ (timer_expire w = None ->
          timer_expire w' = Some (clock_ms w + 1000)
          /\ ~ In (fd s) (fd_handlers w')))
  /\ (r = -1 -> errno w' <> ECONNRESET ->
      timer_expire w' = timer_expire w
      /\ fd_handlers w' = fd_handlers w
      /\ exists pre, trace w' = pre ++ [EvLog (LogSendFailed (errno w'))]).
Proof.
  intros Hlen H. unfold dmbus_send in H.
  destruct (stamp_header cfg msgtype len_ data) as [data'|]; [|discriminate].
  destruct (dmbus_send_loop fuel s data' len_ 0 w) as [r0 s0 w0| | |]
    eqn:Hrun; try discriminate.
  inversion H; subst; clear H.
  destruct (send_loop_effects s d len_ ltac:(lia) fuel 0 w r s' w'
              ltac:(lia) Hrun)
    as (chunks & w0 & Htr0 & Ht0 & Hh0 & Hc0 & Hr0 & Hcases).
  assert (Hnd0 : no_dispatch w w0).
  { exists (map (EvSend (fd s)) chunks). split; [exact Htr0|].
    intros h m Hin. apply in_map_iff in Hin.
    destruct Hin as (x & F & _). discriminate. }
  destruct Hcases as [[-> ->]|[(-> & He & ->)|(-> & He & ->)]].
  - split; [exact Hr0|]. split; [exact Hnd0|].
    split.
    { intros _. split; [reflexivity|]. split; [exact Ht0|].
      split; [exact Hh0|]. exists chunks. exact Htr0. }
    split; intros F; lia.
  - split; [rewrite (proj1 (handle_disconnect_queues s w0)); exact Hr0|].
    split.
    { apply (no_dispatch_trans w w0); [exact Hnd0|].
      apply handle_disconnect_no_dispatch. }
    split; [intros F; contradiction F; reflexivity|].
    split.
    + intros _ _. unfold handle_disconnect, qemu_timer_pending.
      destruct (timer_expire w0) eqn:E.
      * rewrite E. split; [reflexivity|]. intros F. congruence.
      * split; [reflexivity|]. intros _. cbn. rewrite Hc0.
        split; [reflexivity|].
        unfold remove_fd. intros Hin. apply filter_In in Hin.
        destruct Hin as [_ Hin]. rewrite Z.eqb_refl in Hin. discriminate.
    + intros _ F. rewrite handle_disconnect_errno in F. contradiction.
  - split; [exact Hr0|].
    split.
    { apply (no_dispatch_trans w w0); [exact Hnd0|].
      apply fprintf_no_dispatch. }
    split; [intros F; contradiction F; reflexivity|].
    split.
    + intros _ F. cbn in F. contradiction.
    + intros _ _. cbn [fprintf_stderr emit timer_expire fd_handlers trace
                        errno].
      split; [exact Ht0|]. split; [exact Hh0|].
      exists (trace w0). reflexivity.
Qed.

Lemma send_reset_schedules_reconnect_witness :
  exists d w',
    dmbus_send example_cfg 5 (service_of []) 5 (repeat x00 12) 12
      (world_of [] [SendRoom 3; SendErr ECONNRESET])
    = Ret (-1, d) (service_of []) w'
    /\ timer_expire w'
       = Some (clock_ms (world_of [] [SendRoom 3; SendErr ECONNRESET]) + 1000)
    /\ ~ In (fd (service_of [])) (fd_handlers w').
Proof.
  assert (Hrun : exists d w',
             dmbus_send example_cfg 5 (service_of []) 5 (repeat x00 12) 12
               (world_of [] [SendRoom 3; SendErr ECONNRESET])
             = Ret (-1, d) (service_of []) w'
             /\ errno w' = ECONNRESET)
    by (eexists; eexists; vm_compute; split; reflexivity).
  destruct Hrun as (d & w' & Hrun & He).
  assert (Hlen : 0 <= 12 <= INT_MAX) by (unfold INT_MAX; lia).
  exists d, w'. split; [exact Hrun|].
  exact (proj2 (proj1 (proj2 (proj2 (proj2
           (send_reset_schedules_reconnect example_cfg 5 (service_of []) 5
              (repeat x00 12) 12
              (world_of [] [SendRoom 3; SendErr ECONNRESET])
              (-1) d (service_of []) w' Hlen Hrun))))
           eq_refl He) eq_refl).
Defined.
